(** * Document-store access layer of the fitness tracker (src/config/database.py)

    A shallow embedding of the [Database] class: Python values, the two
    backing stores the class can hold in [self.db] (the in-memory [MockDB]
    of the source, and a CouchDB database reached through couchdb-python),
    the design documents with their map/reduce views, and the methods of the
    document access and domain query layers. *)

From Stdlib Require Import ZArith.
From stdpp Require Import base decidable option list sorting strings pretty
  gmap fin_maps infinite.

Set Warnings "-register-all".

Local Open Scope string_scope.
Local Open Scope Z_scope.

(** ** Exceptions and results *)

(** The exception classes the modelled code can meet.  [ResourceNotFound],
    [ResourceConflict] and [ServerError] are those of [couchdb.http]; the
    others are Python built-ins.  [NotModelled] marks a request whose
    meaning lies outside this
    embedding (a view whose JavaScript is not one of the source's, a Mango
    operator). *)
Inductive exn : Type :=
  | ResourceNotFound
  | ResourceConflict
  | TypeError
  | AttributeError
  | IndexError
  | KeyError
  | ServerError
  | NotModelled.

#[global] Instance exn_eq_dec : EqDecision exn.
Proof. solve_decision. Defined.

(** A call either returns a value or raises. *)
Inductive result (A : Type) : Type :=
  | Return (a : A)
  | Raise (e : exn).
Arguments Return {A} a.
Arguments Raise {A} e.

#[global] Instance result_ret : MRet result := λ A a, Return a.
#[global] Instance result_bind : MBind result := λ A B k m,
  match m with
  | Return a => k a
  | Raise e => Raise e
  end.

(** [try: m except Exception: h] *)
Definition try_except {A} (m : result A) (h : exn → result A) : result A :=
  match m with
  | Return a => Return a
  | Raise e => h e
  end.

(** [try: m except E: h], any other exception propagates. *)
Definition try_except_only {A} (E : exn) (m : result A) (h : result A)
  : result A :=
  match m with
  | Return a => Return a
  | Raise e => if decide (e = E) then h else Raise e
  end.

(** The call returns (it does not raise). *)
Definition returns {A} (m : result A) : Prop := ∃ a, m = Return a.

(** ** Python values *)

(** [datetime.datetime]: the calendar fields and, for an aware value, the UTC
    offset in minutes. *)
Record datetime : Type := Datetime {
  year : nat; month : nat; day : nat;
  hour : nat; minute : nat; second : nat; microsecond : nat;
  tzinfo : option Z
}.

#[global] Instance datetime_eq_dec : EqDecision datetime.
Proof. solve_decision. Defined.

(** The values that flow through the layer.  Numbers are integers (floats are
    outside the embedding).  A dict keeps its insertion order, as Python's
    does.  [VObj md d] is an object that is neither dict, list nor datetime:
    [md] is what its [model_dump()] returns when it has that method, [d] what
    its [dict()] returns when it has that one. *)
Inductive value : Type :=
  | VNone
  | VBool (b : bool)
  | VInt (n : Z)
  | VStr (s : string)
  | VList (l : list value)
  | VDict (d : list (string * value))
  | VDatetime (t : datetime)
  | VObj (model_dump : option value) (dict : option value).

(** A Python dict with string keys, as an association list in insertion
    order. *)
Abbreviation pydict := (list (string * value)).

(** Induction that reaches below lists, dicts and object methods. *)
Section value_induction.
Variable P : value → Prop.
Hypothesis HNone : P VNone.
Hypothesis HBool : ∀ b, P (VBool b).
Hypothesis HInt : ∀ n, P (VInt n).
Hypothesis HStr : ∀ s, P (VStr s).
Hypothesis HList : ∀ l, Forall P l → P (VList l).
Hypothesis HDict : ∀ d, Forall (λ kv, P kv.2) d → P (VDict d).
Hypothesis HDatetime : ∀ t, P (VDatetime t).
Hypothesis HObj : ∀ md d,
  (∀ v, md = Some v → P v) → (∀ v, d = Some v → P v) → P (VObj md d).

Fixpoint value_ind' (v : value) : P v :=
  match v with
  | VNone => HNone
  | VBool b => HBool b
  | VInt n => HInt n
  | VStr s => HStr s
  | VList l =>
      HList l ((fix go (l : list value) : Forall P l :=
                  match l with
                  | [] => Forall_nil_2 P
                  | x :: l' => Forall_cons_2 P x l' (value_ind' x) (go l')
                  end) l)
  | VDict d =>
      HDict d ((fix go (d : pydict) : Forall (λ kv, P kv.2) d :=
                  match d with
                  | [] => Forall_nil_2 _
                  | kv :: d' =>
                      Forall_cons_2 (λ kv, P kv.2) kv d'
                        (value_ind' kv.2) (go d')
                  end) d)
  | VDatetime t => HDatetime t
  | VObj md d =>
      HObj md d
        (match md as o return ∀ v, o = Some v → P v with
         | Some m => λ v H, eq_ind m P (value_ind' m) v (Some_inj _ _ H)
         | None => λ v H, match Some_ne_None v (eq_sym H) with end
         end)
        (match d as o return ∀ v, o = Some v → P v with
         | Some m => λ v H, eq_ind m P (value_ind' m) v (Some_inj _ _ H)
         | None => λ v H, match Some_ne_None v (eq_sym H) with end
         end)
  end.
End value_induction.

(** Structural equality, as a boolean function. *)
Fixpoint value_eqb (a b : value) : bool :=
  match a, b with
  | VNone, VNone => true
  | VBool x, VBool y => bool_decide (x = y)
  | VInt x, VInt y => bool_decide (x = y)
  | VStr x, VStr y => bool_decide (x = y)
  | VList l1, VList l2 =>
      (fix go (l1 l2 : list value) : bool :=
         match l1, l2 with
         | [], [] => true
         | x :: l1', y :: l2' => value_eqb x y && go l1' l2'
         | _, _ => false
         end) l1 l2
  | VDict d1, VDict d2 =>
      (fix go (d1 d2 : pydict) : bool :=
         match d1, d2 with
         | [], [] => true
         | kv1 :: d1', kv2 :: d2' =>
             bool_decide (kv1.1 = kv2.1) && value_eqb kv1.2 kv2.2 && go d1' d2'
         | _, _ => false
         end) d1 d2
  | VDatetime t1, VDatetime t2 => bool_decide (t1 = t2)
  | VObj m1 d1, VObj m2 d2 =>
      match m1, m2 with
      | Some x, Some y => value_eqb x y
      | None, None => true
      | _, _ => false
      end &&
      match d1, d2 with
      | Some x, Some y => value_eqb x y
      | None, None => true
      | _, _ => false
      end
  | _, _ => false
  end.

#[global] Instance value_eq_dec : EqDecision value.
Proof.
  assert (∀ a b, value_eqb a b = true ↔ a = b) as Heq.
  { intros a.
    induction a as [| | | |l IH|d IH| |md dc IHm IHd] using value_ind';
      intros [| | | |l2|d2| |md2 dc2]; simpl;
      rewrite ?bool_decide_eq_true; try (split; congruence); try done.
    - revert l2. induction IH as [|x l Hx _ IHl]; intros [|y l2];
        try (split; congruence); try done.
      rewrite andb_true_iff, Hx.
      specialize (IHl l2). split.
      + intros [-> H%IHl]. congruence.
      + intros [= -> ->]. split; [done|]. by apply IHl.
    - revert d2. induction IH as [|[k v] d Hv _ IHd]; intros [|[k2 v2] d2];
        try (split; congruence); try done.
      simpl in *. rewrite !andb_true_iff, bool_decide_eq_true, Hv.
      specialize (IHd d2). split.
      + intros [[-> ->] H%IHd]. congruence.
      + intros [= -> -> ->]. split; [done|]. by apply IHd.
    - rewrite andb_true_iff. split.
      + intros [H1 H2].
        destruct md as [m|], md2 as [m2|]; try done;
          destruct dc as [c|], dc2 as [c2|]; try done;
          repeat match goal with
          | H : value_eqb ?x ?y = true |- _ =>
              first [apply (IHm x eq_refl) in H | apply (IHd x eq_refl) in H];
              subst
          end; done.
      + intros [= -> ->]. split.
        * destruct md2 as [m|]; [|done]. by apply (IHm m eq_refl).
        * destruct dc2 as [c|]; [|done]. by apply (IHd c eq_refl).
  }
  intros a b. destruct (value_eqb a b) eqn:E.
  - left. by apply Heq.
  - right. intros H%Heq. congruence.
Defined.

(** ** Dict operations *)

(** [d.get(k)]: the value under the first occurrence of [k]. *)
Fixpoint dict_get (k : string) (d : pydict) : option value :=
  match d with
  | [] => None
  | (k', v) :: d' => if decide (k' = k) then Some v else dict_get k d'
  end.

(** [k in d] *)
Definition dict_has (k : string) (d : pydict) : bool :=
  bool_decide (is_Some (dict_get k d)).

(** [d[k] = v]: overwrite in place when the key is there, append otherwise. *)
Fixpoint dict_set (k : string) (v : value) (d : pydict) : pydict :=
  match d with
  | [] => [(k, v)]
  | (k', v') :: d' =>
      if decide (k' = k) then (k, v) :: d' else (k', v') :: dict_set k v d'
  end.

(** The dict without key [k]. *)
Definition dict_del (k : string) (d : pydict) : pydict :=
  filter (λ kv, kv.1 ≠ k) d.

(** ** [datetime.isoformat] *)

(** The decimal digit [n], for [n] below ten. *)
Definition digit (n : nat) : Ascii.ascii := Ascii.ascii_of_nat (48 + n).

(** The [w] low decimal digits of [n], most significant first. *)
Fixpoint fixed_digits (w n : nat) : string :=
  match w with
  | O => EmptyString
  | S w' => String (digit (n / 10 ^ w')) (fixed_digits w' (n `mod` 10 ^ w'))
  end.

(** [%0wd]: [w] digits, zero-padded; a number that needs more gets them. *)
Definition zfill (w n : nat) : string :=
  if decide (n < 10 ^ w)%nat then fixed_digits w n else pretty n.

(** [YYYY-MM-DDTHH:MM:SS], then [.ffffff] when the microseconds are not zero,
    then [+HH:MM] or [-HH:MM] for an aware value. *)
Definition isoformat (t : datetime) : string :=
  zfill 4 (year t) +:+ "-" +:+ zfill 2 (month t) +:+ "-" +:+ zfill 2 (day t)
  +:+ "T" +:+ zfill 2 (hour t) +:+ ":" +:+ zfill 2 (minute t)
  +:+ ":" +:+ zfill 2 (second t)
  +:+ (if decide (microsecond t = 0%nat) then EmptyString
       else "." +:+ zfill 6 (microsecond t))
  +:+ match tzinfo t with
      | None => EmptyString
      | Some off =>
          (if decide (off < 0) then "-" else "+")
          +:+ zfill 2 (Z.to_nat (Z.abs off / 60)) +:+ ":"
          +:+ zfill 2 (Z.to_nat (Z.abs off `mod` 60))
      end.

(** ** The instant of an aware datetime

    Python compares two aware datetimes of different offsets by the instants
    they denote.  The day count is that of the library's [_ymd2ord]. *)

(** [_is_leap] *)
Definition _is_leap (y : nat) : bool :=
  bool_decide (y `mod` 4 = 0)%nat
  && (negb (bool_decide (y `mod` 100 = 0)%nat)
      || bool_decide (y `mod` 400 = 0)%nat).

(** [_days_before_year]: the days before January 1st of year [y]. *)
Definition _days_before_year (y : nat) : Z :=
  let y' := Z.of_nat y - 1 in
  y' * 365 + y' `div` 4 - y' `div` 100 + y' `div` 400.

(** [_DAYS_IN_MONTH], from January. *)
Definition _DAYS_IN_MONTH : list Z :=
  [31; 28; 31; 30; 31; 30; 31; 31; 30; 31; 30; 31].

(** [_days_before_month]: the days of year [y] before the first of month
    [m]. *)
Definition _days_before_month (y m : nat) : Z :=
  foldr Z.add 0 (take (m - 1) _DAYS_IN_MONTH)
  + (if bool_decide (2 < m)%nat && _is_leap y then 1 else 0).

(** [_ymd2ord]: the ordinal of a date, 0001-01-01 being day 1. *)
Definition _ymd2ord (y m d : nat) : Z :=
  _days_before_year y + _days_before_month y m + Z.of_nat d.

(** The microseconds from the start of day 0 to the instant that [t] denotes
    at UTC offset [off] (in minutes). *)
Definition utc_microseconds (t : datetime) (off : Z) : Z :=
  (((_ymd2ord (year t) (month t) (day t) * 24 + Z.of_nat (hour t)) * 60
    + Z.of_nat (minute t) - off) * 60 + Z.of_nat (second t)) * 1000000
  + Z.of_nat (microsecond t).

(** [a == b] on datetimes: field by field when both are naive or have the
    same offset, by instant when the offsets differ; a naive and an aware
    value are never equal. *)
Definition datetime_eq (a b : datetime) : bool :=
  match tzinfo a, tzinfo b with
  | None, None => bool_decide (a = b)
  | Some x, Some y =>
      if decide (x = y) then bool_decide (a = b)
      else bool_decide (utc_microseconds a x = utc_microseconds b y)
  | _, _ => false
  end.

(** ** JSON normalisation (Database._ensure_json_serializable) *)

(** The branches are tried in the source's order: dict, list, datetime,
    [model_dump], [dict], anything else. *)
Fixpoint _ensure_json_serializable (obj : value) : value :=
  match obj with
  | VDict d =>
      VDict (map (λ kv, let '(k, v) := kv in
                        (k, _ensure_json_serializable v)) d)
  | VList l => VList (map _ensure_json_serializable l)
  | VDatetime t => VStr (isoformat t)
  | VObj (Some m) _ => _ensure_json_serializable m
  | VObj None (Some d) => _ensure_json_serializable d
  | _ => obj
  end.

(** What [json.dumps] accepts: no datetime and no foreign object anywhere. *)
Fixpoint json_ok (v : value) : bool :=
  match v with
  | VNone | VBool _ | VInt _ | VStr _ => true
  | VList l => forallb json_ok l
  | VDict d => forallb (λ kv, json_ok kv.2) d
  | VDatetime _ | VObj _ _ => false
  end.

(** A value that holds no datetime and no object with a to-mapping method:
    the values normalisation has nothing to do on. *)
Fixpoint plain (v : value) : bool :=
  match v with
  | VNone | VBool _ | VInt _ | VStr _ => true
  | VList l => forallb plain l
  | VDict d => forallb (λ kv, plain kv.2) d
  | VDatetime _ => false
  | VObj None None => true
  | VObj _ _ => false
  end.

(** ** View collation

    CouchDB orders view keys by type first (null, false, true, numbers,
    strings, arrays, objects), then inside a type: numbers by value, arrays
    element by element, objects member by member.  Strings are compared here
    by code point; CouchDB uses ICU collation, which agrees on strings that
    differ only in digits at the same positions, such as the ISO-8601
    timestamps of one format that the date views hold.  Values that are not
    JSON never reach an index; they form one class after the objects. *)

(** The place of a value's type in the collation order. *)
Definition type_rank (v : value) : nat :=
  match v with
  | VNone => 0
  | VBool false => 1
  | VBool true => 2
  | VInt _ => 3
  | VStr _ => 4
  | VList _ => 5
  | VDict _ => 6
  | _ => 7
  end.

(** Element by element; a proper prefix sorts first. *)
Fixpoint lex_compare {A} (cmp : A → A → comparison) (l1 l2 : list A)
  : comparison :=
  match l1, l2 with
  | [], [] => Eq
  | [], _ :: _ => Lt
  | _ :: _, [] => Gt
  | x :: l1', y :: l2' =>
      match cmp x y with
      | Eq => lex_compare cmp l1' l2'
      | c => c
      end
  end.

(** A member of an object: by name, then by value. *)
Definition pair_compare {A B} (c1 : A → A → comparison)
    (c2 : B → B → comparison) (p q : A * B) : comparison :=
  match c1 p.1 q.1 with
  | Eq => c2 p.2 q.2
  | c => c
  end.

(** The three-way comparison of two keys. *)
Fixpoint collate (a b : value) : comparison :=
  match a, b with
  | VInt x, VInt y => Z.compare x y
  | VStr x, VStr y => String.compare x y
  | VList l1, VList l2 => lex_compare collate l1 l2
  | VDict d1, VDict d2 =>
      lex_compare (pair_compare String.compare collate) d1 d2
  | _, _ => Nat.compare (type_rank a) (type_rank b)
  end.

(** [a] sorts at or before [b]. *)
Definition collate_le (a b : value) : Prop := collate a b ≠ Gt.

#[global] Instance collate_le_dec : RelDecision collate_le.
Proof. intros a b. unfold collate_le. apply _. Defined.

(** What makes a three-way comparison an order, stated at one element. *)
Definition cmp_ok {A} (cmp : A → A → comparison) (x : A) : Prop :=
  cmp x x = Eq ∧
  (∀ y, cmp y x = CompOpp (cmp x y)) ∧
  (∀ y z, cmp x y = Eq → cmp x z = cmp y z) ∧
  (∀ y z, cmp y z = Eq → cmp x y = cmp x z) ∧
  (∀ y z, cmp x y = Lt → cmp y z = Lt → cmp x z = Lt).

(** ** The JavaScript of the design documents

    The map and reduce functions of the source are JavaScript run by the
    CouchDB query server on JSON values.  The fragments they use are embedded
    here: property access, [===] against a string, [emit], [forEach],
    [length], and [+] inside [Array.prototype.reduce]. *)

(** A JavaScript value during evaluation: [undefined], [NaN], or a JSON
    value. *)
Inductive jsval : Type :=
  | JUndefined
  | JNaN
  | JV (v : value).

(** [v.k] on a JSON value; [None] is [undefined].  Reading a property of
    [null] throws. *)
Definition js_get (k : string) (v : value) : result (option value) :=
  match v with
  | VNone => Raise TypeError
  | VDict d => Return (dict_get k d)
  | VList l =>
      Return (if decide (k = "length") then Some (VInt (Z.of_nat (length l)))
              else None)
  | VStr s =>
      Return (if decide (k = "length") then Some (VInt (Z.of_nat (String.length s)))
              else None)
  | _ => Return None
  end.

(** [o.k] where [o] may itself be [undefined]. *)
Definition js_get_opt (k : string) (o : option value)
  : result (option value) :=
  match o with
  | None => Raise TypeError
  | Some v => js_get k v
  end.

(** [JSON.stringify] turns an [undefined] key or array element into
    [null]. *)
Definition js_null (o : option value) : value := default VNone o.

(** An object literal member: left out by [JSON.stringify] when its value is
    [undefined]. *)
Definition js_member (k : string) (o : option value) : pydict :=
  match o with
  | None => []
  | Some v => [(k, v)]
  end.

(** [String(v)]: arrays join their elements with commas, printing [null] as
    nothing; plain objects print as [[object Object]]. *)
Fixpoint js_string_of (v : value) : string :=
  match v with
  | VNone => "null"
  | VBool true => "true"
  | VBool false => "false"
  | VInt n => pretty n
  | VStr s => s
  | VList l =>
      (fix join (l : list value) : string :=
         match l with
         | [] => EmptyString
         | [x] => match x with VNone => EmptyString | _ => js_string_of x end
         | x :: l' =>
             match x with VNone => EmptyString | _ => js_string_of x end
             +:+ "," +:+ join l'
         end) l
  | _ => "[object Object]"
  end.

(** [String(x)] *)
Definition js_to_string (x : jsval) : string :=
  match x with
  | JUndefined => "undefined"
  | JNaN => "NaN"
  | JV v => js_string_of v
  end.

(** [ToPrimitive] yields a string for strings, arrays and objects. *)
Definition js_is_stringy (x : jsval) : bool :=
  match x with
  | JV (VStr _) | JV (VList _) | JV (VDict _)
  | JV (VDatetime _) | JV (VObj _ _) => true
  | _ => false
  end.

(** [ToNumber] on what is left; [None] is [NaN]. *)
Definition js_to_number (x : jsval) : option Z :=
  match x with
  | JV VNone => Some 0
  | JV (VBool b) => Some (if b then 1 else 0)
  | JV (VInt n) => Some n
  | _ => None
  end.

(** A JavaScript number is an IEEE double.  It holds every integer up to
    2^53 in absolute value, and the sum of two of them is exact when it is
    again one of them; past that bound a number read from JSON and a sum are
    rounded. *)
Definition js_safe (n : Z) : bool := (- 2 ^ 53 <=? n) && (n <=? 2 ^ 53).

(** The operand is not a number that reading it has rounded. *)
Definition js_exact (x : jsval) : bool :=
  match x with
  | JV (VInt n) => js_safe n
  | _ => true
  end.

(** [a + b].  The sums of exactly held integers that are exactly held are
    computed; what JavaScript rounds is outside the embedding. *)
Definition js_add (a b : jsval) : result jsval :=
  if negb (js_exact a && js_exact b) then Raise NotModelled else
  if js_is_stringy a || js_is_stringy b
  then Return (JV (VStr (js_to_string a +:+ js_to_string b)))
  else match js_to_number a, js_to_number b with
       | Some x, Some y =>
           if js_safe (x + y) then Return (JV (VInt (x + y)))
           else Raise NotModelled
       | _, _ => Return JNaN
       end.

(** A property read, as a JavaScript value. *)
Definition js_of_opt (o : option value) : jsval :=
  match o with
  | None => JUndefined
  | Some v => JV v
  end.

(** [JSON.stringify] of an object member: [NaN] becomes [null], [undefined]
    drops the member. *)
Definition js_json_member (k : string) (x : jsval) : pydict :=
  match x with
  | JUndefined => []
  | JNaN => [(k, VNone)]
  | JV v => [(k, v)]
  end.

(** [values.reduce(function(a, b) { return a + b.k; }, 0)] *)
Fixpoint js_sum_field (k : string) (acc : jsval) (values : list value)
  : result jsval :=
  match values with
  | [] => Return acc
  | b :: values' =>
      x ← js_get k b;
      acc' ← js_add acc (js_of_opt x);
      js_sum_field k acc' values'
  end.

(** [doc.type === 'ty'] *)
Definition has_type (ty : string) (doc : pydict) : bool :=
  bool_decide (dict_get "type" doc = Some (VStr ty)).

(** [function(doc) { if (doc.type === 'ty') { emit(doc.field, doc); } }] *)
Definition emit_field (ty field : string) (doc : pydict)
  : result (list (value * value)) :=
  Return (if has_type ty doc
          then [(js_null (dict_get field doc), VDict doc)]
          else []).

(** workouts/by_exercise:
    [doc.exercises.forEach(function(ex) { emit([ex.template_id,
    doc.start_time], doc); })].  Only an array has [forEach]. *)
Definition by_exercise_map (doc : pydict) : result (list (value * value)) :=
  if has_type "workout" doc then
    match dict_get "exercises" doc with
    | Some (VList exs) =>
        mapM (λ ex, tid ← js_get "template_id" ex;
                    Return (VList [js_null tid;
                                   js_null (dict_get "start_time" doc)],
                            VDict doc)) exs
    | _ => Raise TypeError
    end
  else Return [].

(** workouts/stats map:
    [emit(doc.start_time, {duration: doc.duration,
    exercise_count: doc.exercises.length})] *)
Definition stats_map (doc : pydict) : result (list (value * value)) :=
  if has_type "workout" doc then
    n ← js_get_opt "length" (dict_get "exercises" doc);
    Return [(js_null (dict_get "start_time" doc),
             VDict (js_member "duration" (dict_get "duration" doc)
                    ++ js_member "exercise_count" n))]
  else Return [].

(** workouts/stats reduce.  The function takes [rereduce] and does not look
    at it. *)
Definition stats_reduce (keys : list value) (values : list value)
    (rereduce : bool) : result value :=
  total_duration ← js_sum_field "duration" (JV (VInt 0)) values;
  total_exercises ← js_sum_field "exercise_count" (JV (VInt 0)) values;
  Return (VDict (js_json_member "total_duration" total_duration
                 ++ js_json_member "total_exercises" total_exercises
                 ++ [("count", VInt (Z.of_nat (length values)))])).

(** ** Design documents (the dict literals of _create_design_documents) *)

(** A view with a map function and no reduce. *)
Definition map_only (js : string) : value := VDict [("map", VStr js)].

(** The views of _design/users. *)
Definition users_views : pydict :=
  [("by_username", map_only
      "function(doc) { if (doc.type === 'user_profile') { emit(doc.username, doc); } }");
   ("by_email", map_only
      "function(doc) { if (doc.type === 'user_profile') { emit(doc.email, doc); } }")].

(** The views of _design/exercises. *)
Definition exercises_views : pydict :=
  [("by_hevy_id", map_only
      "function(doc) { if (doc.type === 'exercise') { emit(doc.hevy_id, doc); } }");
   ("by_muscle_group", map_only
      "function(doc) { if (doc.type === 'exercise') { emit(doc.muscle_group, doc); } }");
   ("all", map_only
      "function(doc) { if (doc.type === 'exercise') { emit(doc._id, doc); } }")].

(** The views of _design/workouts. *)
Definition workouts_views : pydict :=
  [("by_hevy_id", map_only
      "function(doc) { if (doc.type === 'workout') { emit(doc.hevy_id, doc); } }");
   ("by_date", map_only
      "function(doc) { if (doc.type === 'workout') { emit(doc.start_time, doc); } }");
   ("by_exercise", map_only
      "function(doc) { if (doc.type === 'workout') { doc.exercises.forEach(function(ex) { emit([ex.template_id, doc.start_time], doc); }); } }");
   ("stats", VDict
      [("map", VStr
          "function(doc) { if (doc.type === 'workout') { emit(doc.start_time, {duration: doc.duration, exercise_count: doc.exercises.length}); } }");
       ("reduce", VStr
          "function(keys, values, rereduce) { return {total_duration: values.reduce(function(a, b) { return a + b.duration; }, 0), total_exercises: values.reduce(function(a, b) { return a + b.exercise_count; }, 0), count: values.length}; }")])].

(** The document id of a design document. *)
Definition design_id (name : string) : string := "_design/" +:+ name.

(** The dict the bootstrap saves. *)
Definition design_document (name : string) (views : pydict) : value :=
  VDict [("_id", VStr (design_id name)); ("views", VDict views)].

(** The views the source defines for a design document name. *)
Definition source_views (design : string) : option pydict :=
  if decide (design = "users") then Some users_views
  else if decide (design = "exercises") then Some exercises_views
  else if decide (design = "workouts") then Some workouts_views
  else None.

(** What a view computes: its map function, and whether it carries the stats
    reduce. *)
Record view_sem : Type := ViewSem {
  vmap : pydict → result (list (value * value));
  vreduce : option (list value → list value → bool → result value)
}.

(** The meaning of each JavaScript text above. *)
Definition source_view_sem (design view : string) : option view_sem :=
  match design, view with
  | "users", "by_username" =>
      Some (ViewSem (emit_field "user_profile" "username") None)
  | "users", "by_email" =>
      Some (ViewSem (emit_field "user_profile" "email") None)
  | "exercises", "by_hevy_id" =>
      Some (ViewSem (emit_field "exercise" "hevy_id") None)
  | "exercises", "by_muscle_group" =>
      Some (ViewSem (emit_field "exercise" "muscle_group") None)
  | "exercises", "all" =>
      Some (ViewSem (emit_field "exercise" "_id") None)
  | "workouts", "by_hevy_id" =>
      Some (ViewSem (emit_field "workout" "hevy_id") None)
  | "workouts", "by_date" =>
      Some (ViewSem (emit_field "workout" "start_time") None)
  | "workouts", "by_exercise" => Some (ViewSem by_exercise_map None)
  | "workouts", "stats" => Some (ViewSem stats_map (Some stats_reduce))
  | _, _ => None
  end.

(** ** View queries *)

(** The keyword arguments the source passes to [db.view]. *)
Record view_opts : Type := ViewOpts {
  key : option value;
  startkey : option value;
  endkey : option value;
  include_docs : bool
}.

(** [db.view(name)] without keyword arguments. *)
Definition no_opts : view_opts := ViewOpts None None None false.

(** A row of a view result.  A reduced row has no document id. *)
Record row : Type := Row {
  row_id : option string;
  row_key : value;
  row_value : value;
  row_doc : option value
}.

(** Rows come back ordered by key, then by document id. *)
Definition row_le (r1 r2 : row) : Prop :=
  match collate (row_key r1) (row_key r2) with
  | Lt => True
  | Eq => String.le (default EmptyString (row_id r1))
                    (default EmptyString (row_id r2))
  | Gt => False
  end.

#[global] Instance row_le_dec : RelDecision row_le.
Proof. intros r1 r2. unfold row_le. destruct (collate _ _); apply _. Defined.

(** [key=], [startkey=] and [endkey=] select by collation; both ends of a
    range are inclusive. *)
Definition in_range (o : view_opts) (k : value) : bool :=
  match key o with
  | Some k0 => bool_decide (collate k k0 = Eq)
  | None => true
  end
  && match startkey o with
     | Some lo => bool_decide (collate_le lo k)
     | None => true
     end
  && match endkey o with
     | Some hi => bool_decide (collate_le k hi)
     | None => true
     end.

(** ** The CouchDB store

    [self.db] when the connection succeeds: a [couchdb.Database].  Its code
    is not part of the repository; this section states the behaviour of the
    calls the source makes on it (document PUT/POST with revision check,
    view and Mango queries), as CouchDB and couchdb-python document it. *)

(** A stored document: its revision generation and its members other than
    [_id] and [_rev]. *)
Record entry : Type := Entry {
  e_gen : nat;
  e_body : pydict
}.

(** The database: its documents by id, and the number of rows a leaf of a
    view index holds (CouchDB derives it from its B-tree chunk size). *)
Record couch : Type := Couch {
  docs : gmap string entry;
  leaf_capacity : nat
}.

(** The revision token [N-hash].  The generation [N] grows by one with each
    update; the hash part is a fixed text here. *)
Definition rev_token (gen : nat) : string := pretty gen +:+ "-couch".

(** The document as the server returns it. *)
Definition doc_of (id : string) (e : entry) : pydict :=
  ("_id", VStr id) :: ("_rev", VStr (rev_token (e_gen e))) :: e_body e.

(** The members the server stores as the body. *)
Definition strip (d : pydict) : pydict := dict_del "_rev" (dict_del "_id" d).

(** Design documents are those whose id starts with [_design/]. *)
Definition is_design (id : string) : bool := String.prefix "_design/" id.

(** Server-assigned ids: the first unused one of uuid0, uuid1, ... *)
Definition uuid_of (n : nat) : string := "uuid" +:+ pretty n.

#[global] Instance uuid_of_inj : Inj (=) (=) uuid_of.
Proof. intros n m H. unfold uuid_of in H. by simplify_eq. Qed.

(** The search for the first unused id. *)
Definition uuid_supply : Infinite string := search_infinite uuid_of.

(** The id the server assigns to a POSTed document. *)
Definition fresh_uuid (st : couch) : string :=
  @infinite_fresh string uuid_supply (map fst (map_to_list (docs st))).

(** [db.save(doc)]: PUT under the document's [_id], or POST for a new id when
    it has none.  The write is accepted when the document is new and carries
    no [_rev], or exists and carries its current [_rev]; otherwise the server
    answers 409.  On success couchdb-python stores the id and the new
    revision into the caller's dict and returns them. *)
Definition couch_save (st : couch) (doc : value)
  : result (value * value * value * couch) :=
  if negb (json_ok doc) then Raise TypeError else
  match doc with
  | VDict d =>
      id ← match dict_get "_id" d with
           | None => Return (fresh_uuid st)
           | Some (VStr i) => Return i
           | Some _ => Raise TypeError
           end;
      gen ← match docs st !! id, dict_get "_rev" d with
            | None, None => Return 1%nat
            | Some e, Some (VStr r) =>
                if decide (r = rev_token (e_gen e)) then Return (S (e_gen e))
                else Raise ResourceConflict
            | _, _ => Raise ResourceConflict
            end;
      let rev := rev_token gen in
      Return (VStr id, VStr rev,
              VDict (dict_set "_rev" (VStr rev) (dict_set "_id" (VStr id) d)),
              Couch (<[id := Entry gen (strip d)]> (docs st))
                    (leaf_capacity st))
  | _ => Raise TypeError
  end.

(** [id in db] *)
Definition couch_contains (st : couch) (id : string) : result bool :=
  Return (bool_decide (is_Some (docs st !! id))).

(** Looking a view up: 404 when the design document or the view is missing.
    A view is interpreted when its definition is the one the source
    writes. *)
Definition resolve (st : couch) (design view : string) : result view_sem :=
  match docs st !! design_id design with
  | None => Raise ResourceNotFound
  | Some e =>
      match dict_get "views" (e_body e) with
      | Some (VDict vs) =>
          match dict_get view vs with
          | None => Raise ResourceNotFound
          | Some def =>
              match source_views design ≫= dict_get view,
                    source_view_sem design view with
              | Some def', Some sem =>
                  if decide (def = def') then Return sem
                  else Raise NotModelled
              | _, _ => Raise NotModelled
              end
          end
      | _ => Raise ResourceNotFound
      end
  end.

(** The rows one document contributes.  A map function that throws on a
    document contributes nothing for it; design documents are not indexed. *)
Definition doc_rows (sem : view_sem) (ide : string * entry) : list row :=
  let '(id, e) := ide in
  if is_design id then [] else
  match vmap sem (doc_of id e) with
  | Return kvs =>
      map (λ kv, Row (Some id) kv.1 kv.2 (Some (VDict (doc_of id e)))) kvs
  | Raise _ => []
  end.

(** The whole index of a view, in index order. *)
Definition index_rows (sem : view_sem) (st : couch) : list row :=
  merge_sort row_le (map_to_list (docs st) ≫= doc_rows sem).

(** Consecutive groups of at most [n] rows. *)
Fixpoint chunks {A} (n : nat) (l : list A) : list (list A) :=
  match l with
  | [] => []
  | x :: l' =>
      match chunks n l' with
      | g :: gs =>
          if decide (length g < n)%nat then (x :: g) :: gs
          else [x] :: g :: gs
      | [] => [[x]]
      end
  end.

(** Reduction of the selected rows.  Rows of one leaf are reduced by one call
    with [rereduce = false]; when they span several leaves, each leaf is
    reduced that way and the partial results are combined by a call with
    [rereduce = true] and no keys. *)
Definition run_reduce
    (red : list value → list value → bool → result value)
    (n : nat) (rows : list row) : result value :=
  match chunks n rows with
  | [g] => red (map row_key g) (map row_value g) false
  | gs =>
      partials ← mapM (λ g, red (map row_key g) (map row_value g) false) gs;
      red [] partials true
  end.

(** [row.doc] is [None] unless [include_docs] is set. *)
Definition with_doc (o : view_opts) (r : row) : row :=
  if include_docs o then r
  else Row (row_id r) (row_key r) (row_value r) None.

(** couchdb-python encodes the keys as JSON before it sends the query. *)
Definition opts_json_ok (o : view_opts) : bool :=
  from_option json_ok true (key o)
  && from_option json_ok true (startkey o)
  && from_option json_ok true (endkey o).

(** [db.view(design/view, **opts)], iterated.  A view with a reduce function
    is reduced (reduce defaults to true, a single ungrouped row); a reduced
    query cannot include documents; a failing reduce function fails the
    query.  Where the embedding does not compute the reduce function, it does
    not say what the query returns. *)
Definition couch_view (st : couch) (design view : string) (o : view_opts)
  : result (list row) :=
  if negb (opts_json_ok o) then Raise TypeError else
  sem ← resolve st design view;
  let rows := filter (λ r, in_range o (row_key r) = true)
                     (index_rows sem st) in
  match vreduce sem with
  | None => Return (map (with_doc o) rows)
  | Some red =>
      if include_docs o then Raise ServerError else
      match rows with
      | [] => Return []
      | _ =>
          try_except
            (v ← run_reduce red (leaf_capacity st) rows;
             Return [Row None VNone v None])
            (λ e, if decide (e = NotModelled) then Raise NotModelled
                  else Raise ServerError)
      end
  end.

(** A Mango selector made of plain member equalities.  Operators and nested
    selectors (a dict as the wanted value) are outside the embedding. *)
Definition selector_matches (sel : pydict) (doc : pydict) : bool :=
  forallb (λ kv, bool_decide (dict_get kv.1 doc = Some kv.2)) sel.

(** Document order: by id. *)
Definition id_le (a b : string * entry) : Prop := String.le a.1 b.1.

#[global] Instance id_le_dec : RelDecision id_le.
Proof. intros a b. unfold id_le. apply _. Defined.

(** [db.find(query)]: the matching documents in id order, each with the key
    it is stored under. *)
Definition couch_find (st : couch) (query : pydict)
  : result (list (value * pydict)) :=
  if negb (json_ok (VDict query)) then Raise TypeError else
  match dict_get "selector" query with
  | Some (VDict sel) =>
      if forallb (λ kv, match kv.2 with VDict _ => false | _ => true end) sel
      then Return
             (map (λ ide, (VStr ide.1, doc_of ide.1 ide.2))
                (filter (λ ide, is_design ide.1 = false ∧
                           selector_matches sel (doc_of ide.1 ide.2) = true)
                   (merge_sort id_le (map_to_list (docs st)))))
      else Raise NotModelled
  | _ => Raise ServerError
  end.

(** ** The mock store (class MockDB of _create_mock_database) *)

(** [self.data] is a Python dict from ids to the saved dict objects, in
    insertion order; [self.counter] numbers the ids the mock hands out.  An
    id can be any hashable value; lists and dicts are not hashable, and
    [True]/[False] are the keys [1]/[0]. *)
Record MockDB : Type := Mock {
  data : list (value * pydict);
  counter : nat
}.

(** What can be a key of a Python dict. *)
Definition hashable (v : value) : bool :=
  match v with
  | VList _ | VDict _ => false
  | _ => true
  end.

(** The key as the dict hashes and compares it. *)
Definition py_key (v : value) : value :=
  match v with
  | VBool b => VInt (if b then 1 else 0)
  | _ => v
  end.

(** [self.data.get(k)] *)
Fixpoint data_get (k : value) (l : list (value * pydict)) : option pydict :=
  match l with
  | [] => None
  | (k', d) :: l' => if decide (py_key k' = py_key k) then Some d
                     else data_get k l'
  end.

(** [self.data[k] = d] *)
Fixpoint data_set (k : value) (d : pydict) (l : list (value * pydict))
  : list (value * pydict) :=
  match l with
  | [] => [(k, d)]
  | (k', d') :: l' =>
      if decide (py_key k' = py_key k) then (k', d) :: l'
      else (k', d') :: data_set k d l'
  end.

(** [MockDB.save]: an id [mock_<counter>] for a dict without [_id], then the
    dict is stored under its id.  No revision is looked at; the revision
    returned is always [1-mock]. *)
Definition mock_save (m : MockDB) (doc : value)
  : result (value * value * value * MockDB) :=
  match doc with
  | VDict d =>
      let '(d', c') :=
        if dict_has "_id" d then (d, counter m)
        else (dict_set "_id" (VStr ("mock_" +:+ pretty (counter m))) d,
              S (counter m)) in
      match dict_get "_id" d' with
      | Some id =>
          if hashable id
          then Return (id, VStr "1-mock", VDict d',
                       Mock (data_set id d' (data m)) c')
          else Raise TypeError
      | None => Raise KeyError
      end
  | _ => Raise TypeError
  end.

(** [MockDB.get] *)
Definition mock_get (m : MockDB) (doc_id : value) : result (option pydict) :=
  if hashable doc_id then Return (data_get doc_id (data m))
  else Raise TypeError.

(** [a == b], of which [!=] is the negation: [True] and [False] are the
    numbers 1 and 0; lists are equal element by element; dicts are equal
    when they have the same keys with equal values, in any order; datetimes
    as [datetime_eq] says; values of different kinds are not equal.  An
    object is the one its description names. *)
Fixpoint py_eq (a b : value) : bool :=
  match a, b with
  | VNone, VNone => true
  | VBool x, VBool y => bool_decide (x = y)
  | VBool x, VInt n | VInt n, VBool x =>
      bool_decide (n = if x then 1 else 0)
  | VInt n, VInt n' => bool_decide (n = n')
  | VStr s, VStr s' => bool_decide (s = s')
  | VList l, VList l' =>
      (fix all_eq (l : list value) (l' : list value) : bool :=
         match l, l' with
         | [], [] => true
         | x :: l, y :: l' => py_eq x y && all_eq l l'
         | _, _ => false
         end) l l'
  | VDict d, VDict d' =>
      bool_decide (length d = length d')
      && forallb (λ kv, match dict_get kv.1 d' with
                        | Some v' => py_eq kv.2 v'
                        | None => false
                        end) d
  | VDatetime t, VDatetime t' => datetime_eq t t'
  | VObj md d, VObj md' d' => bool_decide (a = b)
  | _, _ => false
  end.

(** The inner loop of [MockDB.find]: every member of the selector must be in
    the document with an equal value,
    [key not in doc or doc[key] != value] being false. *)
Definition mock_match (sel : pydict) (doc : pydict) : bool :=
  forallb (λ kv, match dict_get kv.1 doc with
                 | Some v => py_eq v kv.2
                 | None => false
                 end) sel.

(** [MockDB.find]: the stored dicts, in insertion order, that match
    [selector["selector"]]; all of them when there is no such member.
    [selector["selector"].items()] is evaluated once for every stored dict:
    with nothing stored any selector gives the empty list, otherwise one
    that is not a dict has no [items]. *)
Definition mock_find (m : MockDB) (selector : pydict)
  : result (list (value * pydict)) :=
  match dict_get "selector" selector with
  | None => Return (data m)
  | Some (VDict sel) =>
      Return (filter (λ kd, mock_match sel kd.2 = true) (data m))
  | Some other =>
      match data m with
      | [] => Return []
      | _ :: _ =>
          match other with
          | VObj _ _ => Raise NotModelled
          | _ => Raise AttributeError
          end
      end
  end.

(** ** The store interface

    What the methods of [Database] call on [self.db].  [db_assign] is the
    effect on the store of assigning into a document object that a query
    returned: the mock hands out the stored dicts themselves, so they change
    in place; CouchDB hands out copies. *)
Class Store (S : Type) : Type := {
  db_save : S → value → result (value * value * value * S);
  db_contains : S → string → result bool;
  db_view : S → string → string → view_opts → result (list row);
  db_find : S → pydict → result (list (value * pydict));
  db_assign : S → value → pydict → S
}.

#[global] Instance couch_store : Store couch := {|
  db_save := couch_save;
  db_contains := couch_contains;
  db_view := couch_view;
  db_find := couch_find;
  db_assign st _ _ := st
|}.

(** [MockDB] defines [save], [get] and [find] only: [in] on it is a
    [TypeError], [view] an [AttributeError]. *)
#[global] Instance mock_store : Store MockDB := {|
  db_save := mock_save;
  db_contains _ _ := Raise TypeError;
  db_view _ _ _ _ := Raise AttributeError;
  db_find := mock_find;
  db_assign m k d := Mock (data_set k d (data m)) (counter m)
|}.

(** ** The Database methods

    Written once over the store interface, as the class is written once over
    [self.db].  A method that changes the store returns the new store next to
    its Python result. *)

(** Python truth value, for [if existing:]. *)
Definition truthy (v : value) : bool :=
  match v with
  | VNone => false
  | VBool b => b
  | VInt n => bool_decide (n ≠ 0)
  | VStr s => bool_decide (s ≠ EmptyString)
  | VList l => bool_decide (l ≠ [])
  | VDict d => bool_decide (d ≠ [])
  | VDatetime _ | VObj _ _ => true
  end.

(** [v[k]] on a value that should be a dict. *)
Definition subscript (v : value) (k : string) : result value :=
  match v with
  | VDict d =>
      match dict_get k d with
      | Some x => Return x
      | None => Raise KeyError
      end
  | _ => Raise TypeError
  end.

Section Database.
Context {S : Type} `{!Store S}.

(** One of the three blocks of _create_design_documents: save the design
    document unless its id is in the database. *)
Definition ensure_design (name : string) (views : pydict) (db : S)
  : result S :=
  present ← db_contains db (design_id name);
  if (present : bool) then Return db
  else r ← db_save db (design_document name views); Return r.2.

(** The three blocks run inside one [try]; [except Exception] logs and
    returns, keeping what was saved before the failure. *)
Definition _create_design_documents (db : S) : S :=
  match ensure_design "users" users_views db with
  | Raise _ => db
  | Return db1 =>
      match ensure_design "exercises" exercises_views db1 with
      | Raise _ => db1
      | Return db2 =>
          match ensure_design "workouts" workouts_views db2 with
          | Raise _ => db2
          | Return db3 => db3
          end
      end
  end.

(** The handler logs and re-raises. *)
Definition save_document (db : S) (doc : value)
  : result (value * value * S) :=
  try_except
    (r ← db_save db (_ensure_json_serializable doc);
     Return (r.1.1.1, r.1.1.2, r.2))
    (λ e, Raise e).

(** [return self.db.save(doc)] *)
Definition update_document (db : S) (doc : value)
  : result (value * value * S) :=
  r ← db_save db doc; Return (r.1.1.1, r.1.1.2, r.2).

(** [[row.value for row in rows]] *)
Definition values_of (rows : list row) : list value := map row_value rows.

(** The handler for ResourceNotFound returns the empty list; any other
    exception propagates. *)
Definition get_workouts_by_date_range (db : S) (start_date end_date : datetime)
  : result (list value) :=
  try_except_only ResourceNotFound
    (rows ← db_view db "workouts" "by_date"
              (ViewOpts None (Some (VStr (isoformat start_date)))
                        (Some (VStr (isoformat end_date))) false);
     Return (values_of rows))
    (Return []).

(** [endkey=[id, {}]]: the empty object sorts after every string. *)
Definition exercise_range (exercise_template_id : string) (docs : bool)
  : view_opts :=
  ViewOpts None (Some (VList [VStr exercise_template_id]))
           (Some (VList [VStr exercise_template_id; VDict []])) docs.

(** No handler. *)
Definition get_workouts_by_exercise (db : S) (exercise_template_id : string)
  : result (list value) :=
  rows ← db_view db "workouts" "by_exercise"
           (exercise_range exercise_template_id false);
  Return (values_of rows).

(** [if start_date and end_date]: a datetime is always true, [None] never. *)
Definition get_workout_stats (db : S) (start_date end_date : option datetime)
  : result (list value) :=
  match start_date, end_date with
  | Some s, Some e =>
      rows ← db_view db "workouts" "stats"
               (ViewOpts None (Some (VStr (isoformat s)))
                         (Some (VStr (isoformat e))) false);
      Return (values_of rows)
  | _, _ =>
      rows ← db_view db "workouts" "stats" no_opts;
      Return (values_of rows)
  end.

(** No handler; the range of get_workouts_by_exercise, with
    [include_docs]. *)
Definition get_workout_progression (db : S) (exercise_template_id : string)
  : result (list value) :=
  rows ← db_view db "workouts" "by_exercise"
           (exercise_range exercise_template_id true);
  Return (values_of rows).

(** [doc["preferred_workout_days"][0]] when that member is a list. *)
Definition first_workout_day (doc : pydict) : option (result value) :=
  match dict_get "preferred_workout_days" doc with
  | Some (VList l) =>
      Some (match l with
            | x :: _ => Return x
            | [] => Raise IndexError
            end)
  | _ => None
  end.

(** The loop returns inside its first iteration: the first found document,
    after the repair of a list under [preferred_workout_days], which assigns
    into the found document.  Any exception gives [None]. *)
Definition get_user_by_username (db : S) (username : string)
  : result (option pydict * S) :=
  try_except
    (let query :=
       [("selector", VDict [("type", VStr "user_profile");
                             ("username", VStr username)])] in
     found ← db_find db query;
     match found with
     | (k, doc) :: _ =>
         match first_workout_day doc with
         | Some first =>
             x ← first;
             let doc' := dict_set "preferred_workout_days" x doc in
             Return (Some doc', db_assign db k doc')
         | None => Return (Some doc, db)
         end
     | [] => Return (None, db)
     end)
    (λ _, Return (None, db)).

(** [for row in results: return row.doc], [None] after an empty loop and on
    any exception. *)
Definition get_by_hevy_id (design : string) (db : S) (hevy_id : value)
  : result (option value) :=
  try_except
    (rows ← db_view db design "by_hevy_id"
              (ViewOpts (Some hevy_id) None None true);
     Return (head rows ≫= row_doc))
    (λ _, Return None).

Definition get_exercise_by_hevy_id : S → value → result (option value) :=
  get_by_hevy_id "exercises".

Definition get_workout_by_hevy_id : S → value → result (option value) :=
  get_by_hevy_id "workouts".

(** [[row.doc for row in view]], the empty list on any exception. *)
Definition get_exercises_by_muscle_group (db : S) (muscle_group : value)
  : result (list (option value)) :=
  try_except
    (rows ← db_view db "exercises" "by_muscle_group"
              (ViewOpts (Some muscle_group) None None true);
     Return (map row_doc rows))
    (λ _, Return []).

(** [[row.doc for row in view]], the empty list on any exception. *)
Definition get_all_exercises (db : S) : result (list (option value)) :=
  try_except
    (rows ← db_view db "exercises" "all" (ViewOpts None None None true);
     Return (map row_doc rows))
    (λ _, Return []).

(** The reconciliation of save_exercise and save_workout: when the payload
    has [hevy_id] and the lookup finds a document, the payload takes over its
    [_id] and [_rev]. *)
Definition reconcile (lookup : S → value → result (option value))
    (db : S) (payload : pydict) : result pydict :=
  match dict_get "hevy_id" payload with
  | Some hevy_id =>
      existing ← lookup db hevy_id;
      match existing with
      | Some ex =>
          if truthy ex then
            id ← subscript ex "_id";
            rev ← subscript ex "_rev";
            Return (dict_set "_rev" rev (dict_set "_id" id payload))
          else Return payload
      | None => Return payload
      end
  | None => Return payload
  end.

(** Returns the document id; next to it, the caller's dict as the call
    leaves it, and the store.  The handler logs and re-raises. *)
Definition save_by_hevy_id (lookup : S → value → result (option value))
    (db : S) (payload : pydict) : result (value * value * S) :=
  try_except
    (payload' ← reconcile lookup db payload;
     r ← db_save db (VDict payload');
     Return (r.1.1.1, r.1.2, r.2))
    (λ e, Raise e).

Definition save_exercise : S → pydict → result (value * value * S) :=
  save_by_hevy_id get_exercise_by_hevy_id.

Definition save_workout : S → pydict → result (value * value * S) :=
  save_by_hevy_id get_workout_by_hevy_id.

End Database.

(** ** Documents by id

    The other calls the class makes on [self.db]: [db[id]], [db.get(id)],
    [db.delete(doc)] and the built-in view [_all_docs].  [MockDB] defines
    [get] only. *)

(** An id that names a document.  The empty path and the paths that start
    with an underscore are resources of the database itself ([_all_docs],
    [_changes], ...), the design documents with a name apart; reading them
    is outside the embedding. *)
Definition doc_id_ok (id : string) : bool :=
  bool_decide (id ≠ EmptyString)
  && (negb (String.prefix "_" id)
      || is_design id && bool_decide (id ≠ "_design/")).

(** [db[id]]: the document as the server returns it, or 404. *)
Definition couch_getitem (st : couch) (id : string) : result pydict :=
  if negb (doc_id_ok id) then Raise NotModelled else
  match docs st !! id with
  | Some e => Return (doc_of id e)
  | None => Raise ResourceNotFound
  end.

(** [db.get(id)]: couchdb-python catches the 404 and returns its default,
    [None]. *)
Definition couch_get (st : couch) (id : string) : result (option pydict) :=
  try_except_only ResourceNotFound
    (d ← couch_getitem st id; Return (Some d))
    (Return None).

(** [db.delete(doc)]: DELETE of [doc["_id"]] at revision [doc["_rev"]]; the
    server checks the revision as it does for a write.  The embedding keeps
    no tombstone of a deleted document: an id used again starts at
    generation 1, where CouchDB continues the count. *)
Definition couch_delete (st : couch) (doc : pydict) : result couch :=
  id ← subscript (VDict doc) "_id";
  rev ← subscript (VDict doc) "_rev";
  match id, rev with
  | VStr i, VStr r =>
      if negb (doc_id_ok i) then Raise NotModelled else
      match docs st !! i with
      | Some e =>
          if decide (r = rev_token (e_gen e))
          then Return (Couch (delete i (docs st)) (leaf_capacity st))
          else Raise ResourceConflict
      | None => Raise ResourceNotFound
      end
  | _, _ => Raise NotModelled
  end.

(** A row of [_all_docs]: the id is the key, the value holds the revision. *)
Definition all_docs_row (with_docs : bool) (ide : string * entry) : row :=
  Row (Some ide.1) (VStr ide.1)
      (VDict [("rev", VStr (rev_token (e_gen ide.2)))])
      (if with_docs then Some (VDict (doc_of ide.1 ide.2)) else None).

(** [db.view("_all_docs", include_docs=b)], iterated: a row for every
    document, design documents included, in id order. *)
Definition couch_all_docs (st : couch) (with_docs : bool)
  : result (list row) :=
  Return (map (all_docs_row with_docs)
            (merge_sort id_le (map_to_list (docs st)))).

(** What the remaining methods call on [self.db]. *)
Class DocStore (S : Type) : Type := {
  db_getitem : S → string → result pydict;
  db_get : S → string → result (option pydict);
  db_delete : S → pydict → result S;
  db_all_docs : S → bool → result (list row)
}.

#[global] Instance couch_doc_store : DocStore couch := {|
  db_getitem := couch_getitem;
  db_get := couch_get;
  db_delete := couch_delete;
  db_all_docs := couch_all_docs
|}.

(** A [MockDB] object is not subscriptable and has neither [delete] nor
    [view]. *)
#[global] Instance mock_doc_store : DocStore MockDB := {|
  db_getitem _ _ := Raise TypeError;
  db_get m id := mock_get m (VStr id);
  db_delete _ _ := Raise AttributeError;
  db_all_docs _ _ := Raise AttributeError
|}.

(** ** The Database methods on single documents *)

(** [datetime.now(timezone.utc)]: the reading of the clock as an aware value
    at offset zero. *)
Definition utc_now (clock : datetime) : datetime :=
  Datetime (year clock) (month clock) (day clock) (hour clock)
           (minute clock) (second clock) (microsecond clock) (Some 0).

(** The one-character strings of a string. *)
Fixpoint characters (s : string) : list value :=
  match s with
  | EmptyString => []
  | String c s' => VStr (String c EmptyString) :: characters s'
  end.

(** What [list.extend(v)] iterates over: the elements of a list, the
    characters of a string, the keys of a dict.  [None], booleans, integers
    and datetimes are not iterable; whether another object is, the embedding
    does not say. *)
Definition iterate (v : value) : result (list value) :=
  match v with
  | VList l => Return l
  | VStr s => Return (characters s)
  | VDict d => Return (map (λ kv, VStr kv.1) d)
  | VObj _ _ => Raise NotModelled
  | _ => Raise TypeError
  end.

(** [if doc and "exercises" in doc: exercises.extend(doc["exercises"])] *)
Definition extend_from (exercises : list value) (doc : option pydict)
  : result (list value) :=
  match doc with
  | Some d =>
      if truthy (VDict d) && dict_has "exercises" d then
        x ← subscript (VDict d) "exercises";
        items ← iterate x;
        Return (exercises ++ items)%list
      else Return exercises
  | None => Return exercises
  end.

(** The id save_exercises stores a list under. *)
Definition exercises_doc_id (user_id : option string) : string :=
  match user_id with
  | Some u => "custom_exercises_" +:+ u
  | None => "base_exercises"
  end.

(** Its [type] member. *)
Definition exercises_doc_type (user_id : option string) : string :=
  match user_id with
  | Some _ => "custom_exercise_list"
  | None => "base_exercise_list"
  end.

Section Documents.
Context {S : Type} `{!Store S} `{!DocStore S}.

(** ResourceNotFound gives [None]; the second handler logs and re-raises. *)
Definition get_document (db : S) (doc_id : string) : result (option pydict) :=
  try_except
    (doc ← db_getitem db doc_id; Return (Some doc))
    (λ e, if decide (e = ResourceNotFound) then Return None else Raise e).

(** [True] after the delete, [False] when the document is not found. *)
Definition delete_document (db : S) (doc_id : string) : result (bool * S) :=
  try_except_only ResourceNotFound
    (doc ← db_getitem db doc_id;
     db' ← db_delete db doc;
     Return (true, db'))
    (Return (false, db)).

(** The rows of [_all_docs] themselves, not their documents. *)
Definition get_all_documents (db : S) : result (list row) :=
  rows ← db_all_docs db true; Return rows.

(** The fetched design document, or a new dict when there is none; its
    [views] member is assigned a dict that holds the one view. *)
Definition create_view (db : S) (design_doc_name view_name : string)
    (map_function reduce_function : value) : result (value * value * S) :=
  design_doc ← try_except_only ResourceNotFound
                  (db_getitem db (design_id design_doc_name))
                  (Return [("_id", VStr (design_id design_doc_name))]);
  let design_doc' :=
    dict_set "views"
      (VDict [(view_name, VDict [("map", map_function);
                                 ("reduce", reduce_function)])])
      design_doc in
  r ← db_save db (VDict design_doc');
  Return (r.1.1.1, r.1.1.2, r.2).

(** No handler.  The view is users/by_fitness_goals. *)
Definition get_users_by_fitness_goal (db : S) (goal : string)
  : result (list value) :=
  rows ← db_view db "users" "by_fitness_goals"
           (ViewOpts None (Some (VList [VStr goal]))
                     (Some (VList [VStr goal; VDict []])) false);
  Return (values_of rows).

(** No handler.  [severity is not None] selects the exact key; without it
    the range ends at severity 10. *)
Definition get_users_by_injury (db : S) (body_part : string)
    (severity : option Z) : result (list value) :=
  match severity with
  | Some sev =>
      rows ← db_view db "users" "by_injuries"
               (ViewOpts None (Some (VList [VStr body_part; VInt sev]))
                         (Some (VList [VStr body_part; VInt sev])) false);
      Return (values_of rows)
  | None =>
      rows ← db_view db "users" "by_injuries"
               (ViewOpts None (Some (VList [VStr body_part]))
                         (Some (VList [VStr body_part; VInt 10])) false);
      Return (values_of rows)
  end.

(** Fetch, assign the two members, save.  ResourceNotFound gives [None]. *)
Definition update_user_hevy_api_key (db : S) (clock : datetime)
    (user_id api_key : string) : result (option (value * value) * S) :=
  try_except_only ResourceNotFound
    (user_doc ← db_getitem db user_id;
     let user_doc1 := dict_set "hevy_api_key" (VStr api_key) user_doc in
     let user_doc2 :=
       dict_set "hevy_api_key_updated_at"
         (VStr (isoformat (utc_now clock))) user_doc1 in
     r ← db_save db (VDict user_doc2);
     Return (Some (r.1.1.1, r.1.1.2), r.2))
    (Return (None, db)).

(** With both dates, the workouts of the range; otherwise every row of
    get_all_documents.  [user_id] is not used. *)
Definition get_user_workout_history (db : S) (user_id : string)
    (start_date end_date : option datetime)
  : result (list value + list row) :=
  match start_date, end_date with
  | Some s, Some e =>
      ws ← get_workouts_by_date_range db s e; Return (inl ws)
  | _, _ => rows ← get_all_documents db; Return (inr rows)
  end.

(** [any(True for _ in result)], [False] on any exception. *)
Definition username_exists (db : S) (username : string) : result bool :=
  try_except
    (let query :=
       [("selector", VDict [("type", VStr "user_profile");
                             ("username", VStr username)])] in
     found ← db_find db query;
     Return (bool_decide (found ≠ [])))
    (λ _, Return false).

(** The list is stored as one document under a fixed id, with the revision
    of the document already there; [db.save] gets the dict as it is, without
    normalisation.  The handler logs and re-raises. *)
Definition save_exercises (db : S) (clock : datetime)
    (exercises : list value) (user_id : option string) : result S :=
  try_except
    (let doc_id := exercises_doc_id user_id in
     let exercise_doc :=
       [("_id", VStr doc_id);
        ("type", VStr (exercises_doc_type user_id));
        ("exercises", VList exercises);
        ("updated_at", VStr (isoformat (utc_now clock)))] in
     exercise_doc' ← try_except_only ResourceNotFound
                       (existing ← db_getitem db doc_id;
                        rev ← subscript (VDict existing) "_rev";
                        Return (dict_set "_rev" rev exercise_doc))
                       (Return exercise_doc);
     r ← db_save db (VDict exercise_doc');
     Return r.2)
    (λ e, Raise e).

(** One of the two inner [try] blocks of get_exercises. *)
Definition add_exercises (db : S) (doc_id : string) (exercises : list value)
  : result (list value) :=
  try_except_only ResourceNotFound
    (doc ← db_get db doc_id; extend_from exercises doc)
    (Return exercises).

(** The base list, then the user's list when [include_custom and user_id];
    the empty list on any exception. *)
Definition get_exercises (db : S) (user_id : option string)
    (include_custom : bool) : result (list value) :=
  try_except
    (exercises ← add_exercises db "base_exercises" [];
     match user_id with
     | Some u =>
         if include_custom && truthy (VStr u)
         then add_exercises db ("custom_exercises_" +:+ u) exercises
         else Return exercises
     | None => Return exercises
     end)
    (λ _, Return []).

(** [custom_doc["exercises"]] as it is stored; the empty list without it and
    on any exception. *)
Definition get_custom_exercises (db : S) (user_id : string) : result value :=
  try_except
    (custom_doc ← db_get db ("custom_exercises_" +:+ user_id);
     match custom_doc with
     | Some d =>
         if truthy (VDict d) && dict_has "exercises" d
         then subscript (VDict d) "exercises"
         else Return (VList [])
     | None => Return (VList [])
     end)
    (λ _, Return (VList [])).

End Documents.

(** * Notions the properties are stated with *)

(** ** The user query *)

(** The Mango query get_user_by_username builds. *)
Definition user_query (username : string) : pydict :=
  [("selector", VDict [("type", VStr "user_profile");
                        ("username", VStr username)])].

(** ** The view bootstrap *)

(** What one block of the bootstrap does to a CouchDB database. *)
Definition put_design (name : string) (views : pydict) (st : couch) : couch :=
  if decide (is_Some (docs st !! design_id name)) then st
  else Couch (<[design_id name := Entry 1 [("views", VDict views)]]> (docs st))
             (leaf_capacity st).

(** The documents the selector of get_user_by_username accepts. *)
Definition user_matches (username : string) (doc : pydict) : bool :=
  bool_decide (dict_get "type" doc = Some (VStr "user_profile"))
  && bool_decide (dict_get "username" doc = Some (VStr username)).

(** The user documents of a CouchDB database, in id order. *)
Definition couch_users (username : string) (st : couch)
  : list (value * pydict) :=
  map (λ ide, (VStr ide.1, doc_of ide.1 ide.2))
    (filter (λ ide, is_design ide.1 = false ∧
                    user_matches username (doc_of ide.1 ide.2) = true)
       (merge_sort id_le (map_to_list (docs st)))).

(** The user documents of the mock store, in insertion order. *)
Definition mock_users (username : string) (m : MockDB)
  : list (value * pydict) :=
  filter (λ kd, user_matches username kd.2 = true) (data m).

(** ** The order of ISO timestamps *)

(** Lexicographic combination of comparisons. *)
Definition lex (c1 c2 : comparison) : comparison :=
  match c1 with
  | Eq => c2
  | c => c
  end.

(** A naive datetime whose fields have the width isoformat prints them in
    (every datetime Python constructs is within these bounds). *)
Definition naive (t : datetime) : Prop :=
  (year t < 10 ^ 4 ∧ month t < 10 ^ 2 ∧ day t < 10 ^ 2 ∧ hour t < 10 ^ 2
   ∧ minute t < 10 ^ 2 ∧ second t < 10 ^ 2 ∧ microsecond t < 10 ^ 6)%nat
  ∧ tzinfo t = None.

(** Python's order on naive datetimes: field by field. *)
Definition datetime_compare (a b : datetime) : comparison :=
  lex (Nat.compare (year a) (year b))
   (lex (Nat.compare (month a) (month b))
     (lex (Nat.compare (day a) (day b))
       (lex (Nat.compare (hour a) (hour b))
         (lex (Nat.compare (minute a) (minute b))
           (lex (Nat.compare (second a) (second b))
                (Nat.compare (microsecond a) (microsecond b))))))).

(** [a <= b] *)
Definition datetime_le (a b : datetime) : Prop := datetime_compare a b ≠ Gt.

(** [a < b] on aware datetimes: the instant of [a] is before that of [b]. *)
Definition earlier (a b : datetime) : Prop :=
  match tzinfo a, tzinfo b with
  | Some x, Some y => utc_microseconds a x < utc_microseconds b y
  | _, _ => False
  end.

(** ** Revisions *)


(** ** Range queries on workouts/by_date *)

(** The database holds design document [name] with the views of the
    source. *)
Definition has_views (name : string) (views : pydict) (st : couch) : Prop :=
  ∃ e, docs st !! design_id name = Some e
       ∧ dict_get "views" (e_body e) = Some (VDict views).

(** The key workouts/by_date files a document under. *)
Definition start_time_of (doc : value) : value :=
  match doc with
  | VDict d => js_null (dict_get "start_time" d)
  | _ => VNone
  end.

(** The stored documents of a type, as the server returns them. *)
Definition stored_of_type (ty : string) (st : couch) : list value :=
  map (λ ide, VDict (doc_of ide.1 ide.2))
    (filter (λ ide, is_design ide.1 = false
                    ∧ has_type ty (doc_of ide.1 ide.2) = true)
       (map_to_list (docs st))).

(** A start time inside the closed interval from [lo] to [hi]. *)
Definition between (lo hi : value) (doc : value) : Prop :=
  collate_le lo (start_time_of doc) ∧ collate_le (start_time_of doc) hi.

#[global] Instance between_dec lo hi doc : Decision (between lo hi doc).
Proof. unfold between. apply _. Defined.

(** Ascending start times. *)
Definition by_start_time (a b : value) : Prop :=
  collate_le (start_time_of a) (start_time_of b).

(** ** The stats view and its reduce function *)

(** The value workouts/stats emits for a workout of duration [p.1] with
    [p.2] exercises. *)
Definition stat_value (p : Z * Z) : value :=
  VDict [("duration", VInt p.1); ("exercise_count", VInt p.2)].

(** What the spec's table asks of the reduction. *)
Definition stats_total (l : list (Z * Z)) : value :=
  VDict [("total_duration", VInt (foldr Z.add 0 (map fst l)));
         ("total_exercises", VInt (foldr Z.add 0 (map snd l)));
         ("count", VInt (Z.of_nat (length l)))].

(** The absolute values add up to at most 2^53, so that every partial sum is
    an integer a JavaScript number holds exactly. *)
Definition safe_total (xs : list Z) : Prop :=
  foldr Z.add 0 (map Z.abs xs) ≤ 2 ^ 53.

(** An object that has no member [k]. *)
Definition lacks (k : string) (v : value) : Prop :=
  ∃ d, v = VDict d ∧ dict_get k d = None.

(** A workout document as the sync stores it. *)
Definition workout_doc (start : string) (duration : Z) (exercises : nat)
  : pydict :=
  [("type", VStr "workout"); ("start_time", VStr start);
   ("duration", VInt duration);
   ("exercises", VList (replicate exercises
                          (VDict [("template_id", VStr "squat")])))].

(** A database with the workouts design document and three workouts of
    30, 40 and 50 minutes with 2, 1 and 3 exercises; view leaves hold
    [cap] rows. *)
Definition three_workouts (cap : nat) : couch :=
  Couch (list_to_map
           [(design_id "workouts", Entry 1 [("views", VDict workouts_views)]);
            ("w1", Entry 1 (workout_doc "2024-01-01T10:00:00" 30 2));
            ("w2", Entry 1 (workout_doc "2024-01-02T10:00:00" 40 1));
            ("w3", Entry 1 (workout_doc "2024-01-03T10:00:00" 50 3))])
        cap.

(** ** Upsert by external id *)

(** The key a by_hevy_id view files a document under. *)
Definition hevy_key (d : pydict) : value := js_null (dict_get "hevy_id" d).

(** Document [id] is in the by_hevy_id index of type [ty] under key [E]. *)
Definition indexed (ty : string) (E : value) (id : string) (e : entry)
  : Prop :=
  is_design id = false
  ∧ has_type ty (e_body e) = true
  ∧ collate (hevy_key (e_body e)) E = Eq.

#[global] Instance indexed_dec ty E id e : Decision (indexed ty E id e).
Proof. unfold indexed. apply _. Defined.

(** The row by_hevy_id holds for a document. *)
Definition hevy_row (id : string) (e : entry) : row :=
  Row (Some id) (hevy_key (e_body e)) (VDict (doc_of id e))
      (Some (VDict (doc_of id e))).

(** [key=E, include_docs=True] *)
Definition by_key (E : value) : view_opts := ViewOpts (Some E) None None true.

(** The by_hevy_id view of [design] is there and indexes type [ty]. *)
Definition view_ready (design ty : string) (st : couch) : Prop :=
  resolve st design "by_hevy_id"
  = Return (ViewSem (emit_field ty "hevy_id") None).

(** A payload the reconciliation can work with: a JSON document of type
    [ty] whose hevy_id is [E]. *)
Definition payload_for (ty : string) (E : value) (p : pydict) : Prop :=
  dict_get "hevy_id" p = Some E
  ∧ dict_get "type" p = Some (VStr ty)
  ∧ json_ok (VDict p) = true.

(** The store after [n] saves of the same external id: the view is there,
    one document is indexed under the key, at generation [n], holding
    [body]. *)
Definition converged (design ty : string) (E : value) (id : string)
    (n : nat) (body : pydict) (st : couch) : Prop :=
  view_ready design ty st
  ∧ docs st !! id = Some (Entry n body)
  ∧ indexed ty E id (Entry n body)
  ∧ (∀ id' e', docs st !! id' = Some e' → indexed ty E id' e' → id' = id).

(** A sequence of saves, each on the store the previous one left; the ids
    returned, in order, and the final store. *)
Fixpoint save_all {S : Type} (save : S → pydict → result (value * value * S))
    (st : S) (ps : list pydict) : result (list value * S) :=
  match ps with
  | [] => Return ([], st)
  | p :: ps' =>
      r ← save st p;
      rest ← save_all save r.2 ps';
      Return (r.1.1 :: rest.1, rest.2)
  end.

(** The two kinds of documents synced from the external API. *)
Inductive external_kind : Type := Exercise | Workout.

(** Its design document, document type, views and save method. *)
Definition kind_design (k : external_kind) : string :=
  match k with Exercise => "exercises" | Workout => "workouts" end.

Definition kind_type (k : external_kind) : string :=
  match k with Exercise => "exercise" | Workout => "workout" end.

Definition kind_views (k : external_kind) : pydict :=
  match k with Exercise => exercises_views | Workout => workouts_views end.

Definition kind_save (k : external_kind)
  : couch → pydict → result (value * value * couch) :=
  match k with Exercise => save_exercise | Workout => save_workout end.

(** ** Concrete payloads and stores *)

(** Two payloads for one external id. *)
Definition squat : pydict :=
  [("type", VStr "exercise"); ("hevy_id", VStr "ex1"); ("name", VStr "Squat")].

Definition back_squat : pydict :=
  [("type", VStr "exercise"); ("hevy_id", VStr "ex1");
   ("name", VStr "Back Squat")].

(** The empty database after the bootstrap. *)
Definition bootstrapped : couch := _create_design_documents (Couch ∅ 8).


(** A user profile whose preferred_workout_days is a list. *)
Definition bob : pydict :=
  [("type", VStr "user_profile"); ("username", VStr "bob");
   ("preferred_workout_days", VList [VInt 3; VInt 5]);
   ("_id", VStr "mock_0")].

(** ** Rows by document id *)

(** Ascending document ids. *)
Definition by_row_id (r1 r2 : row) : Prop :=
  String.le (default EmptyString (row_id r1))
            (default EmptyString (row_id r2)).

(** ** Exercise lists *)

(** The list stored in the [exercises] member of document [id]; empty when
    the document or the member is missing. *)
Definition exercise_list (st : couch) (id : string) : list value :=
  match docs st !! id ≫= λ e, dict_get "exercises" (e_body e) with
  | Some (VList l) => l
  | _ => []
  end.

(** The [exercises] member of document [id], when it has one, is a list. *)
Definition list_member (st : couch) (id : string) : Prop :=
  ∀ e x, docs st !! id = Some e → dict_get "exercises" (e_body e) = Some x →
         ∃ l, x = VList l.

(** The body save_exercises stores. *)
Definition exercises_body (clock : datetime) (exercises : list value)
    (user_id : option string) : pydict :=
  [("type", VStr (exercises_doc_type user_id));
   ("exercises", VList exercises);
   ("updated_at", VStr (isoformat (utc_now clock)))].

(** ** Ids of the mock store *)

(** The id [MockDB.save] gives the [n]-th dict that comes without one. *)
Definition auto_id (n : nat) : value := VStr ("mock_" +:+ pretty n).

(** Every id of that form in use was handed out by the counter. *)
Definition auto_ids_below (m : MockDB) : Prop :=
  ∀ n, is_Some (data_get (auto_id n) (data m)) → (n < counter m)%nat.

(** ** What normalisation can make JSON *)

(** Every object in the value has a to-mapping method, at every depth of
    what the methods return. *)
Fixpoint convertible (v : value) : bool :=
  match v with
  | VList l => forallb convertible l
  | VDict d => forallb (λ kv, convertible kv.2) d
  | VObj (Some m) _ => convertible m
  | VObj None (Some d) => convertible d
  | VObj None None => false
  | _ => true
  end.

(** ** Lookups by external id *)

(** The lookup method of a kind. *)
Definition kind_lookup (k : external_kind)
  : couch → value → result (option value) :=
  match k with
  | Exercise => get_exercise_by_hevy_id
  | Workout => get_workout_by_hevy_id
  end.

(** The member [k] of a document, [null] when it has none. *)
Definition member_of (k : string) (doc : value) : value :=
  match doc with
  | VDict d => js_null (dict_get k d)
  | _ => VNone
  end.

(** ** Workouts by exercise *)

(** The exercise entry has the template id [x]. *)
Definition has_template (x : string) (ex : value) : bool :=
  match js_get "template_id" ex with
  | Return (Some (VStr y)) => bool_decide (y = x)
  | _ => false
  end.

(** What workouts/by_exercise holds of a workout document under the
    template id [x]: the document once for each entry of its exercises list
    with that template id, provided the list has no [null] entry (the map
    function fails on one) and the start time sorts at or before the empty
    object. *)
Definition exercise_hits (x : string) (doc : value) : list value :=
  match doc with
  | VDict d =>
      match dict_get "exercises" d with
      | Some (VList exs) =>
          if bool_decide (Forall (λ ex, ex ≠ VNone) exs
                          ∧ collate_le (start_time_of doc) (VDict []))
          then map (λ _, doc) (filter (λ ex, has_template x ex = true) exs)
          else []
      | _ => []
      end
  | _ => []
  end.

(** ** What a CouchDB database holds *)

(** Every stored body is JSON and has no [_id] and no [_rev] member (the
    server keeps these apart from the body). *)
Definition stored_json (st : couch) : Prop :=
  map_Forall (λ _ e, json_ok (VDict (e_body e)) = true
                     ∧ dict_get "_id" (e_body e) = None
                     ∧ dict_get "_rev" (e_body e) = None) (docs st).

(** ** More concrete documents and stores *)

(** A user profile as the registration page saves it. *)
Definition alice : pydict :=
  [("type", VStr "user_profile"); ("username", VStr "alice");
   ("joined", VDatetime (Datetime 2024 5 1 8 0 0 0 None))].

(** A stored exercise list. *)
Definition exercise_list_body (ty : string) (exercises : list value)
  : pydict :=
  [("type", VStr ty); ("exercises", VList exercises);
   ("updated_at", VStr "2024-05-01T08:00:00+00:00")].

(** The bootstrapped database with a user, the base list and that user's
    custom list. *)
Definition gym : couch :=
  Couch (<["u1" := Entry 1 [("type", VStr "user_profile");
                            ("username", VStr "alice")]]>
         (<["base_exercises" :=
              Entry 1 (exercise_list_body "base_exercise_list"
                         [VStr "squat"; VStr "bench press"])]>
          (<["custom_exercises_u1" :=
               Entry 2 (exercise_list_body "custom_exercise_list"
                          [VStr "cable curl"])]>
           (docs bootstrapped)))) 8.

(** A database with the exercises design document and two exercises. *)
Definition two_exercises : couch :=
  Couch (list_to_map
           [(design_id "exercises",
             Entry 1 [("views", VDict exercises_views)]);
            ("e1", Entry 1 (squat ++ [("muscle_group", VStr "legs")])%list);
            ("e2", Entry 1 [("type", VStr "exercise");
                            ("hevy_id", VStr "ex2");
                            ("name", VStr "Bench Press");
                            ("muscle_group", VStr "chest")])])
        8.

(** A reading of the clock. *)
Definition noon : datetime := Datetime 2024 5 2 12 0 0 0 None.

(** Start times with different UTC offsets: 08:00 UTC, noon at +03:00 (which
    is 09:00 UTC) and 10:00 UTC. *)
Definition eight_utc : datetime := Datetime 2024 5 1 8 0 0 0 (Some 0).
Definition noon_plus3 : datetime := Datetime 2024 5 1 12 0 0 0 (Some 180).
Definition ten_utc : datetime := Datetime 2024 5 1 10 0 0 0 (Some 0).

(** A workout of 30 minutes stored with the ISO form of [t] as its start
    time. *)
Definition workout_at (t : datetime) : entry :=
  Entry 1 (workout_doc (isoformat t) 30 1).

(** The bootstrapped database with a workout at each of the three. *)
Definition offset_workouts : couch :=
  Couch (<["w1" := workout_at eight_utc]>
         (<["w2" := workout_at noon_plus3]>
          (<["w3" := workout_at ten_utc]> (docs bootstrapped)))) 8.

(** A map function that counts workouts per day. *)
Definition count_by_day : string :=
  "function(doc) { if (doc.type === 'workout') { emit(doc.start_time.slice(0, 10), 1); } }".

(** * Properties *)

(** ** Dict operations *)

Lemma dict_get_set_eq k v d : dict_get k (dict_set k v d) = Some v.
Proof.
  induction d as [|[k' v'] d IH]; simpl.
  - by rewrite decide_True.
  - destruct (decide (k' = k)) as [->|Hne]; simpl.
    + by rewrite decide_True.
    + by rewrite decide_False.
Qed.

Lemma dict_get_set_ne k k' v d :
  k ≠ k' → dict_get k' (dict_set k v d) = dict_get k' d.
Proof.
  intros Hne. induction d as [|[k0 v0] d IH]; simpl.
  - by rewrite decide_False.
  - destruct (decide (k0 = k)) as [->|Hk]; simpl.
    + by rewrite !decide_False.
    + destruct (decide (k0 = k')); [done|apply IH].
Qed.

Lemma dict_get_del_eq k d : dict_get k (dict_del k d) = None.
Proof.
  unfold dict_del. induction d as [|[k' v'] d IH]; [done|].
  rewrite filter_cons. simpl. destruct (decide (k' ≠ k)) as [Hne|Heq]; simpl.
  - by rewrite decide_False.
  - done.
Qed.

Lemma dict_get_del_ne k k' d :
  k ≠ k' → dict_get k' (dict_del k d) = dict_get k' d.
Proof.
  intros Hne. unfold dict_del. induction d as [|[k0 v0] d IH]; [done|].
  rewrite filter_cons. simpl. destruct (decide (k0 ≠ k)) as [Hk|Hk]; simpl.
  - by rewrite IH.
  - apply dec_stable in Hk as ->. by rewrite decide_False.
Qed.

Lemma dict_del_set_eq k v d : dict_del k (dict_set k v d) = dict_del k d.
Proof.
  unfold dict_del. induction d as [|[k' v'] d IH]; simpl.
  - rewrite filter_cons. simpl. by rewrite decide_False by (by intros ?).
  - destruct (decide (k' = k)) as [->|Hne].
    + rewrite !filter_cons. simpl. by rewrite !decide_False by (by intros ?).
    + rewrite !filter_cons. simpl. rewrite !decide_True by done. by rewrite IH.
Qed.

Lemma dict_del_set_ne k k' v d :
  k ≠ k' → dict_del k' (dict_set k v d) = dict_set k v (dict_del k' d).
Proof.
  intros Hne. unfold dict_del. induction d as [|[k0 v0] d IH]; simpl.
  - rewrite filter_cons. simpl. by rewrite decide_True.
  - destruct (decide (k0 = k)) as [->|Hk].
    + rewrite !filter_cons. simpl. rewrite !decide_True by done. simpl.
      by rewrite decide_True.
    + rewrite !filter_cons. simpl. destruct (decide (k0 ≠ k')); simpl.
      * rewrite decide_False by done. by rewrite IH.
      * apply IH.
Qed.

(** ** View collation *)

Lemma Z_cmp_ok (x : Z) : cmp_ok Z.compare x.
Proof.
  repeat split.
  - apply Z.compare_refl.
  - intros y. apply Z.compare_antisym.
  - by intros y z ->%Z.compare_eq.
  - by intros y z ->%Z.compare_eq.
  - intros y z H1 H2. change (x < y) in H1. change (y < z) in H2.
    change (x < z). lia.
Qed.

Lemma string_compare_lt_trans (x y z : string) :
  String.compare x y = Lt → String.compare y z = Lt → String.compare x z = Lt.
Proof.
  intros Hxy Hyz.
  assert (String.le x z) as Hle.
  { trans y; unfold String.le, String.leb; [by rewrite Hxy|by rewrite Hyz]. }
  unfold String.le, String.leb in Hle.
  destruct (String.compare x z) eqn:Hxz; [|done..].
  apply String.compare_eq_iff in Hxz as ->.
  rewrite String.compare_antisym, Hxy in Hyz. done.
Qed.

Lemma string_compare_refl (x : string) : String.compare x x = Eq.
Proof.
  induction x as [|a x IH]; simpl; [done|].
  unfold Ascii.compare. by rewrite N.compare_refl.
Qed.

Lemma string_cmp_ok (x : string) : cmp_ok String.compare x.
Proof.
  repeat split.
  - apply string_compare_refl.
  - intros y. apply String.compare_antisym.
  - by intros y z ->%String.compare_eq_iff.
  - by intros y z ->%String.compare_eq_iff.
  - apply string_compare_lt_trans.
Qed.

Lemma pair_cmp_ok {A B} (c1 : A → A → comparison) (c2 : B → B → comparison)
    (a : A) (b : B) :
  cmp_ok c1 a → cmp_ok c2 b → cmp_ok (pair_compare c1 c2) (a, b).
Proof.
  intros (Ha1 & Ha2 & Ha3 & Ha4 & Ha5) (Hb1 & Hb2 & Hb3 & Hb4 & Hb5).
  unfold pair_compare. repeat split; simpl.
  - by rewrite Ha1.
  - intros [y1 y2]; simpl. rewrite Ha2, Hb2. by destruct (c1 a y1).
  - intros [y1 y2] [z1 z2]; simpl. destruct (c1 a y1) eqn:E; [|done..].
    intros H. by rewrite (Ha3 _ z1 E), (Hb3 _ z2 H).
  - intros [y1 y2] [z1 z2]; simpl. destruct (c1 y1 z1) eqn:E; [|done..].
    intros H. by rewrite (Ha4 _ _ E), (Hb4 _ _ H).
  - intros [y1 y2] [z1 z2]; simpl.
    destruct (c1 a y1) eqn:E1; [|intros _|done].
    + intros H1. rewrite (Ha3 _ z1 E1).
      destruct (c1 y1 z1); [|done..]. eauto.
    + destruct (c1 y1 z1) eqn:E2; [|intros _|done].
      * intros _. by rewrite <-(Ha4 _ _ E2), E1.
      * by rewrite (Ha5 _ _ E1 E2).
Qed.

Lemma lex_cmp_ok {A} (cmp : A → A → comparison) (l : list A) :
  Forall (cmp_ok cmp) l → cmp_ok (lex_compare cmp) l.
Proof.
  induction 1 as [|x l (Hx1 & Hx2 & Hx3 & Hx4 & Hx5)
                    _ (IH1 & IH2 & IH3 & IH4 & IH5)].
  { repeat split; try done.
    - by intros [|??].
    - by intros [|??] [|??].
    - by intros [|??] [|??].
    - by intros [|??] [|??]. }
  repeat split; simpl.
  - by rewrite Hx1.
  - intros [|y l2]; simpl; [done|]. rewrite Hx2, IH2. by destruct (cmp x y).
  - intros [|y l2] [|z l3]; simpl; try done.
    destruct (cmp x y) eqn:E; [|done..].
    intros H. by rewrite (Hx3 _ z E), (IH3 _ l3 H).
  - intros [|y l2] [|z l3]; simpl; try done.
    destruct (cmp y z) eqn:E; [|done..].
    intros H. by rewrite (Hx4 _ _ E), (IH4 _ _ H).
  - intros [|y l2] [|z l3]; simpl; try done.
    destruct (cmp x y) eqn:E1; [|intros _|done].
    + intros H1. rewrite (Hx3 _ z E1). destruct (cmp y z); [|done..]. eauto.
    + destruct (cmp y z) eqn:E2; [|intros _|done].
      * intros _. by rewrite <-(Hx4 _ _ E2), E1.
      * by rewrite (Hx5 _ _ E1 E2).
Qed.

Local Ltac by_rank :=
  repeat match goal with
  | |- ∀ y : value, _ => intros [|[]| | | | | |]
  end; simpl; try done; eauto.

Lemma collate_ok (v : value) : cmp_ok collate v.
Proof.
  induction v as [|[]|n|s|l IH|d IH|t|md dc _ _] using value_ind'.
  - repeat split; by_rank.
  - repeat split; by_rank.
  - repeat split; by_rank.
  - destruct (Z_cmp_ok n) as (? & ? & ? & ? & ?). repeat split; by_rank.
  - destruct (string_cmp_ok s) as (? & ? & ? & ? & ?). repeat split; by_rank.
  - destruct (lex_cmp_ok collate l IH) as (? & ? & ? & ? & ?).
    repeat split; by_rank.
  - assert (Forall (cmp_ok (pair_compare String.compare collate)) d) as IH'.
    { eapply Forall_impl; [exact IH|]. intros [k x] Hx.
      apply pair_cmp_ok; [apply string_cmp_ok|exact Hx]. }
    destruct (lex_cmp_ok _ d IH') as (? & ? & ? & ? & ?).
    repeat split; by_rank.
  - repeat split; by_rank.
  - repeat split; by_rank.
Qed.

Lemma collate_refl (v : value) : collate v v = Eq.
Proof. apply collate_ok. Qed.

Lemma collate_antisym (a b : value) : collate b a = CompOpp (collate a b).
Proof. apply collate_ok. Qed.

Lemma collate_eq_l (a b c : value) :
  collate a b = Eq → collate a c = collate b c.
Proof. apply collate_ok. Qed.

Lemma collate_eq_r (a b c : value) :
  collate b c = Eq → collate a b = collate a c.
Proof. apply collate_ok. Qed.

Lemma collate_lt_trans (a b c : value) :
  collate a b = Lt → collate b c = Lt → collate a c = Lt.
Proof. apply collate_ok. Qed.

#[global] Instance collate_le_refl : Reflexive collate_le.
Proof. intros a. unfold collate_le. by rewrite collate_refl. Qed.

#[global] Instance collate_le_trans : Transitive collate_le.
Proof.
  intros a b c. unfold collate_le. intros Hab Hbc.
  destruct (collate a b) eqn:E1; [| |done].
  - by rewrite (collate_eq_l _ _ c E1).
  - destruct (collate b c) eqn:E2; [| |done].
    + by rewrite <-(collate_eq_r a _ _ E2), E1.
    + by rewrite (collate_lt_trans _ _ _ E1 E2).
Qed.

#[global] Instance collate_le_total : Total collate_le.
Proof.
  intros a b. unfold collate_le. rewrite (collate_antisym a b).
  destruct (collate a b); simpl; auto.
Qed.

(** ** View queries *)

#[global] Instance row_le_total : Total row_le.
Proof.
  intros r1 r2. unfold row_le.
  rewrite (collate_antisym (row_key r1) (row_key r2)).
  destruct (collate (row_key r1) (row_key r2)); simpl; auto.
  apply (total String.le).
Qed.

#[global] Instance row_le_trans : Transitive row_le.
Proof.
  intros r1 r2 r3. unfold row_le.
  destruct (collate (row_key r1) (row_key r2)) eqn:E1; [| |done].
  - rewrite (collate_eq_l _ _ (row_key r3) E1).
    destruct (collate (row_key r2) (row_key r3)); [|done..].
    intros ??. by etrans.
  - intros _. destruct (collate (row_key r2) (row_key r3)) eqn:E2; [| |done].
    + by rewrite <-(collate_eq_r (row_key r1) _ _ E2), E1.
    + by rewrite (collate_lt_trans _ _ _ E1 E2).
Qed.

Lemma row_le_key (r1 r2 : row) :
  row_le r1 r2 → collate_le (row_key r1) (row_key r2).
Proof. unfold row_le, collate_le. by destruct (collate _ _). Qed.

(** ** Normalisation and save_document *)

Lemma plain_ensure (v : value) : plain (_ensure_json_serializable v) = true.
Proof.
  induction v as [| | | |l IH|d IH| |md dc IHm IHd] using value_ind';
    simpl; try done.
  - induction IH as [|x l Hx _ IHl]; simpl; [done|]. by rewrite Hx, IHl.
  - induction IH as [|[k x] d Hx _ IHl]; simpl in *; [done|].
    by rewrite Hx, IHl.
  - destruct md as [m|]; [by apply IHm|]. destruct dc as [c|]; [by apply IHd|].
    done.
Qed.

Lemma ensure_plain (v : value) :
  plain v = true → _ensure_json_serializable v = v.
Proof.
  induction v as [| | | |l IH|d IH| |md dc IHm IHd] using value_ind';
    simpl; try done.
  - intros Hl. f_equal. induction IH as [|x l Hx _ IHl]; simpl in *; [done|].
    apply andb_true_iff in Hl as [H1 H2]. by rewrite Hx, IHl.
  - intros Hl. f_equal. induction IH as [|[k x] d Hx _ IHl]; simpl in *; [done|].
    apply andb_true_iff in Hl as [H1 H2]. by rewrite Hx, IHl.
  - by destruct md, dc.
Qed.

(** C6.  save_document persists the normalised document and returns the id
    and revision the store's save returned (and raises what it raised).
    Normalisation replaces every datetime by its ISO-8601 string, every
    object with model_dump or dict by the normal form of that mapping
    (model_dump first), goes through dicts and lists member by member, leaves
    every value without datetimes and such objects as it is, and leaves none
    of them behind at any depth. *)
Theorem save_document_normalizes {S : Type} `{!Store S} (db : S)
    (doc : value) :
  save_document db doc =
    match db_save db (_ensure_json_serializable doc) with
    | Return (id, rev, _, db') => Return (id, rev, db')
    | Raise e => Raise e
    end
  ∧ (∀ t, _ensure_json_serializable (VDatetime t) = VStr (isoformat t))
  ∧ (∀ m d, _ensure_json_serializable (VObj (Some m) d)
            = _ensure_json_serializable m)
  ∧ (∀ d, _ensure_json_serializable (VObj None (Some d))
          = _ensure_json_serializable d)
  ∧ (∀ d, _ensure_json_serializable (VDict d)
          = VDict (map (λ kv, (kv.1, _ensure_json_serializable kv.2)) d))
  ∧ (∀ l, _ensure_json_serializable (VList l)
          = VList (map _ensure_json_serializable l))
  ∧ (∀ v, plain v = true → _ensure_json_serializable v = v)
  ∧ plain (_ensure_json_serializable doc) = true.
Proof.
  repeat split; try done.
  - unfold save_document.
    destruct (db_save db (_ensure_json_serializable doc))
      as [[[[id rev] doc'] db']|e]; done.
  - intros d. simpl. f_equal. apply map_ext. by intros [k v].
  - apply ensure_plain.
  - apply plain_ensure.
Qed.

(** ** get_user_by_username never raises *)

(** C10.  get_user_by_username returns on every store and every input.  When
    the query raises, and when the first found document holds an empty list
    under preferred_workout_days (taking its first element raises
    IndexError), the call returns None and leaves the store as it was. *)
Theorem get_user_by_username_total {S : Type} `{!Store S} (db : S)
    (username : string) :
  returns (get_user_by_username db username)
  ∧ (∀ e, db_find db (user_query username) = Raise e →
          get_user_by_username db username = Return (None, db))
  ∧ (∀ k doc rest,
       db_find db (user_query username) = Return ((k, doc) :: rest) →
       dict_get "preferred_workout_days" doc = Some (VList []) →
       get_user_by_username db username = Return (None, db)).
Proof.
  unfold get_user_by_username, returns. fold (user_query username).
  repeat split.
  - destruct (db_find db (user_query username)) as [[|[k doc] rest]|e];
      simpl; eauto.
    destruct (first_workout_day doc) as [[x|e]|]; simpl; eauto.
  - by intros e ->.
  - intros k doc rest -> Hd. simpl. unfold first_workout_day. by rewrite Hd.
Qed.

(** ** Queries on a database without the workouts design document *)

Lemma resolve_missing (st : couch) (design view : string) :
  docs st !! design_id design = None →
  resolve st design view = Raise ResourceNotFound.
Proof. intros H. unfold resolve. by rewrite H. Qed.

Lemma couch_view_missing (st : couch) (design view : string) (o : view_opts) :
  opts_json_ok o = true →
  docs st !! design_id design = None →
  couch_view st design view o = Raise ResourceNotFound.
Proof. intros Ho H. unfold couch_view. by rewrite Ho, resolve_missing. Qed.

(** C2, what the code does.  On a CouchDB database that has no workouts
    design document, get_workouts_by_date_range returns the empty list, and
    get_workout_stats, get_workout_progression and get_workouts_by_exercise
    raise ResourceNotFound: they have no handler for it. *)
Theorem missing_view_reads (st : couch) (s e : datetime)
    (bounds : option datetime * option datetime) (x : string) :
  docs st !! design_id "workouts" = None →
  get_workouts_by_date_range st s e = Return []
  ∧ get_workout_stats st bounds.1 bounds.2 = Raise ResourceNotFound
  ∧ get_workout_progression st x = Raise ResourceNotFound
  ∧ get_workouts_by_exercise st x = Raise ResourceNotFound.
Proof.
  intros H. unfold get_workouts_by_date_range, get_workout_stats,
    get_workout_progression, get_workouts_by_exercise. simpl.
  repeat split.
  - by rewrite couch_view_missing.
  - destruct bounds as [[s'|] [e'|]]; simpl; by rewrite couch_view_missing.
  - by rewrite couch_view_missing.
  - by rewrite couch_view_missing.
Qed.

(** The exercise readers catch every exception: they return on every store,
    and on a CouchDB database without the exercises design document they
    return the empty list, or None for the lookup by external id. *)
Lemma exercise_reads_missing_view (st : couch) (g h : value) :
  docs st !! design_id "exercises" = None →
  get_exercises_by_muscle_group st g = Return []
  ∧ get_all_exercises st = Return []
  ∧ get_exercise_by_hevy_id st h = Return None.
Proof.
  intros H.
  unfold get_exercises_by_muscle_group, get_all_exercises,
    get_exercise_by_hevy_id, get_by_hevy_id. simpl. unfold couch_view.
  rewrite !resolve_missing by done.
  repeat split; by destruct (negb _).
Qed.

(** The mock store has no [view] at all: the exercise lookups swallow the
    AttributeError, the workout queries let it through. *)
Lemma mock_reads (m : MockDB) (s e : datetime) (x : string) (h : value) :
  get_workouts_by_date_range m s e = Raise AttributeError
  ∧ get_workout_stats m None None = Raise AttributeError
  ∧ get_workout_progression m x = Raise AttributeError
  ∧ get_exercise_by_hevy_id m h = Return None
  ∧ get_workout_by_hevy_id m h = Return None.
Proof. done. Qed.

(** ** update_document and revisions *)

Lemma string_app_cons (a : Ascii.ascii) (s t : string) :
  String a s +:+ t = String a (s +:+ t).
Proof. reflexivity. Qed.

Lemma string_length_app (s t : string) :
  String.length (s +:+ t) = (String.length s + String.length t)%nat.
Proof.
  induction s as [|a s IH]; [done|].
  rewrite string_app_cons. simpl. by rewrite IH.
Qed.

Lemma string_app_inv_tail (s1 s2 t : string) : s1 +:+ t = s2 +:+ t → s1 = s2.
Proof.
  revert s2. induction s1 as [|a s1 IH]; intros [|b s2] H.
  - done.
  - exfalso. apply (f_equal String.length) in H.
    rewrite !string_length_app in H. simpl in H. lia.
  - exfalso. apply (f_equal String.length) in H.
    rewrite !string_length_app in H. simpl in H. lia.
  - rewrite !string_app_cons in H. injection H as -> H. f_equal. by apply IH.
Qed.

#[global] Instance rev_token_inj : Inj (=) (=) rev_token.
Proof.
  intros n m H. unfold rev_token in H.
  apply string_app_inv_tail in H. by simplify_eq.
Qed.

(** The mock store never looks at [_rev]: saving a dict that has an [_id]
    always succeeds, replaces what was stored under that id, and returns the
    revision [1-mock]. *)
Lemma mock_update_unchecked (m : MockDB) (d : pydict) (id : value) :
  dict_get "_id" d = Some id → hashable id = true →
  update_document m (VDict d)
    = Return (id, VStr "1-mock", Mock (data_set id d (data m)) (counter m)).
Proof.
  intros Hid Hh. unfold update_document. simpl. unfold dict_has.
  rewrite Hid, bool_decide_true by eauto. by rewrite Hid, Hh.
Qed.

(** ** The view bootstrap *)

Lemma ensure_design_couch (name : string) (views : pydict) (st : couch) :
  json_ok (VDict views) = true →
  ensure_design name views st = Return (put_design name views st).
Proof.
  intros Hj. unfold ensure_design, put_design. simpl.
  destruct (decide (is_Some (docs st !! design_id name))) as [Hp|Hp].
  - by rewrite bool_decide_true.
  - rewrite bool_decide_false by done. simpl. unfold couch_save.
    assert (json_ok (design_document name views) = true) as ->.
    { simpl in *. by rewrite Hj. }
    simpl. apply eq_None_not_Some in Hp. by rewrite Hp.
Qed.

Lemma put_design_keeps (name : string) (views : pydict) (st : couch)
    (k : string) (e : entry) :
  docs st !! k = Some e → docs (put_design name views st) !! k = Some e.
Proof.
  intros Hk. unfold put_design. case_decide as Hp; [done|]. simpl.
  rewrite lookup_insert_ne; [done|]. intros <-. apply Hp. eauto.
Qed.

Lemma put_design_present (name : string) (views : pydict) (st : couch) :
  is_Some (docs (put_design name views st) !! design_id name).
Proof.
  unfold put_design. case_decide as Hp; [done|]. simpl.
  rewrite lookup_insert_eq. eauto.
Qed.

Lemma put_design_id (name : string) (views : pydict) (st : couch) :
  is_Some (docs st !! design_id name) → put_design name views st = st.
Proof. intros Hp. unfold put_design. by rewrite decide_True. Qed.

Lemma create_design_documents_couch (st : couch) :
  _create_design_documents st
  = put_design "workouts" workouts_views
      (put_design "exercises" exercises_views
         (put_design "users" users_views st)).
Proof.
  unfold _create_design_documents.
  by rewrite !ensure_design_couch by reflexivity.
Qed.

(** C5.  The bootstrap never overwrites: every document the database holds
    before it, the design documents users, exercises and workouts among
    them, is there unchanged after it.  Running it twice gives the store
    that running it once gives.  On the mock store the bootstrap changes
    nothing (its membership test raises, which the handler swallows). *)
Theorem create_design_documents_idempotent (st : couch) :
  (∀ k e, docs st !! k = Some e →
          docs (_create_design_documents st) !! k = Some e)
  ∧ _create_design_documents (_create_design_documents st)
    = _create_design_documents st
  ∧ (∀ m : MockDB, _create_design_documents m = m).
Proof.
  rewrite !create_design_documents_couch. split; [|split; [|done]].
  - intros k e Hk. by do 3 apply put_design_keeps.
  - set (s1 := put_design "users" users_views st).
    set (s2 := put_design "exercises" exercises_views s1).
    set (s3 := put_design "workouts" workouts_views s2).
    assert (is_Some (docs s3 !! design_id "users")) as H1.
    { destruct (put_design_present "users" users_views st) as [e He].
      exists e. by do 2 apply put_design_keeps. }
    assert (is_Some (docs s3 !! design_id "exercises")) as H2.
    { destruct (put_design_present "exercises" exercises_views s1) as [e He].
      exists e. by apply put_design_keeps. }
    assert (is_Some (docs s3 !! design_id "workouts")) as H3.
    { apply put_design_present. }
    by rewrite (put_design_id "users" _ s3 H1),
      (put_design_id "exercises" _ s3 H2), (put_design_id "workouts" _ s3 H3).
Qed.

(** ** Saving a payload that has no hevy_id *)

Lemma dict_del_absent (k : string) (d : pydict) :
  dict_get k d = None → dict_del k d = d.
Proof.
  unfold dict_del. induction d as [|[k' v] d IH]; [done|]. simpl.
  destruct (decide (k' = k)) as [->|Hne]; [done|]. intros H.
  rewrite filter_cons. simpl. rewrite decide_True by done. by rewrite IH.
Qed.

Lemma strip_absent (d : pydict) :
  dict_get "_id" d = None → dict_get "_rev" d = None → strip d = d.
Proof.
  intros H1 H2. unfold strip. rewrite (dict_del_absent "_id") by done.
  by apply dict_del_absent.
Qed.

Lemma not_in_ids (st : couch) (id : string) :
  id ∉ map fst (map_to_list (docs st)) → docs st !! id = None.
Proof.
  intros Hn. apply eq_None_not_Some. intros [e He]. apply Hn.
  apply list_elem_of_fmap. exists (id, e). split; [done|].
  by apply elem_of_map_to_list.
Qed.

Lemma fresh_uuid_fresh (st : couch) : docs st !! fresh_uuid st = None.
Proof.
  apply not_in_ids. unfold fresh_uuid.
  apply (@infinite_is_fresh string uuid_supply).
Qed.


Lemma couch_save_new (st : couch) (p : pydict) :
  dict_get "_id" p = None → dict_get "_rev" p = None →
  json_ok (VDict p) = true →
  couch_save st (VDict p)
  = Return (VStr (fresh_uuid st), VStr (rev_token 1),
            VDict (dict_set "_rev" (VStr (rev_token 1))
                     (dict_set "_id" (VStr (fresh_uuid st)) p)),
            Couch (<[fresh_uuid st := Entry 1 p]> (docs st))
                  (leaf_capacity st)).
Proof.
  intros Hid Hrev Hj. unfold couch_save. rewrite Hj, Hid. simpl.
  rewrite fresh_uuid_fresh, Hrev. simpl. by rewrite strip_absent.
Qed.



(** ** get_user_by_username *)

Lemma couch_find_users (st : couch) (username : string) :
  db_find st (user_query username) = Return (couch_users username st).
Proof.
  simpl. unfold couch_find, couch_users. simpl. f_equal. f_equal.
  apply list_filter_iff. intros [id e]. unfold user_matches. simpl.
  by rewrite andb_true_r.
Qed.

Lemma py_eq_str (v : value) (s : string) :
  py_eq v (VStr s) = bool_decide (v = VStr s).
Proof.
  destruct v as [|b|n|s'|l|d|t|md dd]; simpl; try done;
    try (by rewrite bool_decide_false).
  apply bool_decide_ext. split; congruence.
Qed.

Lemma member_eq_str (d : pydict) (k s : string) :
  match dict_get k d with
  | Some v => py_eq v (VStr s)
  | None => false
  end = bool_decide (dict_get k d = Some (VStr s)).
Proof.
  destruct (dict_get k d) as [v|].
  - rewrite py_eq_str. apply bool_decide_ext. split; congruence.
  - by rewrite bool_decide_false.
Qed.

Lemma mock_find_users (m : MockDB) (username : string) :
  db_find m (user_query username) = Return (mock_users username m).
Proof.
  simpl. unfold mock_find, mock_users. simpl. f_equal.
  apply list_filter_iff. intros [k d]. unfold mock_match, user_matches.
  cbn [forallb fst snd]. rewrite !member_eq_str. by rewrite andb_true_r.
Qed.

(** C8, as amended.  The query finds the stored documents whose type is
    user_profile and whose username equals the name exactly (CouchDB: in id
    order, design documents left out; mock store: in insertion order).
    get_user_by_username returns None when there is none, and otherwise
    looks at the first one only: when its preferred_workout_days is a
    non-empty list, the document is returned with the list's first element
    in that member; when it is not a list, the document is returned as it
    is; when it is the empty list, None is returned. *)
Theorem get_user_by_username_first {S : Type} `{!Store S} (db : S)
    (username : string) (found : list (value * pydict)) :
  db_find db (user_query username) = Return found →
  (found = [] → get_user_by_username db username = Return (None, db))
  ∧ (∀ k doc rest x l,
       found = (k, doc) :: rest →
       dict_get "preferred_workout_days" doc = Some (VList (x :: l)) →
       get_user_by_username db username
       = Return (Some (dict_set "preferred_workout_days" x doc),
                 db_assign db k (dict_set "preferred_workout_days" x doc)))
  ∧ (∀ k doc rest,
       found = (k, doc) :: rest →
       (∀ l, dict_get "preferred_workout_days" doc ≠ Some (VList l)) →
       get_user_by_username db username = Return (Some doc, db))
  ∧ (∀ k doc rest,
       found = (k, doc) :: rest →
       dict_get "preferred_workout_days" doc = Some (VList []) →
       get_user_by_username db username = Return (None, db))
  ∧ (∀ st : couch,
       db_find st (user_query username) = Return (couch_users username st))
  ∧ (∀ m : MockDB,
       db_find m (user_query username) = Return (mock_users username m)).
Proof.
  intros Hf. unfold get_user_by_username. fold (user_query username).
  rewrite Hf. simpl. unfold first_workout_day.
  split; [by intros ->|]. split; [by intros k doc rest x l -> ->|].
  split.
  { intros k doc rest -> Hn.
    destruct (dict_get "preferred_workout_days" doc)
      as [[| | | |l| | |]|]; try done.
    by destruct (Hn l). }
  split; [by intros k doc rest -> ->|].
  split; [intros st; apply couch_find_users|intros m; apply mock_find_users].
Qed.

(** C8, counterexample.  A user document named alice is stored, with an
    empty list under preferred_workout_days: the selector finds it, and
    get_user_by_username returns None, on the CouchDB store and on the mock
    store alike. *)
Lemma get_user_by_username_empty_days :
  let alice := [("type", VStr "user_profile"); ("username", VStr "alice");
                ("preferred_workout_days", VList [])] in
  let st := Couch {[ "u1" := Entry 1 alice ]} 8 in
  let m := Mock [(VStr "u1", (alice ++ [("_id", VStr "u1")])%list)] 0 in
  couch_users "alice" st ≠ []
  ∧ get_user_by_username st "alice" = Return (None, st)
  ∧ mock_users "alice" m ≠ []
  ∧ get_user_by_username m "alice" = Return (None, m).
Proof. simpl. repeat split; by vm_compute. Qed.

(** ** The order of ISO timestamps *)

Lemma digit_compare (a b : nat) :
  (a < 10)%nat → (b < 10)%nat →
  Ascii.compare (digit a) (digit b) = Nat.compare a b.
Proof.
  intros Ha Hb.
  do 10 (destruct a as [|a]; [do 10 (destruct b as [|b]; [reflexivity|]); lia|]).
  lia.
Qed.

Lemma string_compare_cons (c : Ascii.ascii) (s t : string) :
  String.compare (String c s) (String c t) = String.compare s t.
Proof.
  simpl. assert (Ascii.compare c c = Eq) as ->; [|done].
  unfold Ascii.compare. apply N.compare_refl.
Qed.

Lemma fixed_digits_compare (w a b : nat) (s t : string) :
  (a < 10 ^ w)%nat → (b < 10 ^ w)%nat →
  String.compare (fixed_digits w a +:+ s) (fixed_digits w b +:+ t)
  = lex (Nat.compare a b) (String.compare s t).
Proof.
  revert a b. induction w as [|w IH]; intros a b Ha Hb.
  - simpl in Ha, Hb. assert (a = 0%nat) as -> by lia.
    assert (b = 0%nat) as -> by lia. done.
  - cbn [fixed_digits]. rewrite !string_app_cons.
    assert (0 < 10 ^ w)%nat as Hpos.
    { apply Nat.neq_0_lt_0, Nat.pow_nonzero. lia. }
    rewrite Nat.pow_succ_r' in Ha, Hb.
    pose proof (Nat.div_mod_eq a (10 ^ w)) as Hqa.
    pose proof (Nat.div_mod_eq b (10 ^ w)) as Hqb.
    pose proof (Nat.mod_upper_bound a (10 ^ w) ltac:(lia)) as Hra.
    pose proof (Nat.mod_upper_bound b (10 ^ w) ltac:(lia)) as Hrb.
    assert (a / 10 ^ w < 10)%nat as Hda.
    { apply Nat.Div0.div_lt_upper_bound. lia. }
    assert (b / 10 ^ w < 10)%nat as Hdb.
    { apply Nat.Div0.div_lt_upper_bound. lia. }
    set (qa := (a / 10 ^ w)%nat) in *. set (qb := (b / 10 ^ w)%nat) in *.
    set (ra := (a `mod` 10 ^ w)%nat) in *.
    set (rb := (b `mod` 10 ^ w)%nat) in *.
    cbn [String.compare]. rewrite digit_compare by done.
    destruct (Nat.compare_spec qa qb) as [Hq|Hq|Hq].
    + rewrite IH by done. rewrite Hq in Hqa.
      destruct (Nat.compare_spec ra rb) as [Hr|Hr|Hr]; simpl.
      * assert (a = b) as -> by lia. by rewrite Nat.compare_refl.
      * assert (a < b)%nat as ->%Nat.compare_lt_iff by lia. done.
      * assert (b < a)%nat as ->%Nat.compare_gt_iff by lia. done.
    + assert (a < b)%nat as ->%Nat.compare_lt_iff by nia. done.
    + assert (b < a)%nat as ->%Nat.compare_gt_iff by nia. done.
Qed.

Lemma zfill_fixed (w n : nat) : (n < 10 ^ w)%nat → zfill w n = fixed_digits w n.
Proof. intros H. unfold zfill. by rewrite decide_True. Qed.

Lemma string_sep_compare (c : Ascii.ascii) (s t : string) :
  String.compare (String c EmptyString +:+ s) (String c EmptyString +:+ t)
  = String.compare s t.
Proof. apply string_compare_cons. Qed.

Lemma fraction_compare (a b : nat) :
  (a < 10 ^ 6)%nat → (b < 10 ^ 6)%nat →
  String.compare
    ((if decide (a = 0%nat) then EmptyString else "." +:+ zfill 6 a)
     +:+ EmptyString)
    ((if decide (b = 0%nat) then EmptyString else "." +:+ zfill 6 b)
     +:+ EmptyString)
  = Nat.compare a b.
Proof.
  intros Ha Hb. rewrite !zfill_fixed by done.
  destruct (decide (a = 0%nat)) as [->|Hna], (decide (b = 0%nat)) as [->|Hnb].
  - done.
  - assert (0 < b)%nat as ->%Nat.compare_lt_iff by lia. done.
  - assert (0 < a)%nat as ->%Nat.compare_gt_iff by lia. done.
  - rewrite !string_app_cons, string_compare_cons.
    change (EmptyString +:+ fixed_digits 6 a) with (fixed_digits 6 a).
    change (EmptyString +:+ fixed_digits 6 b) with (fixed_digits 6 b).
    rewrite fixed_digits_compare by done.
    by destruct (Nat.compare a b).
Qed.

Lemma isoformat_compare (a b : datetime) :
  naive a → naive b →
  String.compare (isoformat a) (isoformat b) = datetime_compare a b.
Proof.
  destruct a as [y1 mo1 d1 h1 mi1 s1 u1 tz1], b as [y2 mo2 d2 h2 mi2 s2 u2 tz2].
  unfold naive, isoformat, datetime_compare.
  cbn [year month day hour minute second microsecond tzinfo].
  intros [(?&?&?&?&?&?&?) ->] [(?&?&?&?&?&?&?) ->].
  rewrite !(zfill_fixed 4), !(zfill_fixed 2) by done.
  rewrite fixed_digits_compare, string_sep_compare by done.
  rewrite fixed_digits_compare, string_sep_compare by done.
  rewrite fixed_digits_compare, string_sep_compare by done.
  rewrite fixed_digits_compare, string_sep_compare by done.
  rewrite fixed_digits_compare, string_sep_compare by done.
  rewrite fixed_digits_compare by done.
  by rewrite fraction_compare by done.
Qed.

(** ** Range queries on workouts/by_date *)

Lemma resolve_by_date (st : couch) :
  has_views "workouts" workouts_views st →
  resolve st "workouts" "by_date"
  = Return (ViewSem (emit_field "workout" "start_time") None).
Proof.
  intros (e & He & Hv). unfold resolve. rewrite He, Hv. reflexivity.
Qed.

Lemma StronglySorted_filter {A} (R : relation A) (P : A → Prop)
    `{∀ x, Decision (P x)} (l : list A) :
  StronglySorted R l → StronglySorted R (filter P l).
Proof.
  induction 1 as [|x l Hl IH Hx]; [constructor|].
  rewrite filter_cons. case_decide; [|done].
  constructor; [done|].
  apply Forall_forall. intros y [_ Hy]%list_elem_of_filter.
  by eapply Forall_forall in Hx.
Qed.

Lemma sorted_values (rows : list row) :
  Forall (λ r, row_key r = start_time_of (row_value r)) rows →
  StronglySorted row_le rows →
  StronglySorted by_start_time (map row_value rows).
Proof.
  intros Hk Hs. induction Hs as [|r rows Hs IH Hr]; [constructor|].
  apply Forall_cons in Hk as [Hr1 Hk]. simpl. constructor; [by apply IH|].
  apply Forall_fmap, Forall_forall. intros r2 Hr2. simpl.
  unfold by_start_time. rewrite <-Hr1.
  eapply Forall_forall in Hk; [|exact Hr2]. simpl in Hk. rewrite <-Hk.
  apply row_le_key. by eapply Forall_forall in Hr.
Qed.

Lemma by_date_rows_key (st : couch) :
  Forall (λ r, row_key r = start_time_of (row_value r))
    (map_to_list (docs st)
       ≫= doc_rows (ViewSem (emit_field "workout" "start_time") None)).
Proof.
  apply Forall_bind, Forall_forall. intros [id e] _. unfold doc_rows. simpl.
  destruct (is_design id); [constructor|].
  destruct (has_type "workout" (doc_of id e)); repeat constructor.
Qed.

Lemma in_range_between (lo hi : value) (d : pydict) :
  in_range (ViewOpts None (Some lo) (Some hi) false)
           (js_null (dict_get "start_time" d)) = true
  ↔ between lo hi (VDict d).
Proof.
  unfold in_range, between. simpl.
  rewrite andb_true_iff, !bool_decide_eq_true. done.
Qed.

Lemma by_date_values (lo hi : value) (l : list (string * entry)) :
  map row_value
    (filter (λ r, in_range (ViewOpts None (Some lo) (Some hi) false)
                           (row_key r) = true)
       (l ≫= doc_rows (ViewSem (emit_field "workout" "start_time") None)))
  = filter (between lo hi)
      (map (λ ide, VDict (doc_of ide.1 ide.2))
         (filter (λ ide, is_design ide.1 = false
                         ∧ has_type "workout" (doc_of ide.1 ide.2) = true) l)).
Proof.
  induction l as [|[id e] l IH]; [done|].
  rewrite bind_cons, filter_app, map_app, IH, (filter_cons _ (id, e)).
  unfold doc_rows at 1. simpl.
  destruct (is_design id) eqn:Hd.
  { rewrite decide_False by (by intros [??]). done. }
  destruct (has_type "workout" (doc_of id e)) eqn:Ht.
  - rewrite decide_True by done. simpl.
    pose proof (in_range_between lo hi (doc_of id e)) as Hiff. simpl in Hiff.
    rewrite !filter_cons, filter_nil. simpl.
    do 2 case_decide; simpl; try done; tauto.
  - rewrite decide_False by (by intros [??]). done.
Qed.

Lemma between_chronological (s e t : datetime) (d : pydict) :
  naive s → naive e → naive t →
  dict_get "start_time" d = Some (VStr (isoformat t)) →
  between (VStr (isoformat s)) (VStr (isoformat e)) (VDict d)
  ↔ datetime_le s t ∧ datetime_le t e.
Proof.
  intros Hs He Ht Hd.
  unfold between, collate_le, datetime_le, start_time_of. rewrite Hd.
  change (js_null (Some (VStr (isoformat t)))) with (VStr (isoformat t)).
  change (collate (VStr (isoformat s)) (VStr (isoformat t)))
    with (String.compare (isoformat s) (isoformat t)).
  change (collate (VStr (isoformat t)) (VStr (isoformat e)))
    with (String.compare (isoformat t) (isoformat e)).
  by rewrite !isoformat_compare by done.
Qed.

(** C4, as amended.  On a CouchDB database that holds the workouts design
    document, get_workouts_by_date_range(start, end) returns the stored
    documents of type workout whose start_time lies between the ISO forms of
    start and end in view order, both ends included: each of them once and
    nothing else, ordered by start time.  A workout whose start time is after
    end in that order is therefore not returned.  For naive datetimes the
    view order of the ISO forms is the order of the datetimes: a stored
    workout whose start_time is the ISO form of t is returned exactly when
    start <= t <= end. *)
Theorem get_workouts_by_date_range_exact (st : couch) (s e : datetime) :
  has_views "workouts" workouts_views st →
  ∃ res,
    get_workouts_by_date_range st s e = Return res
    ∧ res ≡ₚ filter (between (VStr (isoformat s)) (VStr (isoformat e)))
               (stored_of_type "workout" st)
    ∧ StronglySorted by_start_time res
    ∧ (∀ doc, doc ∈ stored_of_type "workout" st →
              collate (VStr (isoformat e)) (start_time_of doc) = Lt →
              doc ∉ res)
    ∧ (∀ d t, naive s → naive e → naive t →
              dict_get "start_time" d = Some (VStr (isoformat t)) →
              VDict d ∈ stored_of_type "workout" st →
              (VDict d ∈ res ↔ datetime_le s t ∧ datetime_le t e)).
Proof.
  intros Hv. unfold get_workouts_by_date_range. simpl. unfold couch_view.
  rewrite (resolve_by_date st Hv). simpl.
  set (sem := ViewSem (emit_field "workout" "start_time") None).
  set (o := ViewOpts None (Some (VStr (isoformat s)))
                     (Some (VStr (isoformat e))) false).
  set (P := λ r : row, in_range o (row_key r) = true).
  assert (values_of (map (with_doc o) (filter P (index_rows sem st)))
          = map row_value (filter P (index_rows sem st))) as ->.
  { unfold values_of. rewrite map_map. by apply map_ext. }
  assert (map row_value (filter P (index_rows sem st))
          ≡ₚ filter (between (VStr (isoformat s)) (VStr (isoformat e)))
               (stored_of_type "workout" st)) as Hperm.
  { unfold stored_of_type. rewrite <-by_date_values. fold o P sem.
    unfold index_rows. by rewrite merge_sort_Permutation. }
  eexists. split; [done|]. split; [exact Hperm|]. split; [|split].
  - apply sorted_values.
    + apply Forall_forall. intros r [_ Hr]%list_elem_of_filter.
      unfold index_rows in Hr. rewrite merge_sort_Permutation in Hr.
      by eapply Forall_forall in Hr; [|apply by_date_rows_key].
    + apply StronglySorted_filter. unfold index_rows.
      apply StronglySorted_merge_sort; apply _.
  - intros doc _ Hlt. rewrite Hperm.
    intros [[_ Hhi] _]%list_elem_of_filter. apply Hhi.
    change (collate (VStr (isoformat e)) (start_time_of doc) = Lt) in Hlt.
    by rewrite (collate_antisym (VStr (isoformat e)) (start_time_of doc)), Hlt.
  - intros d t Hs He Ht Hd Hin. rewrite Hperm, list_elem_of_filter.
    pose proof (between_chronological s e t d Hs He Ht Hd) as Hb.
    split.
    + intros [H _]. by apply Hb.
    + intros H. split; [by apply Hb|done].
Qed.

(** C4, counterexample.  Three workouts start at 08:00 UTC, at noon +03:00
    (09:00 UTC) and at 10:00 UTC, so t1 < t2 < t3.
    The view is ordered by the ISO strings, which puts 10:00+00:00 before
    12:00+03:00: the query from t1 to t2 returns the three workouts, the one
    at t3 between the other two.  On the mock store the call raises
    AttributeError, MockDB having no views. *)
Lemma get_workouts_by_date_range_offsets :
  earlier eight_utc noon_plus3 ∧ earlier noon_plus3 ten_utc
  ∧ get_workouts_by_date_range offset_workouts eight_utc noon_plus3
    = Return [VDict (doc_of "w1" (workout_at eight_utc));
              VDict (doc_of "w3" (workout_at ten_utc));
              VDict (doc_of "w2" (workout_at noon_plus3))]
  ∧ get_workouts_by_date_range (Mock [] 0) eight_utc noon_plus3
    = Raise AttributeError.
Proof.
  split; [by vm_compute|]. split; [by vm_compute|].
  split; [vm_compute; reflexivity|reflexivity].
Qed.

(** ** The stats view and its reduce function *)

Lemma js_safe_abs (n : Z) : js_safe n = true ↔ Z.abs n ≤ 2 ^ 53.
Proof.
  unfold js_safe. rewrite andb_true_iff, !Z.leb_le.
  generalize (2 ^ 53). lia.
Qed.

Lemma js_add_exact (x y : Z) :
  Z.abs x ≤ 2 ^ 53 → Z.abs y ≤ 2 ^ 53 → Z.abs (x + y) ≤ 2 ^ 53 →
  js_add (JV (VInt x)) (JV (VInt y)) = Return (JV (VInt (x + y))).
Proof.
  intros Hx%js_safe_abs Hy%js_safe_abs Hxy%js_safe_abs.
  unfold js_add, js_exact. rewrite Hx, Hy. simpl. by rewrite Hxy.
Qed.

Lemma js_sum_ints (k : string) (f : Z * Z → Z) (a : Z) (l : list (Z * Z)) :
  (∀ p, js_get k (stat_value p) = Return (Some (VInt (f p)))) →
  Z.abs a + foldr Z.add 0 (map Z.abs (map f l)) ≤ 2 ^ 53 →
  js_sum_field k (JV (VInt a)) (map stat_value l)
  = Return (JV (VInt (a + foldr Z.add 0 (map f l)))).
Proof.
  intros Hk. revert a. induction l as [|p l IH]; intros a Hs.
  - simpl. by rewrite Z.add_0_r.
  - cbn [map foldr] in Hs.
    assert (0 ≤ foldr Z.add 0 (map Z.abs (map f l))) as Hpos.
    { clear. induction l as [|q l IH]; simpl; lia. }
    cbn [map js_sum_field]. rewrite Hk. cbn [mbind result_bind js_of_opt].
    rewrite js_add_exact by lia. cbn [mbind result_bind].
    rewrite IH by lia. cbn [foldr]. by rewrite Z.add_assoc.
Qed.

(** Applied to emitted values, the reduce function computes the three
    statistics, as long as the numbers stay among the integers that
    JavaScript adds exactly. *)
Lemma stats_reduce_values (keys : list value) (l : list (Z * Z))
    (rereduce : bool) :
  safe_total (map fst l) → safe_total (map snd l) →
  stats_reduce keys (map stat_value l) rereduce = Return (stats_total l).
Proof.
  unfold safe_total. intros Hd Hn. unfold stats_reduce, stats_total.
  rewrite (js_sum_ints "duration" fst) by (done || (simpl; lia)).
  cbn [mbind result_bind].
  rewrite (js_sum_ints "exercise_count" snd) by (done || (simpl; lia)).
  simpl. by rewrite length_map.
Qed.

Lemma js_sum_field_nan (k : string) (vs : list value) :
  Forall (lacks k) vs → js_sum_field k JNaN vs = Return JNaN.
Proof.
  induction 1 as [|v vs (d & -> & Hd) _ IH]; [done|].
  simpl. rewrite Hd. simpl. exact IH.
Qed.

Lemma js_sum_field_lacking (k : string) (v : value) (vs : list value) :
  Forall (lacks k) (v :: vs) →
  js_sum_field k (JV (VInt 0)) (v :: vs) = Return JNaN.
Proof.
  intros [(d & -> & Hd) Hvs]%Forall_cons. simpl. rewrite Hd. simpl.
  by apply js_sum_field_nan.
Qed.

(** Applied to its own results, as a re-reduce does, the function finds no
    [duration] and no [exercise_count] in them: the totals become NaN, which
    is [null] in JSON, and [count] counts the partial results, not the
    workouts. *)
Lemma stats_reduce_partials (p : value) (ps : list value) (rereduce : bool) :
  Forall (λ v, lacks "duration" v ∧ lacks "exercise_count" v) (p :: ps) →
  stats_reduce [] (p :: ps) rereduce
  = Return (VDict [("total_duration", VNone); ("total_exercises", VNone);
                   ("count", VInt (Z.of_nat (S (length ps))))]).
Proof.
  intros H. unfold stats_reduce.
  rewrite (js_sum_field_lacking "duration").
  2:{ eapply Forall_impl; [exact H|]. by intros v [? _]. }
  unfold mbind, result_bind at 1.
  rewrite (js_sum_field_lacking "exercise_count").
  2:{ eapply Forall_impl; [exact H|]. by intros v [_ ?]. }
  done.
Qed.

Lemma stats_total_partial (l : list (Z * Z)) :
  lacks "duration" (stats_total l) ∧ lacks "exercise_count" (stats_total l).
Proof. split; eexists; split; reflexivity. Qed.

(** C7, what the code does.  With the three workouts in one leaf of the
    stats index the query returns the sums 120 and 6 and the count 3.  With
    leaves of two rows the index spans two leaves, the partial results are
    combined by a re-reduce, and the query returns null totals and the count
    2, for the unbounded and for the bounded call alike. *)
Theorem get_workout_stats_rereduce :
  get_workout_stats (three_workouts 3) None None
  = Return [stats_total [(30, 2); (40, 1); (50, 3)]]
  ∧ get_workout_stats (three_workouts 2) None None
    = Return [VDict [("total_duration", VNone); ("total_exercises", VNone);
                     ("count", VInt 2)]]
  ∧ get_workout_stats (three_workouts 2)
      (Some (Datetime 2024 1 1 0 0 0 0 None))
      (Some (Datetime 2024 1 31 0 0 0 0 None))
    = Return [VDict [("total_duration", VNone); ("total_exercises", VNone);
                     ("count", VInt 2)]].
Proof. repeat split; by vm_compute. Qed.

(** ** Server-assigned ids *)

Lemma search_uuid_form (xs : list string) (n : nat)
    (acc : Acc (λ n1 n2 : nat, (n2 < n1)%nat ∧ uuid_of (n1 - 1) ∈ xs) n) :
  ∃ m, Fix_F (λ _, string) (search_infinite_go uuid_of xs) acc = uuid_of m.
Proof.
  revert n acc. fix FIX 2. intros n [acc]. simpl.
  unfold search_infinite_go at 1. destruct (decide _); eauto.
Qed.

Lemma fresh_uuid_form (st : couch) : ∃ n, fresh_uuid st = uuid_of n.
Proof. unfold fresh_uuid. apply search_uuid_form. Qed.

Lemma is_design_uuid (n : nat) : is_design (uuid_of n) = false.
Proof. reflexivity. Qed.

Lemma is_design_design_id (name : string) : is_design (design_id name) = true.
Proof. by destruct name. Qed.

(** ** Upsert by external id *)

Lemma by_hevy_id_rows (ty : string) (E : value) (st : couch) (r : row) :
  r ∈ filter (λ r, in_range (by_key E) (row_key r) = true)
        (index_rows (ViewSem (emit_field ty "hevy_id") None) st)
  ↔ ∃ id e, docs st !! id = Some e ∧ indexed ty E id e ∧ r = hevy_row id e.
Proof.
  rewrite list_elem_of_filter. unfold index_rows.
  rewrite merge_sort_Permutation, list_elem_of_bind. split.
  - intros [Hk ([id e] & Hr & Hin%elem_of_map_to_list)].
    exists id, e. split; [done|]. unfold doc_rows in Hr. simpl in Hr.
    unfold indexed. destruct (is_design id); [by apply elem_of_nil in Hr|].
    change (has_type ty (doc_of id e)) with (has_type ty (e_body e)) in Hr.
    destruct (has_type ty (e_body e)); [|by apply elem_of_nil in Hr].
    apply list_elem_of_singleton in Hr as ->. simpl in *.
    unfold in_range in Hk. simpl in Hk. rewrite !andb_true_r in Hk.
    by apply bool_decide_eq_true in Hk.
  - intros (id & e & He & (Hd & Ht & Hk) & ->). split.
    + unfold in_range. simpl. rewrite !andb_true_r.
      by apply bool_decide_eq_true.
    + exists (id, e). split; [|by apply elem_of_map_to_list].
      unfold doc_rows. simpl. rewrite Hd.
      change (has_type ty (doc_of id e)) with (has_type ty (e_body e)).
      rewrite Ht. by apply list_elem_of_singleton.
Qed.

Lemma view_ready_exercises (st : couch) :
  has_views "exercises" exercises_views st →
  view_ready "exercises" "exercise" st.
Proof.
  intros (e & He & Hv). unfold view_ready, resolve. rewrite He, Hv.
  reflexivity.
Qed.

Lemma view_ready_workouts (st : couch) :
  has_views "workouts" workouts_views st →
  view_ready "workouts" "workout" st.
Proof.
  intros (e & He & Hv). unfold view_ready, resolve. rewrite He, Hv.
  reflexivity.
Qed.

Lemma view_ready_insert (design ty : string) (st : couch) (id : string)
    (e : entry) (cap : nat) :
  is_design id = false →
  view_ready design ty st →
  view_ready design ty (Couch (<[id := e]> (docs st)) cap).
Proof.
  intros Hd. unfold view_ready, resolve. simpl.
  rewrite lookup_insert_ne; [done|].
  intros ->. by rewrite is_design_design_id in Hd.
Qed.

Lemma json_ok_dict_get (k : string) (v : value) (d : pydict) :
  json_ok (VDict d) = true → dict_get k d = Some v → json_ok v = true.
Proof.
  simpl. induction d as [|[k' v'] d IH]; simpl; [done|].
  intros [H1 H2]%andb_true_iff. destruct (decide (k' = k)); [|by apply IH].
  by intros [= <-].
Qed.

Lemma get_by_hevy_id_head (design ty : string) (st : couch) (E : value) :
  json_ok E = true →
  view_ready design ty st →
  get_by_hevy_id design st E
  = Return (head (filter (λ r, in_range (by_key E) (row_key r) = true)
                    (index_rows (ViewSem (emit_field ty "hevy_id") None) st))
            ≫= row_doc).
Proof.
  intros HE Hr. unfold get_by_hevy_id. simpl. unfold couch_view.
  fold (by_key E). unfold opts_json_ok. simpl. rewrite HE. simpl.
  rewrite Hr. simpl. by rewrite map_id.
Qed.

Lemma get_by_hevy_id_none (design ty : string) (st : couch) (E : value) :
  json_ok E = true →
  view_ready design ty st →
  (∀ id e, docs st !! id = Some e → ¬ indexed ty E id e) →
  get_by_hevy_id design st E = Return None.
Proof.
  intros HE Hr Hn. rewrite (get_by_hevy_id_head design ty) by done.
  destruct (filter _ _) as [|r rows] eqn:Hrows; [done|].
  assert (r ∈ r :: rows) as Hin by left.
  rewrite <-Hrows in Hin. apply by_hevy_id_rows in Hin as (id & e & He & Hi & _).
  by destruct (Hn id e).
Qed.

Lemma get_by_hevy_id_unique (design ty : string) (st : couch) (E : value)
    (id : string) (e : entry) :
  json_ok E = true →
  view_ready design ty st →
  docs st !! id = Some e →
  indexed ty E id e →
  (∀ id' e', docs st !! id' = Some e' → indexed ty E id' e' → id' = id) →
  get_by_hevy_id design st E = Return (Some (VDict (doc_of id e))).
Proof.
  intros HE Hr He Hi Hu. rewrite (get_by_hevy_id_head design ty) by done.
  destruct (filter _ _) as [|r rows] eqn:Hrows.
  - assert (hevy_row id e ∈ @nil row) as Hin; [|by apply elem_of_nil in Hin].
    rewrite <-Hrows. apply by_hevy_id_rows. eauto.
  - assert (r ∈ r :: rows) as Hin by left.
    rewrite <-Hrows in Hin.
    apply by_hevy_id_rows in Hin as (id' & e' & He' & Hi' & ->).
    assert (id' = id) as -> by eauto.
    assert (e' = e) as -> by congruence. done.
Qed.

Lemma json_ok_dict_set (k : string) (v : value) (d : pydict) :
  json_ok v = true → json_ok (VDict d) = true →
  json_ok (VDict (dict_set k v d)) = true.
Proof.
  intros Hv. simpl. induction d as [|[k' v'] d IH]; simpl.
  - by rewrite Hv.
  - intros [H1 H2]%andb_true_iff. destruct (decide (k' = k)); simpl.
    + by rewrite Hv, H2.
    + by rewrite H1, IH.
Qed.

Lemma strip_reconciled (id rev : value) (p : pydict) :
  strip (dict_set "_rev" rev (dict_set "_id" id p)) = strip p.
Proof.
  unfold strip.
  rewrite (dict_del_set_ne "_rev" "_id") by done.
  by rewrite dict_del_set_eq, dict_del_set_eq.
Qed.

Lemma dict_get_strip (k : string) (p : pydict) :
  k ≠ "_id" → k ≠ "_rev" → dict_get k (strip p) = dict_get k p.
Proof.
  intros H1 H2. unfold strip.
  by rewrite !dict_get_del_ne by done.
Qed.

Lemma indexed_payload (ty : string) (E : value) (id : string) (gen : nat)
    (p : pydict) :
  is_design id = false → payload_for ty E p →
  indexed ty E id (Entry gen (strip p)).
Proof.
  intros Hd (Hh & Ht & _). unfold indexed, has_type, hevy_key. simpl.
  rewrite !dict_get_strip by done. rewrite Hh, Ht. simpl.
  split; [done|]. split; [by apply bool_decide_eq_true|]. apply collate_refl.
Qed.

Lemma save_first (design ty : string) (E : value) (st : couch) (p : pydict) :
  view_ready design ty st →
  (∀ id e, docs st !! id = Some e → ¬ indexed ty E id e) →
  payload_for ty E p →
  dict_get "_id" p = None → dict_get "_rev" p = None →
  ∃ id p' st',
    save_by_hevy_id (get_by_hevy_id design) st p = Return (VStr id, p', st')
    ∧ docs st !! id = None
    ∧ converged design ty E id 1 (strip p) st'.
Proof.
  intros Hr Hn Hp Hid Hrev. destruct Hp as (Hh & Ht & Hj).
  pose proof (json_ok_dict_get _ _ _ Hj Hh) as HE.
  unfold save_by_hevy_id, reconcile. rewrite Hh.
  rewrite (get_by_hevy_id_none design ty) by done. simpl.
  rewrite couch_save_new by done. simpl.
  destruct (fresh_uuid_form st) as [n Hf].
  assert (is_design (fresh_uuid st) = false) as Hd.
  { rewrite Hf. apply is_design_uuid. }
  eexists _, _, _. split; [done|]. split; [apply fresh_uuid_fresh|].
  rewrite strip_absent by done.
  split; [by apply view_ready_insert|]. simpl.
  split; [by rewrite lookup_insert_eq|].
  split.
  { rewrite <-(strip_absent p) by done. by apply indexed_payload. }
  intros id' e' He' Hi'. destruct (decide (id' = fresh_uuid st)); [done|].
  rewrite lookup_insert_ne in He' by done. by destruct (Hn id' e').
Qed.

Lemma save_again (design ty : string) (E : value) (st : couch) (id : string)
    (n : nat) (body p : pydict) :
  converged design ty E id n body st →
  payload_for ty E p →
  ∃ p' st',
    save_by_hevy_id (get_by_hevy_id design) st p = Return (VStr id, p', st')
    ∧ converged design ty E id (S n) (strip p) st'.
Proof.
  intros (Hr & He & Hi & Hu) Hp. pose proof Hp as (Hh & Ht & Hj).
  pose proof (json_ok_dict_get _ _ _ Hj Hh) as HE.
  unfold save_by_hevy_id, reconcile. rewrite Hh.
  rewrite (get_by_hevy_id_unique design ty st E id (Entry n body)) by done.
  simpl. unfold couch_save.
  set (p2 := dict_set "_rev" (VStr (rev_token n))
               (dict_set "_id" (VStr id) p)).
  assert (json_ok (VDict p2) = true) as ->.
  { unfold p2. by do 2 (apply json_ok_dict_set; [done|]). }
  assert (dict_get "_id" p2 = Some (VStr id)) as ->.
  { unfold p2. rewrite dict_get_set_ne by done. apply dict_get_set_eq. }
  simpl. rewrite He.
  assert (dict_get "_rev" p2 = Some (VStr (rev_token n))) as ->.
  { unfold p2. apply dict_get_set_eq. }
  simpl. rewrite decide_True by done. simpl.
  eexists _, _. split; [done|].
  unfold p2. rewrite strip_reconciled.
  destruct Hi as (Hd & _).
  split; [by apply view_ready_insert|]. simpl.
  split; [by rewrite lookup_insert_eq|].
  split; [by apply indexed_payload|].
  intros id' e' He' Hi'. destruct (decide (id' = id)); [done|].
  rewrite lookup_insert_ne in He' by done. eauto.
Qed.

Lemma save_all_converged (design ty : string) (E : value) (id : string)
    (ps : list pydict) (st : couch) (n : nat) (body : pydict) :
  converged design ty E id n body st →
  Forall (payload_for ty E) ps →
  ∃ st',
    save_all (save_by_hevy_id (get_by_hevy_id design)) st ps
    = Return (replicate (length ps) (VStr id), st')
    ∧ converged design ty E id (n + length ps)
        (default body (strip <$> last ps)) st'.
Proof.
  intros Hc Hps. revert st n body Hc.
  induction Hps as [|p ps Hp Hps IH]; intros st n body Hc.
  - exists st. split; [done|]. simpl. by rewrite Nat.add_0_r.
  - destruct (save_again design ty E st id n body p Hc Hp)
      as (p' & st1 & Hs & Hc1).
    destruct (IH st1 (S n) (strip p) Hc1) as (st' & Hss & Hc').
    exists st'. simpl. rewrite Hs. simpl. rewrite Hss. simpl.
    split; [done|]. rewrite Nat.add_succ_r.
    rewrite last_cons. destruct (last ps); exact Hc'.
Qed.

Lemma upsert_sequence (design ty : string) (E : value) (st : couch)
    (p : pydict) (ps : list pydict) :
  view_ready design ty st →
  (∀ id e, docs st !! id = Some e → ¬ indexed ty E id e) →
  Forall (payload_for ty E) (p :: ps) →
  dict_get "_id" p = None → dict_get "_rev" p = None →
  ∃ id st',
    save_all (save_by_hevy_id (get_by_hevy_id design)) st (p :: ps)
    = Return (replicate (S (length ps)) (VStr id), st')
    ∧ docs st !! id = None
    ∧ docs st' !! id
      = Some (Entry (S (length ps)) (strip (default p (last ps))))
    ∧ (∀ id' e', docs st' !! id' = Some e' → indexed ty E id' e' → id' = id).
Proof.
  intros Hr Hn [Hp Hps]%Forall_cons Hid Hrev.
  destruct (save_first design ty E st p Hr Hn Hp Hid Hrev)
    as (id & p' & st1 & Hs & Hnew & Hc1).
  destruct (save_all_converged design ty E id ps st1 1 (strip p) Hc1 Hps)
    as (st' & Hss & (_ & He & _ & Hu)).
  exists id, st'. simpl. rewrite Hs. simpl. rewrite Hss. simpl.
  split; [done|]. split; [done|]. split; [|done].
  rewrite He. by destruct (last ps).
Qed.

(** C1, as amended.  On a CouchDB database that holds the design document
    of the kind (exercises or workouts) and no document of that type indexed
    under the external id: for every non-empty sequence of save_exercise
    (save_workout) calls whose payloads are JSON documents of type exercise
    (workout) carrying that hevy_id, the first one without _id and _rev,
    every call succeeds and returns the same _id, which the first call
    assigned (no document had it before); after the sequence that document
    is the only one of its type indexed under the hevy_id, its members other
    than _id and _rev are those of the last payload, and its revision
    generation is the number of calls, so each further call changes the
    revision. *)
Theorem upsert_by_hevy_id_converges (k : external_kind) (st : couch)
    (E : value) (p : pydict) (ps : list pydict) :
  has_views (kind_design k) (kind_views k) st →
  (∀ id e, docs st !! id = Some e → ¬ indexed (kind_type k) E id e) →
  Forall (payload_for (kind_type k) E) (p :: ps) →
  dict_get "_id" p = None →
  dict_get "_rev" p = None →
  ∃ id st',
    save_all (kind_save k) st (p :: ps)
    = Return (replicate (S (length ps)) (VStr id), st')
    ∧ docs st !! id = None
    ∧ docs st' !! id
      = Some (Entry (S (length ps)) (strip (default p (last ps))))
    ∧ (∀ id' e', docs st' !! id' = Some e' →
                 indexed (kind_type k) E id' e' → id' = id)
    ∧ (ps ≠ [] → rev_token (S (length ps)) ≠ rev_token 1).
Proof.
  intros Hv Hn Hps Hid Hrev.
  assert (view_ready (kind_design k) (kind_type k) st) as Hr.
  { destruct k; [by apply view_ready_exercises|by apply view_ready_workouts]. }
  destruct (upsert_sequence _ _ E st p ps Hr Hn Hps Hid Hrev)
    as (id & st' & Hs & Hnew & He & Hu).
  exists id, st'. split; [by destruct k|]. do 3 (split; [done|]).
  intros Hne H%(inj rev_token). destruct ps; [done|]. simpl in H. lia.
Qed.

(** C1, counterexample.  The payload of the spec's own example,
    hevy_id ex1 and name Squat, has no type member, and the by_hevy_id view
    indexes documents of type exercise only: on a bootstrapped CouchDB
    database the lookup of the second save_exercise finds nothing, the two
    calls return different ids, and two stored documents carry hevy_id ex1.
    On the mock store the lookup always comes back empty (the mock has no
    views): two saves of a typed payload store two documents. *)
Lemma upsert_untyped_duplicates :
  let untyped := [("hevy_id", VStr "ex1"); ("name", VStr "Squat")] in
  let typed := ("type", VStr "exercise") :: untyped in
  let with_ex1 (d : pydict) := dict_get "hevy_id" d = Some (VStr "ex1") in
  (∃ st',
     save_all save_exercise (_create_design_documents (Couch ∅ 8))
       [untyped; untyped]
     = Return ([VStr "uuid0"; VStr "uuid1"], st')
     ∧ length (filter (λ ide, with_ex1 (e_body ide.2))
                 (map_to_list (docs st'))) = 2%nat)
  ∧ (∃ m',
       save_all save_exercise (Mock [] 0) [typed; typed]
       = Return ([VStr "mock_0"; VStr "mock_1"], m')
       ∧ length (filter (λ kd, with_ex1 kd.2) (data m')) = 2%nat).
Proof.
  simpl. split.
  - eexists. split; [vm_compute; reflexivity|]. by vm_compute.
  - eexists. split; [vm_compute; reflexivity|]. by vm_compute.
Qed.

(** ** The theorems on concrete stores *)

(** Squat, then Back Squat under the same hevy_id, on a bootstrapped
    database: one id, one document, the second name, generation 2. *)
Lemma upsert_by_hevy_id_converges_witness :
  ∃ id st',
    save_all save_exercise bootstrapped [squat; back_squat]
    = Return ([VStr id; VStr id], st')
    ∧ docs bootstrapped !! id = None
    ∧ docs st' !! id = Some (Entry 2 back_squat)
    ∧ (∀ id' e', docs st' !! id' = Some e' →
                 indexed "exercise" (VStr "ex1") id' e' → id' = id)
    ∧ ([back_squat] ≠ [] → rev_token 2 ≠ rev_token 1).
Proof.
  apply (upsert_by_hevy_id_converges Exercise bootstrapped (VStr "ex1")
           squat [back_squat]).
  - exists (Entry 1 [("views", VDict exercises_views)]).
    split; vm_compute; reflexivity.
  - apply (bool_decide_unpack
             (map_Forall (λ id e, ¬ indexed "exercise" (VStr "ex1") id e)
                (docs bootstrapped))).
    vm_compute. exact I.
  - repeat constructor.
  - reflexivity.
  - reflexivity.
Defined.

Lemma missing_view_reads_witness :
  get_workouts_by_date_range (Couch ∅ 8)
    (Datetime 2024 1 1 0 0 0 0 None) (Datetime 2024 1 31 0 0 0 0 None)
  = Return []
  ∧ get_workout_stats (Couch ∅ 8) None None = Raise ResourceNotFound
  ∧ get_workout_progression (Couch ∅ 8) "squat" = Raise ResourceNotFound
  ∧ get_workouts_by_exercise (Couch ∅ 8) "squat" = Raise ResourceNotFound.
Proof.
  apply (missing_view_reads (Couch ∅ 8) (Datetime 2024 1 1 0 0 0 0 None)
           (Datetime 2024 1 31 0 0 0 0 None) (None, None) "squat").
  reflexivity.
Defined.

(** Three workouts at 1, 2 and 3 January, queried from the first to the
    second. *)
Lemma get_workouts_by_date_range_exact_witness :
  ∃ res,
    get_workouts_by_date_range (three_workouts 8)
      (Datetime 2024 1 1 10 0 0 0 None) (Datetime 2024 1 2 10 0 0 0 None)
    = Return res
    ∧ res ≡ₚ filter (between (VStr "2024-01-01T10:00:00")
                             (VStr "2024-01-02T10:00:00"))
               (stored_of_type "workout" (three_workouts 8))
    ∧ StronglySorted by_start_time res
    ∧ (∀ doc, doc ∈ stored_of_type "workout" (three_workouts 8) →
              collate (VStr "2024-01-02T10:00:00") (start_time_of doc) = Lt →
              doc ∉ res)
    ∧ (∀ d t, naive (Datetime 2024 1 1 10 0 0 0 None) →
              naive (Datetime 2024 1 2 10 0 0 0 None) → naive t →
              dict_get "start_time" d = Some (VStr (isoformat t)) →
              VDict d ∈ stored_of_type "workout" (three_workouts 8) →
              (VDict d ∈ res
               ↔ datetime_le (Datetime 2024 1 1 10 0 0 0 None) t
                 ∧ datetime_le t (Datetime 2024 1 2 10 0 0 0 None))).
Proof.
  apply (get_workouts_by_date_range_exact (three_workouts 8)
           (Datetime 2024 1 1 10 0 0 0 None)
           (Datetime 2024 1 2 10 0 0 0 None)).
  exists (Entry 1 [("views", VDict workouts_views)]).
  split; vm_compute; reflexivity.
Defined.

(** The same query, evaluated: the workouts of 1 and 2 January, in that
    order; the one of 3 January is left out. *)
Example three_workouts_first_two :
  get_workouts_by_date_range (three_workouts 8)
    (Datetime 2024 1 1 10 0 0 0 None) (Datetime 2024 1 2 10 0 0 0 None)
  = Return [VDict (doc_of "w1"
                     (Entry 1 (workout_doc "2024-01-01T10:00:00" 30 2)));
            VDict (doc_of "w2"
                     (Entry 1 (workout_doc "2024-01-02T10:00:00" 40 1)))].
Proof. by vm_compute. Qed.

(** A stored user whose preferred_workout_days is the list 3, 5 comes back
    with 3 in that member; on the mock store the stored dict changes with
    it. *)
Lemma get_user_by_username_first_witness :
  get_user_by_username (Mock [(VStr "mock_0", bob)] 1) "bob"
  = Return (Some (dict_set "preferred_workout_days" (VInt 3) bob),
            Mock [(VStr "mock_0",
                   dict_set "preferred_workout_days" (VInt 3) bob)] 1).
Proof.
  assert (db_find (Mock [(VStr "mock_0", bob)] 1) (user_query "bob")
          = Return [(VStr "mock_0", bob)]) as Hfound by (by vm_compute).
  destruct (get_user_by_username_first (Mock [(VStr "mock_0", bob)] 1) "bob"
              [(VStr "mock_0", bob)] Hfound) as (_ & Hfirst & _).
  rewrite (Hfirst (VStr "mock_0") bob [] (VInt 3) [VInt 5] eq_refl eq_refl).
  reflexivity.
Defined.


Lemma exercise_reads_missing_view_witness :
  get_exercises_by_muscle_group (Couch ∅ 8) (VStr "legs") = Return []
  ∧ get_all_exercises (Couch ∅ 8) = Return []
  ∧ get_exercise_by_hevy_id (Couch ∅ 8) (VStr "ex1") = Return None.
Proof.
  apply (exercise_reads_missing_view (Couch ∅ 8) (VStr "legs") (VStr "ex1")).
  reflexivity.
Defined.

(** The mock store accepts a write that carries a revision it never
    issued. *)
Lemma mock_update_unchecked_witness :
  update_document (Mock [(VStr "mock_0", squat)] 1)
    (VDict (("_id", VStr "mock_0") :: ("_rev", VStr "7-stale") :: back_squat))
  = Return (VStr "mock_0", VStr "1-mock",
            Mock [(VStr "mock_0",
                   ("_id", VStr "mock_0") :: ("_rev", VStr "7-stale")
                   :: back_squat)] 1).
Proof.
  apply (mock_update_unchecked (Mock [(VStr "mock_0", squat)] 1)
           (("_id", VStr "mock_0") :: ("_rev", VStr "7-stale") :: back_squat)
           (VStr "mock_0")); reflexivity.
Defined.

(** Half past nine sorts before a quarter to ten, with and without
    microseconds. *)
Lemma isoformat_compare_witness :
  String.compare (isoformat (Datetime 2024 3 9 9 30 0 0 None))
                 (isoformat (Datetime 2024 3 9 9 45 0 2500 None))
  = datetime_compare (Datetime 2024 3 9 9 30 0 0 None)
                     (Datetime 2024 3 9 9 45 0 2500 None).
Proof.
  apply isoformat_compare;
    (split; [repeat split; apply Nat.ltb_lt; vm_compute; reflexivity
            |reflexivity]).
Defined.

(** Two partial results of the stats reduce, combined by the same
    function. *)
Lemma stats_reduce_partials_witness :
  stats_reduce [] [stats_total [(30, 2); (40, 1)]; stats_total [(50, 3)]] true
  = Return (VDict [("total_duration", VNone); ("total_exercises", VNone);
                   ("count", VInt 2)]).
Proof.
  apply (stats_reduce_partials (stats_total [(30, 2); (40, 1)])
           [stats_total [(50, 3)]] true).
  repeat constructor; eexists; split; reflexivity.
Defined.

(** ** Documents by id *)

Lemma doc_id_ok_design (name : string) :
  name ≠ EmptyString → doc_id_ok (design_id name) = true.
Proof. by destruct name. Qed.

Lemma doc_id_ok_uuid (n : nat) : doc_id_ok (uuid_of n) = true.
Proof. reflexivity. Qed.

Lemma doc_id_ok_fresh (st : couch) : doc_id_ok (fresh_uuid st) = true.
Proof. destruct (fresh_uuid_form st) as [n ->]. apply doc_id_ok_uuid. Qed.

Lemma doc_id_ok_exercises (user_id : option string) :
  doc_id_ok (exercises_doc_id user_id) = true.
Proof. by destruct user_id as [[|]|]. Qed.

Lemma strip_doc_of (id : string) (e : entry) :
  strip (doc_of id e) = strip (e_body e).
Proof. reflexivity. Qed.

Lemma json_ok_doc_of (id : string) (e : entry) :
  json_ok (VDict (doc_of id e)) = json_ok (VDict (e_body e)).
Proof. reflexivity. Qed.

(** What a successful [db.save] on CouchDB has done. *)
Lemma couch_save_inv (st st' : couch) (doc id rev doc' : value) :
  couch_save st doc = Return (id, rev, doc', st') →
  ∃ d i gen,
    doc = VDict d ∧ json_ok doc = true
    ∧ id = VStr i ∧ rev = VStr (rev_token gen)
    ∧ (dict_get "_id" d = None ∧ i = fresh_uuid st
       ∨ dict_get "_id" d = Some (VStr i))
    ∧ (docs st !! i = None ∧ gen = 1%nat
       ∨ ∃ e, docs st !! i = Some e ∧ gen = S (e_gen e))
    ∧ st' = Couch (<[i := Entry gen (strip d)]> (docs st)) (leaf_capacity st).
Proof.
  unfold couch_save. destruct (json_ok doc) eqn:Hj; [|done]. simpl.
  destruct doc as [| | | |?|d| |]; try done.
  assert (∀ i, (gen ← match docs st !! i, dict_get "_rev" d with
                       | None, None => Return 1%nat
                       | Some e, Some (VStr r) =>
                           if decide (r = rev_token (e_gen e))
                           then Return (S (e_gen e))
                           else Raise ResourceConflict
                       | _, _ => Raise ResourceConflict
                       end;
                Return (VStr i, VStr (rev_token gen),
                        VDict (dict_set "_rev" (VStr (rev_token gen))
                                 (dict_set "_id" (VStr i) d)),
                        Couch (<[i := Entry gen (strip d)]> (docs st))
                              (leaf_capacity st)))
               = Return (id, rev, doc', st') →
          ∃ gen, id = VStr i ∧ rev = VStr (rev_token gen)
            ∧ (docs st !! i = None ∧ gen = 1%nat
               ∨ ∃ e, docs st !! i = Some e ∧ gen = S (e_gen e))
            ∧ st' = Couch (<[i := Entry gen (strip d)]> (docs st))
                          (leaf_capacity st)) as Hgen.
  { intros i. destruct (docs st !! i) as [e|] eqn:He.
    - destruct (dict_get "_rev" d) as [[| | |r| | | |]|]; try done. simpl.
      destruct (decide _); [|done]. simpl. intros [= <- <- <- <-].
      exists (S (e_gen e)). eauto 10.
    - destruct (dict_get "_rev" d); [done|]. simpl. intros [= <- <- <- <-].
      exists 1%nat. eauto 10. }
  destruct (dict_get "_id" d) as [[| | |i| | | |]|] eqn:Hid; try done; simpl.
  - intros (gen & -> & -> & Hg & ->)%Hgen. exists d, i, gen. eauto 10.
  - intros (gen & -> & -> & Hg & ->)%Hgen.
    exists d, (fresh_uuid st), gen. eauto 10.
Qed.

(** Saving a fetched document after assignments that keep it JSON. *)
Lemma couch_save_fetched (st : couch) (id : string) (e : entry) (d : pydict) :
  docs st !! id = Some e →
  dict_get "_id" d = Some (VStr id) →
  dict_get "_rev" d = Some (VStr (rev_token (e_gen e))) →
  json_ok (VDict d) = true →
  couch_save st (VDict d)
  = Return (VStr id, VStr (rev_token (S (e_gen e))),
            VDict (dict_set "_rev" (VStr (rev_token (S (e_gen e))))
                     (dict_set "_id" (VStr id) d)),
            Couch (<[id := Entry (S (e_gen e)) (strip d)]> (docs st))
                  (leaf_capacity st)).
Proof.
  intros He Hid Hrev Hj. unfold couch_save. rewrite Hj, Hid. simpl.
  rewrite He, Hrev. simpl. by rewrite decide_True.
Qed.

Lemma get_document_couch (st : couch) (id : string) :
  doc_id_ok id = true →
  get_document st id = Return (doc_of id <$> docs st !! id).
Proof.
  intros Hok. unfold get_document. simpl. unfold couch_getitem. rewrite Hok.
  simpl. by destruct (docs st !! id).
Qed.

(** Round trip of save_document and get_document on CouchDB.  When
    save_document returns an id and a revision, the document it was given
    normalises to a dict, and get_document of that id returns that dict's
    members other than _id and _rev, after the id and the revision returned.
    An id the server assigned can always be read back. *)
Theorem get_document_after_save (st st' : couch) (doc id rev : value) :
  save_document st doc = Return (id, rev, st') →
  ∃ i r d,
    id = VStr i ∧ rev = VStr r
    ∧ _ensure_json_serializable doc = VDict d
    ∧ (doc_id_ok i = true →
       get_document st' i
       = Return (Some (("_id", VStr i) :: ("_rev", VStr r) :: strip d)))
    ∧ (dict_get "_id" d = None → doc_id_ok i = true).
Proof.
  unfold save_document. simpl.
  destruct (couch_save st _) as [[[[id0 rev0] doc'] st0]|] eqn:Hs; [|done].
  simpl. intros [= -> -> ->].
  apply couch_save_inv in Hs as (d & i & gen & Hd & _ & -> & -> & Hid & _ & ->).
  exists i, (rev_token gen), d. repeat split; [done|..].
  - intros Hok. rewrite get_document_couch by done. simpl.
    by rewrite lookup_insert_eq.
  - intros Hn. destruct Hid as [[_ ->]|Hid]; [|congruence].
    apply doc_id_ok_fresh.
Qed.

(** ** Updates and revisions *)



(** delete_document on CouchDB.  It returns True exactly when the document is
    stored; afterwards the id is not stored and every other document is as
    it was (nothing changes when it returned False); get_document of the id
    then returns None, and a second delete returns False and changes
    nothing. *)
Theorem delete_document_removes (st : couch) (id : string) :
  doc_id_ok id = true →
  ∃ st',
    delete_document st id
      = Return (bool_decide (is_Some (docs st !! id)), st')
    ∧ docs st' = delete id (docs st)
    ∧ (docs st !! id = None → st' = st)
    ∧ get_document st' id = Return None
    ∧ delete_document st' id = Return (false, st').
Proof.
  intros Hok.
  assert (∀ s : couch, docs s !! id = None →
            delete_document s id = Return (false, s)) as Hmiss.
  { intros s Hs. unfold delete_document. simpl. unfold couch_getitem.
    by rewrite Hok, Hs. }
  destruct (docs st !! id) as [e|] eqn:He.
  - exists (Couch (delete id (docs st)) (leaf_capacity st)).
    split; [|split; [done|split; [done|split]]].
    + unfold delete_document. simpl. unfold couch_getitem. rewrite Hok, He.
      simpl. unfold couch_delete. simpl. rewrite Hok, He. simpl.
      by rewrite decide_True.
    + rewrite get_document_couch by done. simpl. by rewrite lookup_delete_eq.
    + apply Hmiss. simpl. by rewrite lookup_delete_eq.
  - exists st. rewrite Hmiss by done.
    rewrite bool_decide_false by (by intros [??]).
    split; [done|]. split; [by rewrite delete_id|]. split; [done|].
    split; [|done]. rewrite get_document_couch by done. by rewrite He.
Qed.

Lemma id_le_trans : Transitive id_le.
Proof. intros a b c. unfold id_le. apply transitivity. Qed.

Lemma id_le_total : Total id_le.
Proof. intros a b. unfold id_le. apply total, _. Qed.

Lemma couch_all_docs_rows (st : couch) :
  ∃ rows,
    db_all_docs st true = Return rows
    ∧ length rows = size (docs st)
    ∧ (∀ r, r ∈ rows
            ↔ ∃ id e, docs st !! id = Some e ∧ r = all_docs_row true (id, e))
    ∧ StronglySorted by_row_id rows.
Proof.
  eexists. split; [reflexivity|]. split; [|split].
  - rewrite length_map, merge_sort_Permutation. apply length_map_to_list.
  - intros r. rewrite list_elem_of_fmap. split.
    + intros ([id e] & -> & Hin). rewrite merge_sort_Permutation in Hin.
      apply elem_of_map_to_list in Hin. eauto.
    + intros (id & e & He & ->). exists (id, e). split; [done|].
      rewrite merge_sort_Permutation. by apply elem_of_map_to_list.
  - pose proof (StronglySorted_merge_sort id_le
                  (Transitive0 := id_le_trans) (Total0 := id_le_total)
                  (map_to_list (docs st))) as Hs.
    induction Hs as [|x l Hl IH Hx]; [constructor|].
    simpl. constructor; [done|].
    apply Forall_fmap. eapply Forall_impl; [exact Hx|]. by intros y Hy.
Qed.

(** get_all_documents on CouchDB returns the rows of _all_docs: one row for
    every stored document, design documents included, each with the id as
    key, the revision as value and the document itself, in ascending id
    order. *)
Theorem get_all_documents_rows (st : couch) :
  ∃ rows,
    get_all_documents st = Return rows
    ∧ length rows = size (docs st)
    ∧ (∀ r, r ∈ rows
            ↔ ∃ id e, docs st !! id = Some e ∧ r = all_docs_row true (id, e))
    ∧ StronglySorted by_row_id rows.
Proof.
  destruct (couch_all_docs_rows st) as (rows & Hr & H).
  exists rows. split; [|done]. unfold get_all_documents. by rewrite Hr.
Qed.

(** Without both dates, get_user_workout_history does not look at the user:
    on CouchDB it returns the rows of get_all_documents, so that an id is
    among them exactly when a document of any kind is stored under it. *)
Theorem workout_history_without_dates (st : couch) (user_id : string)
    (s e : option datetime) :
  s = None ∨ e = None →
  ∃ rows,
    get_user_workout_history st user_id s e = Return (inr rows)
    ∧ get_all_documents st = Return rows
    ∧ ∀ id, Some id ∈ map row_id rows ↔ is_Some (docs st !! id).
Proof.
  intros Hse. destruct (couch_all_docs_rows st) as (rows & Hr & _ & Hin & _).
  assert (get_all_documents st = Return rows) as Hall.
  { unfold get_all_documents. by rewrite Hr. }
  exists rows. split; [|split; [done|]].
  - unfold get_user_workout_history. rewrite Hall.
    by destruct Hse as [-> | ->]; [|destruct s].
  - intros id. rewrite list_elem_of_fmap. split.
    + intros (r & Hid & (id' & e' & He' & ->)%Hin). simpl in Hid.
      injection Hid as ->. eauto.
    + intros [e' He']. exists (all_docs_row true (id, e')). split; [done|].
      apply Hin. eauto.
Qed.

(** ** create_view *)

Lemma dict_get_doc_of (k id : string) (e : entry) :
  k ≠ "_id" → k ≠ "_rev" → dict_get k (doc_of id e) = dict_get k (e_body e).
Proof. intros H1 H2. simpl. by rewrite !decide_False by done. Qed.

(** create_view on CouchDB replaces the whole view set.  With function texts
    for map and reduce the call never raises ResourceConflict, whether or not
    the design document is stored.  Whenever it returns (the server accepts a
    design document only if its functions compile), the design document is
    at the next generation, its views member holds the one view given and
    nothing else, and its other members are as before; a query of any other
    view of that design document raises ResourceNotFound. *)
Theorem create_view_replaces_views (st : couch) (name view m r : string) :
  create_view st name view (VStr m) (VStr r) ≠ Raise ResourceConflict
  ∧ ∀ id rev st',
      create_view st name view (VStr m) (VStr r) = Return (id, rev, st') →
      ∃ gen body,
        id = VStr (design_id name) ∧ rev = VStr (rev_token gen)
        ∧ docs st' = <[design_id name := Entry gen body]> (docs st)
        ∧ gen = from_option (λ e, S (e_gen e)) 1%nat
                  (docs st !! design_id name)
        ∧ dict_get "views" body
          = Some (VDict [(view, VDict [("map", VStr m);
                                       ("reduce", VStr r)])])
        ∧ (∀ k, k ≠ "views" → k ≠ "_id" → k ≠ "_rev" →
                dict_get k body
                = docs st !! design_id name ≫= λ e, dict_get k (e_body e))
        ∧ (∀ v o, v ≠ view → opts_json_ok o = true →
                  couch_view st' name v o = Raise ResourceNotFound).
Proof.
  set (V := VDict [(view, VDict [("map", VStr m); ("reduce", VStr r)])]).
  assert (∀ gen body st',
            docs st' = <[design_id name := Entry gen body]> (docs st) →
            dict_get "views" body = Some V →
            ∀ v o, v ≠ view → opts_json_ok o = true →
                   couch_view st' name v o = Raise ResourceNotFound) as Hq.
  { intros gen body st' Hst Hb v o Hv Ho. unfold couch_view. rewrite Ho.
    simpl. unfold resolve. rewrite Hst, lookup_insert_eq. simpl.
    rewrite Hb. simpl. by rewrite decide_False. }
  unfold create_view.
  change (db_getitem st (design_id name))
    with (couch_getitem st (design_id name)).
  change (db_save st) with (couch_save st).
  unfold couch_getitem.
  destruct (doc_id_ok (design_id name)) eqn:Hok; cbn [negb];
    [|split; [done|by intros]].
  destruct (docs st !! design_id name) as [e|] eqn:He;
    unfold try_except_only; cbn [mbind result_bind]; fold V.
  - set (d := dict_set "views" V (doc_of (design_id name) e)).
    assert (dict_get "_id" d = Some (VStr (design_id name))) as Hid.
    { unfold d. by rewrite dict_get_set_ne. }
    assert (dict_get "_rev" d = Some (VStr (rev_token (e_gen e)))) as Hrev.
    { unfold d. by rewrite dict_get_set_ne. }
    destruct (json_ok (VDict d)) eqn:Hd.
    + rewrite (couch_save_fetched st (design_id name) e d) by done.
      cbn [mbind result_bind fst snd]. split; [done|].
      intros id rev st' [= <- <- <-].
      assert (dict_get "views" (strip d) = Some V) as Hviews.
      { rewrite dict_get_strip by done. apply dict_get_set_eq. }
      eexists _, _. split; [done|]. split; [done|]. split; [done|].
      split; [done|]. split; [done|]. split.
      * intros k H1 H2 H3. rewrite dict_get_strip by done. unfold d.
        rewrite dict_get_set_ne by done. by apply dict_get_doc_of.
      * by apply (Hq (S (e_gen e)) (strip d)).
    + unfold couch_save. rewrite Hd. cbn [negb mbind result_bind].
      split; [done|by intros].
  - rewrite decide_True by done. cbn [mbind result_bind].
    change (dict_set "views" V [("_id", VStr (design_id name))])
      with [("_id", VStr (design_id name)); ("views", V)].
    unfold couch_save.
    assert (json_ok (VDict [("_id", VStr (design_id name)); ("views", V)])
            = true) as -> by reflexivity.
    simpl. rewrite He. simpl. split; [done|].
    intros id rev st' [= <- <- <-].
    eexists _, _. split; [done|]. split; [done|]. split; [done|].
    split; [done|]. split; [done|]. split.
    + intros k H1 H2 H3. unfold strip, dict_del. simpl.
      by rewrite decide_False.
    + by apply (Hq 1%nat [("views", V)]).
Qed.

(** ** The views the bootstrap installs *)

Lemma put_design_has_views (name : string) (views : pydict) (st : couch) :
  docs st !! design_id name = None →
  has_views name views (put_design name views st).
Proof.
  intros Hn. unfold put_design, has_views.
  rewrite decide_False by (rewrite Hn; by intros [??]). simpl.
  rewrite lookup_insert_eq. eauto.
Qed.

Lemma has_views_put_design (name name' : string) (views views' : pydict)
    (st : couch) :
  has_views name views st → has_views name views (put_design name' views' st).
Proof.
  intros (e & He & Hv). exists e. split; [|done]. by apply put_design_keeps.
Qed.

Lemma put_design_absent (name name' : string) (views' : pydict) (st : couch) :
  name ≠ name' →
  docs st !! design_id name = None →
  docs (put_design name' views' st) !! design_id name = None.
Proof.
  intros Hne Hn. unfold put_design. case_decide; [done|]. simpl.
  rewrite lookup_insert_ne; [done|]. unfold design_id. intros Heq.
  by simplify_eq.
Qed.

(** What the bootstrap installs.  For each of users, exercises and workouts:
    when the CouchDB database holds no design document of that name,
    _create_design_documents leaves it with one whose views member is the
    dict the source writes for that name. *)
Theorem create_design_documents_installs (st : couch) :
  (docs st !! design_id "users" = None →
   has_views "users" users_views (_create_design_documents st))
  ∧ (docs st !! design_id "exercises" = None →
     has_views "exercises" exercises_views (_create_design_documents st))
  ∧ (docs st !! design_id "workouts" = None →
     has_views "workouts" workouts_views (_create_design_documents st)).
Proof.
  rewrite create_design_documents_couch. repeat split; intros Hn.
  - do 2 apply has_views_put_design. by apply put_design_has_views.
  - apply has_views_put_design, put_design_has_views.
    by apply put_design_absent.
  - apply put_design_has_views.
    do 2 (apply put_design_absent; [done|]). done.
Qed.

(** ** The user views the class queries and never creates *)

(** get_users_by_fitness_goal and get_users_by_injury query the views
    users/by_fitness_goals and users/by_injuries.  The users design document
    of the source has no such views: on a CouchDB database that holds that
    design document, and on one that holds none, both methods raise
    ResourceNotFound for every argument. *)
Theorem user_view_queries_raise (st : couch) (goal body_part : string)
    (severity : option Z) :
  docs st !! design_id "users" = None ∨ has_views "users" users_views st →
  get_users_by_fitness_goal st goal = Raise ResourceNotFound
  ∧ get_users_by_injury st body_part severity = Raise ResourceNotFound.
Proof.
  intros H.
  assert (∀ v o, v = "by_fitness_goals" ∨ v = "by_injuries" →
                 opts_json_ok o = true →
                 couch_view st "users" v o = Raise ResourceNotFound) as Hq.
  { intros v o Hv Ho. destruct H as [Hn|(e & He & Hviews)].
    - by apply couch_view_missing.
    - unfold couch_view. rewrite Ho. simpl. unfold resolve.
      rewrite He, Hviews. by destruct Hv as [-> | ->]. }
  unfold get_users_by_fitness_goal, get_users_by_injury. simpl. split.
  - rewrite Hq; [done|by left|done].
  - destruct severity; (rewrite Hq; [done|by right|done]).
Qed.

(** ** update_user_hevy_api_key *)

(** update_user_hevy_api_key on CouchDB.  When no document is stored under
    the id it returns None and changes nothing.  When one is stored (of any
    type), the call succeeds at the next generation, the stored document
    holds the key and the ISO form of the UTC clock reading, and its other
    members are as before. *)
Theorem update_user_hevy_api_key_sets (st : couch) (clock : datetime)
    (user_id api_key : string) :
  doc_id_ok user_id = true →
  (∀ e, docs st !! user_id = Some e → json_ok (VDict (e_body e)) = true) →
  (docs st !! user_id = None →
   update_user_hevy_api_key st clock user_id api_key = Return (None, st))
  ∧ (∀ e, docs st !! user_id = Some e →
     ∃ body,
       update_user_hevy_api_key st clock user_id api_key
       = Return (Some (VStr user_id, VStr (rev_token (S (e_gen e)))),
                 Couch (<[user_id := Entry (S (e_gen e)) body]> (docs st))
                       (leaf_capacity st))
       ∧ dict_get "hevy_api_key" body = Some (VStr api_key)
       ∧ dict_get "hevy_api_key_updated_at" body
         = Some (VStr (isoformat (utc_now clock)))
       ∧ ∀ k, k ≠ "hevy_api_key" → k ≠ "hevy_api_key_updated_at" →
              k ≠ "_id" → k ≠ "_rev" →
              dict_get k body = dict_get k (e_body e)).
Proof.
  intros Hok Hj. unfold update_user_hevy_api_key.
  change (db_getitem st user_id) with (couch_getitem st user_id).
  change (db_save st) with (couch_save st).
  unfold couch_getitem. rewrite Hok. cbn [negb]. split.
  - intros ->. unfold try_except_only. cbn [mbind result_bind].
    by rewrite decide_True.
  - intros e He. rewrite He. cbn [mbind result_bind].
    set (d := dict_set "hevy_api_key_updated_at" _
                (dict_set "hevy_api_key" _ (doc_of user_id e))).
    assert (dict_get "_id" d = Some (VStr user_id)) as Hid.
    { unfold d. by rewrite !dict_get_set_ne. }
    assert (dict_get "_rev" d = Some (VStr (rev_token (e_gen e)))) as Hrev.
    { unfold d. by rewrite !dict_get_set_ne. }
    assert (json_ok (VDict d) = true) as Hd.
    { do 2 (apply json_ok_dict_set; [done|]).
      rewrite json_ok_doc_of. by apply Hj. }
    rewrite (couch_save_fetched st user_id e d) by done.
    unfold try_except_only. cbn [mbind result_bind].
    exists (strip d). split; [done|]. split; [|split].
    + rewrite dict_get_strip by done. unfold d.
      rewrite dict_get_set_ne by done. apply dict_get_set_eq.
    + rewrite dict_get_strip by done. apply dict_get_set_eq.
    + intros k H1 H2 H3 H4. rewrite dict_get_strip by done. unfold d.
      rewrite !dict_get_set_ne by done. by apply dict_get_doc_of.
Qed.

(** ** username_exists *)

(** username_exists and get_user_by_username run the same query.  On every
    store: when get_user_by_username returns a document, username_exists
    returns True; when username_exists returns False,
    get_user_by_username returns None and leaves the store as it is. *)
Theorem username_exists_of_user {S : Type} `{!Store S} (db : S)
    (username : string) :
  (∀ doc db', get_user_by_username db username = Return (Some doc, db') →
              username_exists db username = Return true)
  ∧ (username_exists db username = Return false →
     get_user_by_username db username = Return (None, db)).
Proof.
  unfold get_user_by_username, username_exists.
  destruct (db_find db _) as [[|[k d] found]|]; simpl.
  - by split.
  - by split.
  - by split.
Qed.

Lemma dict_get_ensure (k : string) (d : pydict) :
  dict_get k (map (λ kv, let '(k, v) := kv in
                         (k, _ensure_json_serializable v)) d)
  = _ensure_json_serializable <$> dict_get k d.
Proof.
  induction d as [|[k' v] d IH]; [done|]. simpl.
  by destruct (decide (k' = k)).
Qed.

Lemma username_exists_couch (st : couch) (username : string) :
  username_exists st username
  = Return (bool_decide (couch_users username st ≠ [])).
Proof.
  unfold username_exists. fold (user_query username).
  by rewrite couch_find_users.
Qed.

(** Registration on CouchDB.  While no stored document is a user profile
    with the name, username_exists returns False; once save_document has
    stored a dict without _id whose type is user_profile and whose username
    is the name, it returns True. *)
Theorem username_exists_after_save (st st' : couch) (d : pydict)
    (username : string) (id rev : value) :
  dict_get "type" d = Some (VStr "user_profile") →
  dict_get "username" d = Some (VStr username) →
  dict_get "_id" d = None →
  save_document st (VDict d) = Return (id, rev, st') →
  ((∀ i e, docs st !! i = Some e →
           user_matches username (doc_of i e) = false) →
   username_exists st username = Return false)
  ∧ username_exists st' username = Return true.
Proof.
  intros Ht Hu Hid Hs. rewrite !username_exists_couch. split.
  - intros Hno. rewrite bool_decide_false; [done|]. intros Hne. apply Hne.
    unfold couch_users.
    destruct (filter _ _) as [|[i e] l] eqn:Hf; [done|].
    assert ((i, e) ∈ (i, e) :: l) as Hin by left. rewrite <-Hf in Hin.
    apply list_elem_of_filter in Hin as [[_ Hm] Hin].
    rewrite merge_sort_Permutation in Hin.
    apply elem_of_map_to_list in Hin. cbn [fst snd] in Hm.
    rewrite (Hno i e Hin) in Hm. done.
  - unfold save_document in Hs. simpl in Hs.
    destruct (couch_save st _) as [[[[id0 rev0] doc'] st0]|] eqn:Hc; [|done].
    simpl in Hs. injection Hs as -> -> ->.
    apply couch_save_inv in Hc
      as (d' & i & gen & [= <-] & _ & -> & -> & Hi & _ & ->).
    rewrite dict_get_ensure, Hid in Hi. destruct Hi as [[_ ->]|?]; [|done].
    rewrite bool_decide_true; [done|]. unfold couch_users.
    set (e := Entry gen _).
    assert ((fresh_uuid st, e)
            ∈ filter (λ ide : string * entry,
                        is_design ide.1 = false
                        ∧ user_matches username (doc_of ide.1 ide.2) = true)
                (merge_sort id_le (map_to_list
                   (<[fresh_uuid st := e]> (docs st))))) as Hin.
    { apply list_elem_of_filter. split.
      - simpl. split.
        + destruct (fresh_uuid_form st) as [n ->]. apply is_design_uuid.
        + unfold user_matches.
          rewrite !dict_get_doc_of by done. unfold e. simpl.
          rewrite !dict_get_strip by done.
          rewrite !dict_get_ensure, Ht, Hu. simpl.
          by rewrite !bool_decide_true.
      - rewrite merge_sort_Permutation. apply elem_of_map_to_list.
        apply lookup_insert_eq. }
    simpl. intros Hnil. apply fmap_nil_inv in Hnil. rewrite Hnil in Hin.
    by apply elem_of_nil in Hin.
Qed.

(** ** Exercise lists *)

Lemma couch_get_stored (st : couch) (id : string) :
  doc_id_ok id = true →
  db_get st id = Return (doc_of id <$> docs st !! id).
Proof.
  intros Hok. simpl. unfold couch_get, couch_getitem. rewrite Hok. simpl.
  by destruct (docs st !! id).
Qed.

Lemma extend_from_doc_of (acc : list value) (id : string) (e : entry) :
  extend_from acc (Some (doc_of id e))
  = match dict_get "exercises" (e_body e) with
    | Some x => items ← iterate x; Return (acc ++ items)%list
    | None => Return acc
    end.
Proof.
  unfold extend_from, dict_has, subscript.
  rewrite dict_get_doc_of by done.
  assert (truthy (VDict (doc_of id e)) = true) as -> by done. simpl.
  destruct (dict_get "exercises" (e_body e)) as [x|].
  - by rewrite bool_decide_true by eauto.
  - by rewrite bool_decide_false by (by intros [??]).
Qed.

Lemma add_exercises_couch (st : couch) (id : string) (acc : list value) :
  doc_id_ok id = true →
  list_member st id →
  add_exercises st id acc = Return (acc ++ exercise_list st id)%list.
Proof.
  intros Hok Hl. unfold add_exercises, exercise_list.
  rewrite couch_get_stored by done.
  destruct (docs st !! id) as [e|] eqn:He;
    cbn [fmap option_fmap option_map mbind result_bind option_bind].
  - rewrite extend_from_doc_of.
    destruct (dict_get "exercises" (e_body e)) as [x|] eqn:Hx.
    + destruct (Hl e x He Hx) as [l ->]. done.
    + by rewrite app_nil_r.
  - by rewrite app_nil_r.
Qed.

Lemma doc_id_ok_custom (u : string) :
  doc_id_ok ("custom_exercises_" +:+ u) = true.
Proof. apply (doc_id_ok_exercises (Some u)). Qed.

(** get_exercises on CouchDB, when the exercises member of the base
    document and of the user's document is a list wherever it is present:
    the result is the base list, followed by the user's list when
    include_custom is set and the user id is a non-empty string.  A missing
    document and a missing member contribute nothing. *)
Theorem get_exercises_concat (st : couch) (user_id : option string)
    (include_custom : bool) :
  list_member st "base_exercises" →
  (∀ u, user_id = Some u → list_member st ("custom_exercises_" +:+ u)) →
  get_exercises st user_id include_custom
  = Return (exercise_list st "base_exercises"
            ++ match user_id with
               | Some u =>
                   if include_custom && bool_decide (u ≠ EmptyString)
                   then exercise_list st ("custom_exercises_" +:+ u)
                   else []
               | None => []
               end)%list.
Proof.
  intros Hb Hc. unfold get_exercises.
  rewrite add_exercises_couch by done. cbn [mbind result_bind app].
  destruct user_id as [u|]; [|by rewrite app_nil_r].
  cbn [truthy]. destruct (include_custom && _).
  - rewrite add_exercises_couch by (by auto using doc_id_ok_custom). done.
  - by rewrite app_nil_r.
Qed.

Lemma save_exercises_couch (st : couch) (clock : datetime)
    (exercises : list value) (user_id : option string) :
  json_ok (VList exercises) = true →
  save_exercises st clock exercises user_id
  = Return (Couch (<[exercises_doc_id user_id :=
                       Entry (from_option (λ e, S (e_gen e)) 1%nat
                                (docs st !! exercises_doc_id user_id))
                             (exercises_body clock exercises user_id)]>
                     (docs st))
                  (leaf_capacity st)).
Proof.
  intros Hj. unfold save_exercises.
  change (db_getitem st) with (couch_getitem st).
  change (db_save st) with (couch_save st).
  unfold couch_getitem. rewrite doc_id_ok_exercises. cbn [negb].
  set (id := exercises_doc_id user_id).
  set (doc := [("_id", VStr id); ("type", VStr (exercises_doc_type user_id));
               ("exercises", VList exercises);
               ("updated_at", VStr (isoformat (utc_now clock)))]).
  assert (∀ x, json_ok x = true →
               json_ok (VDict (doc ++ [("_rev", x)])) = true) as Hdoc.
  { intros x Hx. simpl in *. by rewrite Hj, Hx. }
  destruct (docs st !! id) as [e|] eqn:He.
  - cbn [mbind result_bind].
    assert (subscript (VDict (doc_of id e)) "_rev"
            = Return (VStr (rev_token (e_gen e)))) as -> by done.
    cbn [mbind result_bind try_except_only].
    change (dict_set "_rev" (VStr (rev_token (e_gen e))) doc)
      with (doc ++ [("_rev", VStr (rev_token (e_gen e)))])%list.
    rewrite (couch_save_fetched st id e) by (by auto).
    done.
  - cbn [mbind result_bind try_except_only].
    rewrite decide_True by done. cbn [mbind result_bind].
    unfold couch_save.
    assert (json_ok (VDict doc) = true) as ->.
    { simpl in *. by rewrite Hj. }
    simpl. by rewrite He.
Qed.

Lemma save_exercises_non_json (st : couch) (clock : datetime)
    (exercises : list value) (user_id : option string) :
  json_ok (VList exercises) = false →
  save_exercises st clock exercises user_id = Raise TypeError.
Proof.
  intros Hj. unfold save_exercises.
  change (db_getitem st) with (couch_getitem st).
  change (db_save st) with (couch_save st).
  unfold couch_getitem. rewrite doc_id_ok_exercises. cbn [negb].
  set (id := exercises_doc_id user_id).
  assert (∀ d : pydict,
            dict_get "exercises" d = Some (VList exercises) →
            couch_save st (VDict d) = Raise TypeError) as Hsave.
  { intros d Hd. unfold couch_save.
    destruct (json_ok (VDict d)) eqn:Hok; [|done].
    by rewrite (json_ok_dict_get _ _ _ Hok Hd) in Hj. }
  destruct (docs st !! id) as [e|] eqn:He.
  - cbn [mbind result_bind].
    assert (subscript (VDict (doc_of id e)) "_rev"
            = Return (VStr (rev_token (e_gen e)))) as -> by done.
    cbn [mbind result_bind try_except_only].
    by rewrite Hsave.
  - cbn [mbind result_bind try_except_only].
    rewrite decide_True by done. cbn [mbind result_bind].
    by rewrite Hsave.
Qed.

(** save_exercises on CouchDB, last write wins.  For a JSON list the call
    succeeds whatever is stored (it never conflicts): the document under
    base_exercises, or custom_exercises_<user id>, then holds exactly the
    type, the list given and the time stamp, at the next generation, and
    every other document is as before.  The list is read back by
    get_custom_exercises for a user's list, and by get_exercises without a
    user for the base list.  A list that is not JSON (one that holds a
    datetime, say) raises TypeError: the list goes to the store as it is,
    where save_document would have normalised it. *)
Theorem save_exercises_stores (st : couch) (clock : datetime)
    (exercises : list value) (user_id : option string) :
  if json_ok (VList exercises)
  then ∃ gen st',
         save_exercises st clock exercises user_id = Return st'
         ∧ docs st' = <[exercises_doc_id user_id :=
                          Entry gen (exercises_body clock exercises user_id)]>
                        (docs st)
         ∧ gen = from_option (λ e, S (e_gen e)) 1%nat
                   (docs st !! exercises_doc_id user_id)
         ∧ (∀ u, user_id = Some u →
                 get_custom_exercises st' u = Return (VList exercises))
         ∧ (user_id = None →
            ∀ b, get_exercises st' None b = Return exercises)
  else save_exercises st clock exercises user_id = Raise TypeError.
Proof.
  destruct (json_ok (VList exercises)) eqn:Hj;
    [|by apply save_exercises_non_json].
  eexists _, _. split; [by apply save_exercises_couch|].
  split; [done|]. split; [done|]. split.
  - intros u ->. unfold get_custom_exercises.
    rewrite couch_get_stored by apply doc_id_ok_custom.
    simpl. by rewrite lookup_insert_eq.
  - intros -> b. unfold get_exercises, add_exercises.
    rewrite couch_get_stored by done.
    simpl. by rewrite lookup_insert_eq.
Qed.

(** The empty user id.  save_exercises stores a list for the user id that is
    the empty string under custom_exercises_, and get_custom_exercises reads
    it back; get_exercises with that user id returns what it returns
    without a user, on the store before the save as well as after it: the
    saved list is never part of its result. *)
Theorem empty_user_id_exercises (st : couch) (clock : datetime)
    (exercises : list value) (include_custom : bool) :
  json_ok (VList exercises) = true →
  ∃ st',
    save_exercises st clock exercises (Some EmptyString) = Return st'
    ∧ get_custom_exercises st' EmptyString = Return (VList exercises)
    ∧ get_exercises st' (Some EmptyString) include_custom
      = get_exercises st None include_custom.
Proof.
  intros Hj. eexists. split; [by apply save_exercises_couch|]. split.
  - unfold get_custom_exercises.
    rewrite couch_get_stored by done. simpl. by rewrite lookup_insert_eq.
  - unfold get_exercises, add_exercises. rewrite !couch_get_stored by done.
    cbn [truthy]. rewrite bool_decide_false by (by intros ?).
    rewrite andb_false_r. simpl. by rewrite lookup_insert_ne.
Qed.

(** ** The mock store *)

(** On the mock store the methods that subscript [self.db] raise TypeError,
    whatever their arguments: get_document (its second handler re-raises),
    delete_document and update_user_hevy_api_key (they catch
    ResourceNotFound only), create_view and save_exercises.  Those that call
    [view] raise AttributeError. *)
Theorem mock_document_methods_raise (m : MockDB) (clock : datetime)
    (doc_id name view api_key goal : string) (user_id : option string)
    (exercises : list value) (map_function reduce_function : value)
    (severity : option Z) :
  get_document m doc_id = Raise TypeError
  ∧ delete_document m doc_id = Raise TypeError
  ∧ update_user_hevy_api_key m clock doc_id api_key = Raise TypeError
  ∧ create_view m name view map_function reduce_function = Raise TypeError
  ∧ save_exercises m clock exercises user_id = Raise TypeError
  ∧ get_all_documents m = Raise AttributeError
  ∧ get_user_workout_history m doc_id None None = Raise AttributeError
  ∧ get_users_by_fitness_goal m goal = Raise AttributeError
  ∧ get_users_by_injury m goal severity = Raise AttributeError.
Proof. repeat split; try done. by destruct severity. Qed.

Lemma data_get_set_eq (k : value) (d : pydict) (l : list (value * pydict)) :
  data_get k (data_set k d l) = Some d.
Proof.
  induction l as [|[k' d'] l IH]; simpl.
  - by rewrite decide_True.
  - destruct (decide (py_key k' = py_key k)) as [Heq|Hne]; simpl.
    + by rewrite decide_True.
    + by rewrite decide_False.
Qed.

Lemma data_get_set_ne (k k' : value) (d : pydict) (l : list (value * pydict)) :
  py_key k ≠ py_key k' →
  data_get k' (data_set k d l) = data_get k' l.
Proof.
  intros Hne. induction l as [|[k0 d0] l IH]; simpl.
  - by rewrite decide_False.
  - destruct (decide (py_key k0 = py_key k)) as [Heq|Hk]; simpl.
    + rewrite !decide_False; [done|congruence|congruence].
    + destruct (decide (py_key k0 = py_key k')); [done|apply IH].
Qed.

Lemma data_set_absent (k : value) (d : pydict) (l : list (value * pydict)) :
  data_get k l = None → data_set k d l = (l ++ [(k, d)])%list.
Proof.
  induction l as [|[k0 d0] l IH]; simpl; [done|].
  destruct (decide (py_key k0 = py_key k)); [done|]. intros H.
  by rewrite IH.
Qed.

Lemma data_set_present (k : value) (d : pydict) (l : list (value * pydict)) :
  is_Some (data_get k l) → length (data_set k d l) = length l.
Proof.
  induction l as [|[k0 d0] l IH]; simpl; [by intros [??]|].
  destruct (decide (py_key k0 = py_key k)); [done|]. intros H.
  simpl. by rewrite IH.
Qed.

Lemma data_set_values (k : value) (d : pydict) (l : list (value * pydict)) :
  d ∈ (data_set k d l).*2.
Proof.
  induction l as [|[k0 d0] l IH]; simpl.
  - left.
  - destruct (decide (py_key k0 = py_key k)); simpl; [left|by right].
Qed.

(** What a successful [MockDB.save] has done. *)
Lemma mock_save_inv (m m' : MockDB) (doc id rev doc' : value) :
  mock_save m doc = Return (id, rev, doc', m') →
  ∃ d d',
    doc = VDict d ∧ doc' = VDict d' ∧ rev = VStr "1-mock"
    ∧ dict_get "_id" d' = Some id ∧ hashable id = true
    ∧ (dict_get "_id" d = None ∧ id = auto_id (counter m)
       ∧ d' = dict_set "_id" id d ∧ counter m' = S (counter m)
       ∨ is_Some (dict_get "_id" d) ∧ d' = d ∧ counter m' = counter m)
    ∧ data m' = data_set id d' (data m).
Proof.
  unfold mock_save. destruct doc as [| | | |?|d| |]; try done.
  unfold dict_has. destruct (dict_get "_id" d) as [i|] eqn:Hid.
  - rewrite bool_decide_true by eauto. rewrite Hid.
    destruct (hashable i) eqn:Hh; [|done]. intros [= <- <- <- <-].
    exists d, d. eauto 15.
  - rewrite bool_decide_false by (by intros [??]).
    rewrite dict_get_set_eq. cbn [hashable]. intros [= <- <- <- <-].
    eexists d, _. split; [done|]. split; [done|]. split; [done|].
    split; [apply dict_get_set_eq|]. split; [done|]. split; [|done].
    left. done.
Qed.

(** Round trip on the mock store.  After a successful [MockDB.save] the
    revision is 1-mock, [MockDB.get] of the id returned gives the saved
    dict, with its _id member; the documents under other ids are as before;
    and [MockDB.find] with a selector the saved dict satisfies finds the
    saved dict. *)
Theorem mock_save_then_get (m m' : MockDB) (doc id rev doc' : value) :
  mock_save m doc = Return (id, rev, doc', m') →
  ∃ d',
    doc' = VDict d' ∧ rev = VStr "1-mock"
    ∧ dict_get "_id" d' = Some id
    ∧ mock_get m' id = Return (Some d')
    ∧ (∀ k, py_key k ≠ py_key id → mock_get m' k = mock_get m k)
    ∧ (∀ sel, mock_match sel d' = true →
         ∃ found, mock_find m' [("selector", VDict sel)] = Return found
                  ∧ d' ∈ found.*2).
Proof.
  intros (d & d' & -> & -> & -> & Hid & Hh & _ & Hdata)%mock_save_inv.
  exists d'. split; [done|]. split; [done|]. split; [done|].
  unfold mock_get. rewrite Hh, Hdata, data_get_set_eq.
  split; [done|]. split.
  - intros k Hk. destruct (hashable k); [|done].
    by rewrite data_get_set_ne.
  - intros sel Hsel. eexists. split; [reflexivity|]. rewrite Hdata.
    apply list_elem_of_fmap.
    pose proof (data_set_values id d' (data m)) as Hin.
    apply list_elem_of_fmap in Hin as ([k0 d0] & -> & Hin).
    exists (k0, d0). split; [done|]. apply list_elem_of_filter. by split.
Qed.

Lemma auto_id_inj : Inj (=) (=) auto_id.
Proof. intros a b H. unfold auto_id in H. by simplify_eq. Qed.

Lemma py_key_auto_id (n : nat) (k : value) :
  py_key k = py_key (auto_id n) → k = auto_id n.
Proof. by destruct k as [|[]| | | | | |]. Qed.

(** The ids the mock store hands out are new as long as callers choose none
    of the form mock_<n> themselves.  When every id of that form in use is
    below the counter, saving a dict without _id stores it under
    mock_<counter>, which was not in use, after the documents already
    there, and the condition holds again.  The empty mock store satisfies
    it. *)
Theorem mock_auto_ids_fresh (m : MockDB) (d : pydict) :
  auto_ids_below m →
  dict_get "_id" d = None →
  auto_ids_below (Mock [] 0)
  ∧ ∃ m',
      mock_save m (VDict d)
      = Return (auto_id (counter m), VStr "1-mock",
                VDict (dict_set "_id" (auto_id (counter m)) d), m')
      ∧ data_get (auto_id (counter m)) (data m) = None
      ∧ data m' = (data m
                   ++ [(auto_id (counter m),
                        dict_set "_id" (auto_id (counter m)) d)])%list
      ∧ counter m' = S (counter m)
      ∧ auto_ids_below m'.
Proof.
  intros Hinv Hid. split; [by intros n [??]|].
  assert (data_get (auto_id (counter m)) (data m) = None) as Hfresh.
  { apply eq_None_not_Some. intros H%Hinv. lia. }
  exists (Mock (data_set (auto_id (counter m))
                  (dict_set "_id" (auto_id (counter m)) d) (data m))
               (S (counter m))).
  split; [|split; [done|split; [|split; [reflexivity|]]]].
  - unfold mock_save, dict_has.
    rewrite Hid, bool_decide_false by (by intros [??]).
    by rewrite dict_get_set_eq.
  - simpl. by apply data_set_absent.
  - intros n. simpl.
    destruct (decide (n = counter m)) as [->|Hne]; [lia|].
    rewrite data_get_set_ne.
    + intros H%Hinv. lia.
    + intros H%py_key_auto_id%auto_id_inj. done.
Qed.

(** The other case: when the id mock_<counter> is already in use (a caller
    saved a dict under it), saving a dict without _id replaces that
    document; the number of stored documents does not grow. *)
Theorem mock_auto_id_overwrites (m : MockDB) (d old : pydict) :
  dict_get "_id" d = None →
  data_get (auto_id (counter m)) (data m) = Some old →
  ∃ m',
    mock_save m (VDict d)
    = Return (auto_id (counter m), VStr "1-mock",
              VDict (dict_set "_id" (auto_id (counter m)) d), m')
    ∧ length (data m') = length (data m)
    ∧ mock_get m' (auto_id (counter m))
      = Return (Some (dict_set "_id" (auto_id (counter m)) d)).
Proof.
  intros Hid Hold.
  exists (Mock (data_set (auto_id (counter m))
                  (dict_set "_id" (auto_id (counter m)) d) (data m))
               (S (counter m))).
  split; [|split].
  - unfold mock_save, dict_has.
    rewrite Hid, bool_decide_false by (by intros [??]).
    by rewrite dict_get_set_eq.
  - simpl. apply data_set_present. rewrite Hold. eauto.
  - unfold mock_get. simpl. by rewrite data_get_set_eq.
Qed.

(** get_user_by_username and the stored document.  On the mock store the
    repair of preferred_workout_days is written into the stored document:
    after the call, looking the id up gives the repaired dict.  On CouchDB
    the method never changes the store. *)
Theorem get_user_by_username_aliasing (m : MockDB) (st : couch)
    (username : string) (k x : value) (doc : pydict) (l : list value)
    (rest : list (value * pydict)) :
  mock_users username m = (k, doc) :: rest →
  dict_get "preferred_workout_days" doc = Some (VList (x :: l)) →
  hashable k = true →
  (∃ m',
     get_user_by_username m username
     = Return (Some (dict_set "preferred_workout_days" x doc), m')
     ∧ mock_get m' k
       = Return (Some (dict_set "preferred_workout_days" x doc)))
  ∧ ∃ r, get_user_by_username st username = Return (r, st).
Proof.
  intros Hfound Hdays Hh. split.
  - eexists. unfold get_user_by_username. fold (user_query username).
    rewrite mock_find_users, Hfound. simpl.
    unfold first_workout_day. rewrite Hdays. simpl. split; [reflexivity|].
    unfold mock_get. rewrite Hh. simpl. by rewrite data_get_set_eq.
  - unfold get_user_by_username.
    destruct (db_find st _) as [[|[k' d'] found]|]; simpl; eauto.
    destruct (first_workout_day d') as [[y|e]|]; simpl; eauto.
Qed.

(** ** What normalisation achieves *)

Lemma json_ok_ensure (v : value) :
  json_ok (_ensure_json_serializable v) = convertible v.
Proof.
  induction v as [| | | |l IH|d IH| |md dc IHm IHd] using value_ind';
    simpl; try done.
  - induction IH as [|x l Hx _ IHl]; simpl; [done|]. by rewrite Hx, IHl.
  - induction IH as [|[k x] d Hx _ IHl]; simpl in *; [done|].
    by rewrite Hx, IHl.
  - destruct md as [m|]; [by apply IHm|]. destruct dc as [c|]; [by apply IHd|].
    done.
Qed.

(** _ensure_json_serializable is idempotent, and its result is JSON exactly
    when every object in the value has model_dump or dict, at every depth of
    what these return.  An object with neither method stays in the
    document. *)
Theorem ensure_json_serializable_result (v : value) :
  _ensure_json_serializable (_ensure_json_serializable v)
  = _ensure_json_serializable v
  ∧ json_ok (_ensure_json_serializable v) = convertible v.
Proof. split; [apply ensure_plain, plain_ensure|apply json_ok_ensure]. Qed.

(** save_document of a new document on CouchDB.  For a dict without _id and
    _rev, save_document succeeds when every object in it is convertible, and
    stores the normalised dict under a new id at generation 1; otherwise it
    raises TypeError. *)
Theorem save_document_new (st : couch) (d : pydict) :
  dict_get "_id" d = None → dict_get "_rev" d = None →
  if convertible (VDict d)
  then ∃ d',
         _ensure_json_serializable (VDict d) = VDict d'
         ∧ docs st !! fresh_uuid st = None
         ∧ save_document st (VDict d)
           = Return (VStr (fresh_uuid st), VStr (rev_token 1),
                     Couch (<[fresh_uuid st := Entry 1 d']> (docs st))
                           (leaf_capacity st))
  else save_document st (VDict d) = Raise TypeError.
Proof.
  intros Hid Hrev.
  pose proof (json_ok_ensure (VDict d)) as Hj.
  destruct (convertible (VDict d)).
  - eexists. split; [reflexivity|]. split; [apply fresh_uuid_fresh|].
    unfold save_document.
    change (db_save st) with (couch_save st).
    change (_ensure_json_serializable (VDict d))
      with (VDict (map (λ kv, let '(k, v) := kv in
                              (k, _ensure_json_serializable v)) d)) in *.
    rewrite couch_save_new; [done| | |done].
    + by rewrite dict_get_ensure, Hid.
    + by rewrite dict_get_ensure, Hrev.
  - unfold save_document.
    change (db_save st) with (couch_save st). unfold couch_save.
    by rewrite Hj.
Qed.

(** ** Lookup by external id after an upsert *)

Lemma converged_lookup (design ty : string) (E : value) (id : string)
    (n : nat) (body : pydict) (st : couch) :
  json_ok E = true →
  converged design ty E id n body st →
  get_by_hevy_id design st E
  = Return (Some (VDict (doc_of id (Entry n body)))).
Proof.
  intros HE (Hr & He & Hi & Hu).
  by apply (get_by_hevy_id_unique design ty).
Qed.

Lemma view_ready_kind (k : external_kind) (st : couch) :
  has_views (kind_design k) (kind_views k) st →
  view_ready (kind_design k) (kind_type k) st.
Proof.
  destruct k; [apply view_ready_exercises|apply view_ready_workouts].
Qed.

(** Save, then look up by hevy_id (CouchDB with the design document of the
    kind, no document of the type indexed under the id before).  Before the
    saves the lookup returns None.  After a non-empty sequence of saves of
    typed JSON payloads carrying the hevy_id, the first without _id and
    _rev, the lookup returns the one document: the id every save returned,
    the revision of generation number-of-saves, and the members of the last
    payload. *)
Theorem lookup_after_upsert (k : external_kind) (st : couch) (E : value)
    (p : pydict) (ps : list pydict) :
  has_views (kind_design k) (kind_views k) st →
  (∀ id e, docs st !! id = Some e → ¬ indexed (kind_type k) E id e) →
  Forall (payload_for (kind_type k) E) (p :: ps) →
  dict_get "_id" p = None → dict_get "_rev" p = None →
  kind_lookup k st E = Return None
  ∧ ∃ id st',
      save_all (kind_save k) st (p :: ps)
      = Return (replicate (S (length ps)) (VStr id), st')
      ∧ kind_lookup k st' E
        = Return (Some (VDict (("_id", VStr id)
                               :: ("_rev", VStr (rev_token (S (length ps))))
                               :: strip (default p (last ps))))).
Proof.
  intros Hv%view_ready_kind Hn Hps Hid Hrev.
  pose proof Hps as [Hp Hps']%Forall_cons.
  assert (json_ok E = true) as HE.
  { destruct Hp as (Hh & _ & Hj). by apply (json_ok_dict_get _ _ _ Hj Hh). }
  assert (kind_lookup k = get_by_hevy_id (kind_design k)) as Hlook
    by (by destruct k).
  assert (kind_save k = save_by_hevy_id (get_by_hevy_id (kind_design k)))
    as Hsave by (by destruct k).
  rewrite Hlook, Hsave. split.
  { by apply (get_by_hevy_id_none _ (kind_type k)). }
  destruct (save_first _ _ E st p Hv Hn Hp Hid Hrev)
    as (id & p' & st1 & Hs & Hnew & Hc1).
  destruct (save_all_converged _ _ E id ps st1 1 (strip p) Hc1 Hps')
    as (st' & Hss & Hc).
  exists id, st'. split.
  - simpl. rewrite Hs. simpl. rewrite Hss. done.
  - rewrite (converged_lookup _ _ E id _ _ st' HE Hc). simpl.
    by destruct (last ps).
Qed.

(** ** The exercise readers *)

Lemma resolve_exercises (st : couch) (view field : string) :
  has_views "exercises" exercises_views st →
  view = "by_muscle_group" ∧ field = "muscle_group"
  ∨ view = "all" ∧ field = "_id" →
  resolve st "exercises" view
  = Return (ViewSem (emit_field "exercise" field) None).
Proof.
  intros (e & He & Hv) Hin. unfold resolve. rewrite He, Hv.
  by destruct Hin as [[-> ->]|[-> ->]].
Qed.

(** The rows of a view that emits one member of the documents of a type. *)
Lemma emit_field_doc_rows (ty field : string) (l : list (string * entry)) :
  l ≫= doc_rows (ViewSem (emit_field ty field) None)
  = map (λ ide, Row (Some ide.1)
                    (js_null (dict_get field (doc_of ide.1 ide.2)))
                    (VDict (doc_of ide.1 ide.2))
                    (Some (VDict (doc_of ide.1 ide.2))))
      (filter (λ ide, is_design ide.1 = false
                      ∧ has_type ty (doc_of ide.1 ide.2) = true) l).
Proof.
  induction l as [|[id e] l IH]; [done|].
  rewrite bind_cons, IH, filter_cons. unfold doc_rows at 1, emit_field.
  cbn [fst snd vmap].
  destruct (is_design id) eqn:Hd.
  { by rewrite decide_False by (by intros [??]). }
  destruct (has_type ty (doc_of id e)) eqn:Ht.
  - by rewrite decide_True.
  - by rewrite decide_False by (by intros [??]).
Qed.

Lemma filter_all {A} (P : A → Prop) `{∀ x, Decision (P x)} (l : list A) :
  (∀ x, P x) → filter P l = l.
Proof.
  intros HP. induction l as [|x l IH]; [done|].
  by rewrite filter_cons_True, IH.
Qed.

Lemma collate_str_eq (v : value) (s : string) :
  collate v (VStr s) = Eq ↔ v = VStr s.
Proof.
  split; [|intros ->; apply collate_refl].
  destruct v as [|[]| |s'| | | |]; simpl; try done.
  by intros ->%String.compare_eq_iff.
Qed.

(** The exercise readers on a CouchDB database that holds the exercises
    design document.  get_all_exercises returns the stored documents of type
    exercise, each once and nothing else.  get_exercises_by_muscle_group
    returns those of them whose muscle_group collates equal to the key; for
    a string key these are the ones whose muscle_group is that string. *)
Theorem exercise_readers_exact (st : couch) (muscle_group : value) :
  has_views "exercises" exercises_views st →
  json_ok muscle_group = true →
  (∃ res,
     get_all_exercises st = Return (map Some res)
     ∧ res ≡ₚ stored_of_type "exercise" st)
  ∧ ∃ res,
      get_exercises_by_muscle_group st muscle_group = Return (map Some res)
      ∧ res ≡ₚ filter (λ doc, collate (member_of "muscle_group" doc)
                                      muscle_group = Eq)
                 (stored_of_type "exercise" st)
      ∧ ∀ s d, muscle_group = VStr s →
               (VDict d ∈ res
                ↔ VDict d ∈ stored_of_type "exercise" st
                  ∧ dict_get "muscle_group" d = Some (VStr s)).
Proof.
  intros Hv Hj.
  assert (∀ view field o,
            view = "by_muscle_group" ∧ field = "muscle_group"
            ∨ view = "all" ∧ field = "_id" →
            opts_json_ok o = true → include_docs o = true →
            ∃ res,
              (rows ← couch_view st "exercises" view o;
               Return (map row_doc rows)) = Return (map Some res)
              ∧ res ≡ₚ filter (λ doc, in_range o (member_of field doc) = true)
                         (stored_of_type "exercise" st)) as Hview.
  { intros view field o Hin Ho Hd. unfold couch_view. rewrite Ho. simpl.
    rewrite (resolve_exercises st view field) by done. simpl.
    set (sem := ViewSem (emit_field "exercise" field) None).
    set (rows := filter (λ r, in_range o (row_key r) = true)
                   (index_rows sem st)).
    assert (Forall (λ r, row_doc r = Some (row_value r)
                         ∧ row_key r = member_of field (row_value r))
              (index_rows sem st)) as Hrows.
    { unfold index_rows. rewrite merge_sort_Permutation.
      unfold sem. rewrite emit_field_doc_rows.
      apply Forall_fmap, Forall_forall. by intros [id e] _. }
    exists (map row_value rows). split.
    - f_equal. rewrite !map_map. apply Forall_fmap_ext, Forall_forall.
      intros r [_ Hr]%list_elem_of_filter. unfold with_doc. rewrite Hd.
      eapply Forall_forall in Hrows; [|exact Hr]. by destruct Hrows.
    - unfold rows, index_rows. rewrite merge_sort_Permutation.
      unfold sem. rewrite emit_field_doc_rows. unfold stored_of_type.
      set (l := filter _ (map_to_list (docs st))).
      clearbody l. clear - l.
      induction l as [|[id e] l IH]; [done|].
      rewrite !fmap_cons, !filter_cons. cbn [row_key fst snd member_of].
      case_decide; [|exact IH].
      rewrite fmap_cons. cbn [row_value]. by rewrite IH. }
  split.
  - destruct (Hview "all" "_id" (ViewOpts None None None true))
      as (res & Hres & Hperm); [by right|done|done|].
    exists res. split.
    { unfold get_all_exercises. change (db_view st) with (couch_view st).
      by rewrite Hres. }
    rewrite Hperm. by rewrite filter_all.
  - destruct (Hview "by_muscle_group" "muscle_group"
                (ViewOpts (Some muscle_group) None None true))
      as (res & Hres & Hperm); [by left| |done|].
    { unfold opts_json_ok. simpl. by rewrite Hj. }
    exists res. split.
    { unfold get_exercises_by_muscle_group.
      change (db_view st) with (couch_view st). by rewrite Hres. }
    assert (res ≡ₚ filter (λ doc, collate (member_of "muscle_group" doc)
                                    muscle_group = Eq)
                     (stored_of_type "exercise" st)) as Hperm'.
    { rewrite Hperm. apply reflexive_eq, list_filter_iff. intros doc.
      unfold in_range. simpl. rewrite !andb_true_r.
      apply bool_decide_eq_true. }
    split; [exact Hperm'|].
    intros s d ->. rewrite Hperm', list_elem_of_filter. simpl.
    rewrite collate_str_eq. unfold js_null.
    split.
    + intros [Hm Hin]. split; [done|].
      destruct (dict_get "muscle_group" d); simpl in Hm; congruence.
    + intros [Hin Hm]. split; [|done]. by rewrite Hm.
Qed.

(** ** Workouts by exercise *)

Lemma resolve_by_exercise (st : couch) :
  has_views "workouts" workouts_views st →
  resolve st "workouts" "by_exercise" = Return (ViewSem by_exercise_map None).
Proof.
  intros (e & He & Hv). unfold resolve. rewrite He, Hv. reflexivity.
Qed.

(** The range from [x] to [x, {}] holds the keys [x, t] with [t] at or
    before the empty object. *)
Lemma in_range_exercise (x : string) (b : bool) (k1 k2 : value) :
  in_range (exercise_range x b) (VList [k1; k2]) = true
  ↔ k1 = VStr x ∧ collate_le k2 (VDict []).
Proof.
  unfold in_range, exercise_range. cbn [key startkey endkey andb].
  rewrite andb_true_iff, !bool_decide_eq_true. unfold collate_le.
  change (collate (VList [VStr x]) (VList [k1; k2]))
    with (match collate (VStr x) k1 with Eq => Lt | c => c end).
  change (collate (VList [k1; k2]) (VList [VStr x; VDict []]))
    with (match collate k1 (VStr x) with
          | Eq => match collate k2 (VDict []) with Eq => Eq | c => c end
          | c => c
          end).
  rewrite (collate_antisym k1 (VStr x)).
  destruct (collate k1 (VStr x)) eqn:Hc; cbn [CompOpp].
  - apply collate_str_eq in Hc as ->.
    destruct (collate k2 (VDict [])); split; try done; by intros [??].
  - split; [by intros [??]|]. intros [-> _].
    by rewrite collate_refl in Hc.
  - split; [by intros [??]|]. intros [-> _].
    by rewrite collate_refl in Hc.
Qed.

Lemma js_get_not_null (k : string) (ex : value) :
  ex ≠ VNone → ∃ o, js_get k ex = Return o.
Proof. destruct ex; simpl; eauto. done. Qed.

(** The map function of workouts/by_exercise on the exercises list. *)
Lemma by_exercise_mapM (d : pydict) (exs : list value) :
  mapM (λ ex, tid ← js_get "template_id" ex;
              Return (VList [js_null tid;
                             js_null (dict_get "start_time" d)],
                      VDict d)) exs
  = if decide (Forall (λ ex, ex ≠ VNone) exs)
    then Return (map (λ ex,
                        (VList [js_null (match js_get "template_id" ex with
                                         | Return o => o
                                         | Raise _ => None
                                         end);
                                js_null (dict_get "start_time" d)],
                         VDict d)) exs)
    else Raise TypeError.
Proof.
  induction exs as [|ex exs IH]; [done|].
  cbn [mapM]. rewrite IH. clear IH.
  destruct (decide (Forall (λ ex, ex ≠ VNone) (ex :: exs))) as [H|H].
  - apply Forall_cons in H as [Hex Hexs]. rewrite decide_True by done.
    destruct (js_get_not_null "template_id" ex Hex) as [o Ho].
    cbn [map]. by rewrite !Ho.
  - destruct (decide (ex = VNone)) as [->|Hex]; [done|].
    destruct (js_get_not_null "template_id" ex Hex) as [o ->].
    cbn [mbind result_bind].
    rewrite decide_False; [done|]. intros Hexs. apply H. by constructor.
Qed.

Lemma has_template_key (x : string) (ex : value) :
  ex ≠ VNone →
  js_null (match js_get "template_id" ex with
           | Return o => o
           | Raise _ => None
           end) = VStr x
  ↔ has_template x ex = true.
Proof.
  intros Hex. unfold has_template.
  destruct (js_get_not_null "template_id" ex Hex) as [o ->].
  destruct o as [[| | |y| | | |]|]; simpl;
    rewrite ?bool_decide_eq_true; split; congruence.
Qed.

(** The values a document contributes to a query of workouts/by_exercise. *)
Lemma by_exercise_doc_values (x : string) (b : bool) (id : string)
    (e : entry) :
  map row_value
    (filter (λ r, in_range (exercise_range x b) (row_key r) = true)
       (doc_rows (ViewSem by_exercise_map None) (id, e)))
  = if decide (is_design id = false
               ∧ has_type "workout" (doc_of id e) = true)
    then exercise_hits x (VDict (doc_of id e))
    else [].
Proof.
  unfold doc_rows, by_exercise_map, exercise_hits. cbn [vmap].
  destruct (is_design id) eqn:Hd.
  { by rewrite decide_False by (by intros [??]). }
  destruct (has_type "workout" (doc_of id e)) eqn:Ht.
  2:{ by rewrite decide_False by (by intros [??]). }
  rewrite decide_True by done.
  destruct (dict_get "exercises" (doc_of id e)) as [[| | | |exs| | |]|];
    try done.
  rewrite by_exercise_mapM.
  destruct (decide (Forall (λ ex, ex ≠ VNone) exs)) as [Hexs|Hexs].
  2:{ rewrite bool_decide_false; [done|]. by intros [? _]. }
  cbn [start_time_of].
  destruct (decide (collate_le (js_null (dict_get "start_time" (doc_of id e)))
                      (VDict []))) as [Hst|Hst].
  - rewrite bool_decide_true by done.
    induction Hexs as [|ex exs Hex Hexs IH]; [done|].
    rewrite !fmap_cons, !filter_cons. cbn [row_key fst snd].
    pose proof (in_range_exercise x b
                  (js_null (match js_get "template_id" ex with
                            | Return o => o
                            | Raise _ => None
                            end))
                  (js_null (dict_get "start_time" (doc_of id e)))) as Hr.
    rewrite (has_template_key x ex Hex) in Hr.
    destruct (decide (has_template x ex = true)) as [Hx|Hx].
    + rewrite decide_True by (apply Hr; by split).
      rewrite !fmap_cons. cbn [row_value snd]. f_equal. exact IH.
    + rewrite decide_False by (rewrite Hr; by intros [??]). exact IH.
  - rewrite bool_decide_false by (by intros [_ ?]).
    clear Hexs. induction exs as [|ex exs IH]; [done|].
    rewrite !fmap_cons, filter_cons. cbn [row_key fst snd].
    rewrite decide_False; [exact IH|].
    rewrite in_range_exercise. by intros [_ ?].
Qed.

Lemma by_exercise_values (x : string) (b : bool) (l : list (string * entry)) :
  map row_value
    (filter (λ r, in_range (exercise_range x b) (row_key r) = true)
       (l ≫= doc_rows (ViewSem by_exercise_map None)))
  = map (λ ide, VDict (doc_of ide.1 ide.2))
      (filter (λ ide, is_design ide.1 = false
                      ∧ has_type "workout" (doc_of ide.1 ide.2) = true) l)
    ≫= exercise_hits x.
Proof.
  induction l as [|[id e] l IH]; [done|].
  rewrite bind_cons, filter_app, map_app, IH, by_exercise_doc_values.
  rewrite (filter_cons _ (id, e)). cbn [fst snd].
  case_decide; [|done]. by rewrite fmap_cons, bind_cons.
Qed.

(** The rows of workouts/by_exercise are filed under the template id and
    the start time of the document they hold. *)
Lemma by_exercise_rows_key (st : couch) :
  Forall (λ r, ∃ k, row_key r = VList [k; start_time_of (row_value r)])
    (map_to_list (docs st) ≫= doc_rows (ViewSem by_exercise_map None)).
Proof.
  apply Forall_bind, Forall_forall. intros [id e] _.
  unfold compose, doc_rows, by_exercise_map. cbn [vmap]. cbv beta iota.
  destruct (is_design id); [apply Forall_nil_2|].
  destruct (has_type "workout" (doc_of id e)); [|apply Forall_nil_2].
  destruct (dict_get "exercises" (doc_of id e)) as [[| | | |exs| | |]|];
    try apply Forall_nil_2.
  rewrite by_exercise_mapM. case_decide; [|apply Forall_nil_2].
  apply Forall_fmap, Forall_fmap, Forall_forall. intros ex _.
  cbn [row_key row_value fst snd start_time_of]. eauto.
Qed.

(** get_workouts_by_exercise and get_workout_progression on a CouchDB
    database that holds the workouts design document.  Both return the same
    list (include_docs does not change the row values): every stored
    workout whose exercises list has entries with the template id, once for
    each such entry, and nothing else, in ascending order of start time.  A
    workout whose exercises list holds a null entry is not returned. *)
Theorem get_workouts_by_exercise_exact (st : couch) (x : string) :
  has_views "workouts" workouts_views st →
  ∃ res,
    get_workouts_by_exercise st x = Return res
    ∧ get_workout_progression st x = Return res
    ∧ res ≡ₚ stored_of_type "workout" st ≫= exercise_hits x
    ∧ StronglySorted by_start_time res.
Proof.
  intros Hv.
  assert (∀ b, (rows ← couch_view st "workouts" "by_exercise"
                         (exercise_range x b);
                Return (values_of rows))
               = Return (map row_value
                           (filter (λ r, in_range (exercise_range x false)
                                                  (row_key r) = true)
                              (index_rows (ViewSem by_exercise_map None)
                                 st)))) as Hq.
  { intros b. unfold couch_view.
    assert (opts_json_ok (exercise_range x b) = true) as -> by done.
    cbn [negb]. rewrite (resolve_by_exercise st Hv).
    cbn [mbind result_bind vreduce]. unfold values_of.
    rewrite map_map. f_equal. by destruct b. }
  eexists. split; [apply (Hq false)|]. split; [apply (Hq true)|]. split.
  - unfold stored_of_type. rewrite <-(by_exercise_values x false).
    unfold index_rows. by rewrite merge_sort_Permutation.
  - set (sem := ViewSem by_exercise_map None).
    assert (StronglySorted row_le
              (filter (λ r, in_range (exercise_range x false) (row_key r)
                            = true) (index_rows sem st))) as Hs.
    { apply StronglySorted_filter. unfold index_rows.
      apply StronglySorted_merge_sort; apply _. }
    assert (Forall (λ r, row_key r
                         = VList [VStr x; start_time_of (row_value r)])
              (filter (λ r, in_range (exercise_range x false) (row_key r)
                            = true) (index_rows sem st))) as Hk.
    { apply Forall_forall. intros r [Hr Hin]%list_elem_of_filter.
      unfold index_rows in Hin. rewrite merge_sort_Permutation in Hin.
      eapply Forall_forall in Hin; [|apply by_exercise_rows_key].
      destruct Hin as [k Hkey]. rewrite Hkey in Hr |- *.
      by apply in_range_exercise in Hr as [-> _]. }
    induction Hs as [|r rows Hs IH Hr]; [constructor|].
    apply Forall_cons in Hk as [Hr1 Hk]. simpl.
    constructor; [by apply IH|].
    apply Forall_fmap, Forall_forall. intros r2 Hr2.
    eapply Forall_forall in Hr; [|exact Hr2].
    eapply Forall_forall in Hk; [|exact Hr2].
    apply row_le_key in Hr. rewrite Hr1, Hk in Hr.
    unfold by_start_time, collate_le in *. cbn [collate lex_compare] in Hr.
    rewrite string_compare_refl in Hr. simpl.
    by destruct (collate (start_time_of (row_value r))
                   (start_time_of (row_value r2))).
Qed.

(** ** What a CouchDB database holds *)

Lemma json_ok_strip (d : pydict) :
  json_ok (VDict d) = true → json_ok (VDict (strip d)) = true.
Proof.
  assert (∀ k d, json_ok (VDict d) = true →
                 json_ok (VDict (dict_del k d)) = true) as Hdel.
  { intros k d'. unfold dict_del. simpl.
    induction d' as [|[k' v] d' IH]; [done|]. simpl.
    intros [Hv Hd]%andb_true_iff. rewrite filter_cons. simpl.
    case_decide; simpl; [by rewrite Hv, IH|by apply IH]. }
  intros Hj. unfold strip. by do 2 apply Hdel.
Qed.

Lemma strip_no_id (d : pydict) :
  dict_get "_id" (strip d) = None ∧ dict_get "_rev" (strip d) = None.
Proof.
  unfold strip. split.
  - rewrite dict_get_del_ne by done. apply dict_get_del_eq.
  - apply dict_get_del_eq.
Qed.

Lemma couch_save_keeps (st st' : couch) (doc id rev doc' : value) :
  stored_json st →
  couch_save st doc = Return (id, rev, doc', st') →
  stored_json st'.
Proof.
  intros Hst (d & i & gen & -> & Hj & _ & _ & _ & _ & ->)%couch_save_inv.
  unfold stored_json. simpl. apply map_Forall_insert_2; [|done]. simpl.
  split; [by apply json_ok_strip|apply strip_no_id].
Qed.

Lemma couch_delete_keeps (st st' : couch) (d : pydict) :
  stored_json st → couch_delete st d = Return st' → stored_json st'.
Proof.
  intros Hst. unfold couch_delete.
  destruct (subscript (VDict d) "_id") as [id|]; [|done].
  cbn [mbind result_bind].
  destruct (subscript (VDict d) "_rev") as [rev|]; [|done].
  cbn [mbind result_bind].
  destruct id as [| | |i| | | |]; try done.
  destruct rev as [| | |r| | | |]; try done.
  destruct (negb (doc_id_ok i)); [done|].
  destruct (docs st !! i); [|done].
  destruct (decide _); [|done]. intros [= <-].
  by apply map_Forall_delete.
Qed.

Lemma put_design_keeps_json (name : string) (views : pydict) (st : couch) :
  json_ok (VDict views) = true →
  stored_json st → stored_json (put_design name views st).
Proof.
  intros Hv Hst. unfold put_design. case_decide; [done|].
  unfold stored_json. simpl. apply map_Forall_insert_2; [|done].
  simpl in *. by rewrite Hv.
Qed.

(** An invariant of the CouchDB database under the methods that write.
    The empty database satisfies: every stored body is JSON and has no _id
    and no _rev member.  When a database satisfies it, so does the database
    the bootstrap leaves, and so does the database after every successful
    save_document, update_document, save_exercise, save_workout,
    save_exercises, create_view, update_user_hevy_api_key and
    delete_document; get_user_by_username leaves the database as it is. *)
Theorem stored_json_invariant (st : couch) :
  stored_json st →
  stored_json (Couch ∅ (leaf_capacity st))
  ∧ stored_json (_create_design_documents st)
  ∧ (∀ doc id rev st',
       save_document st doc = Return (id, rev, st') → stored_json st')
  ∧ (∀ doc id rev st',
       update_document st doc = Return (id, rev, st') → stored_json st')
  ∧ (∀ p id p' st',
       save_exercise st p = Return (id, p', st') → stored_json st')
  ∧ (∀ p id p' st',
       save_workout st p = Return (id, p', st') → stored_json st')
  ∧ (∀ clock exercises user_id st',
       save_exercises st clock exercises user_id = Return st' →
       stored_json st')
  ∧ (∀ name view m r id rev st',
       create_view st name view m r = Return (id, rev, st') →
       stored_json st')
  ∧ (∀ clock user_id api_key r st',
       update_user_hevy_api_key st clock user_id api_key = Return (r, st') →
       stored_json st')
  ∧ (∀ doc_id b st',
       delete_document st doc_id = Return (b, st') → stored_json st')
  ∧ (∀ username r st',
       get_user_by_username st username = Return (r, st') → st' = st).
Proof.
  intros Hst.
  assert (∀ doc (x : value * value * couch) (f : value * value * value * couch
                                                → value * value),
            (r ← couch_save st doc; Return (f r, r.2)) = Return x →
            stored_json x.2) as Hsave.
  { intros doc x f.
    destruct (couch_save st doc) as [[[[a b] c] st0]|] eqn:Hs; [|done].
    simpl. intros [= <-]. simpl. by eapply couch_save_keeps. }
  split; [by apply map_Forall_empty|].
  split.
  { rewrite create_design_documents_couch.
    by do 3 (apply put_design_keeps_json; [reflexivity|]). }
  split.
  { intros doc id rev st' H. unfold save_document, try_except in H.
    change (db_save st) with (couch_save st) in H.
    destruct (couch_save st _) as [[[[a b] c] st0]|] eqn:Hs; [|done].
    simpl in H. injection H as <- <- <-. by eapply couch_save_keeps. }
  split.
  { intros doc id rev st' H. unfold update_document in H.
    change (db_save st) with (couch_save st) in H.
    destruct (couch_save st _) as [[[[a b] c] st0]|] eqn:Hs; [|done].
    simpl in H. injection H as <- <- <-. by eapply couch_save_keeps. }
  assert (∀ lookup p id p' st',
            save_by_hevy_id lookup st p = Return (id, p', st') →
            stored_json st') as Hhevy.
  { intros lookup p id p' st' H. unfold save_by_hevy_id, try_except in H.
    change (db_save st) with (couch_save st) in H.
    destruct (reconcile lookup st p) as [q|]; [|done]. simpl in H.
    destruct (couch_save st _) as [[[[a b] c] st0]|] eqn:Hs; [|done].
    simpl in H. injection H as <- <- <-. by eapply couch_save_keeps. }
  split; [apply Hhevy|]. split; [apply Hhevy|].
  split.
  { intros clock exercises user_id st' H.
    unfold save_exercises, try_except in H.
    change (db_save st) with (couch_save st) in H.
    destruct (try_except_only _ _ _) as [q|]; [|done]. simpl in H.
    destruct (couch_save st _) as [[[[a b] c] st0]|] eqn:Hs; [|done].
    simpl in H. injection H as <-. by eapply couch_save_keeps. }
  split.
  { intros name view m r id rev st' H. unfold create_view in H.
    change (db_save st) with (couch_save st) in H.
    destruct (try_except_only _ _ _) as [q|]; [|done]. simpl in H.
    destruct (couch_save st _) as [[[[a b] c] st0]|] eqn:Hs; [|done].
    simpl in H. injection H as <- <- <-. by eapply couch_save_keeps. }
  split.
  { intros clock user_id api_key r st' H.
    unfold update_user_hevy_api_key, try_except_only in H.
    change (db_save st) with (couch_save st) in H.
    destruct (db_getitem st user_id) as [d|ex]; simpl in H.
    - destruct (couch_save st _) as [[[[a b] c] st0]|ex] eqn:Hs; simpl in H.
      + injection H as <- <-. by eapply couch_save_keeps.
      + destruct (decide (ex = ResourceNotFound)); [|done].
        by injection H as <- <-.
    - destruct (decide (ex = ResourceNotFound)); [|done].
      by injection H as <- <-. }
  split.
  { intros doc_id b st' H. unfold delete_document, try_except_only in H.
    destruct (db_getitem st doc_id) as [d|ex]; simpl in H.
    - change (db_delete st d) with (couch_delete st d) in H.
      destruct (couch_delete st d) as [st0|ex] eqn:Hd; simpl in H.
      + injection H as <- <-. by eapply couch_delete_keeps.
      + destruct (decide (ex = ResourceNotFound)); [|done].
        by injection H as <- <-.
    - destruct (decide (ex = ResourceNotFound)); [|done].
      by injection H as <- <-. }
  intros username r st' H. unfold get_user_by_username, try_except in H.
  destruct (db_find st _) as [[|[k d] found]|]; simpl in H.
  - by injection H as <- <-.
  - destruct (first_workout_day d) as [[x|ex]|]; simpl in H;
      by injection H as <- <-.
  - by injection H as <- <-.
Qed.

(** ** The further theorems on concrete stores *)

(** A profile with a datetime, saved to the bootstrapped database and read
    back with the ISO string in its place. *)
Lemma get_document_after_save_witness :
  ∃ i r d,
    VStr "uuid0" = VStr i ∧ VStr "1-couch" = VStr r
    ∧ _ensure_json_serializable (VDict alice) = VDict d
    ∧ (doc_id_ok i = true →
       get_document
         (Couch (<["uuid0" := Entry 1 [("type", VStr "user_profile");
                                       ("username", VStr "alice");
                                       ("joined",
                                        VStr "2024-05-01T08:00:00")]]>
                   (docs bootstrapped)) 8) i
       = Return (Some (("_id", VStr i) :: ("_rev", VStr r) :: strip d)))
    ∧ (dict_get "_id" d = None → doc_id_ok i = true).
Proof.
  apply (get_document_after_save bootstrapped
           (Couch (<["uuid0" := Entry 1 [("type", VStr "user_profile");
                                         ("username", VStr "alice");
                                         ("joined",
                                          VStr "2024-05-01T08:00:00")]]>
                     (docs bootstrapped)) 8)
           (VDict alice) (VStr "uuid0") (VStr "1-couch")).
  vm_compute. reflexivity.
Defined.

Lemma delete_document_removes_witness :
  ∃ st',
    delete_document (three_workouts 8) "w1"
      = Return (bool_decide (is_Some (docs (three_workouts 8) !! "w1")), st')
    ∧ docs st' = delete "w1" (docs (three_workouts 8))
    ∧ (docs (three_workouts 8) !! "w1" = None → st' = three_workouts 8)
    ∧ get_document st' "w1" = Return None
    ∧ delete_document st' "w1" = Return (false, st').
Proof.
  apply (delete_document_removes (three_workouts 8) "w1"). reflexivity.
Defined.

(** The history of a user on a database that holds no workout: the three
    design documents. *)
Lemma workout_history_without_dates_witness :
  ∃ rows,
    get_user_workout_history bootstrapped "u1" None None = Return (inr rows)
    ∧ get_all_documents bootstrapped = Return rows
    ∧ ∀ id, Some id ∈ map row_id rows ↔ is_Some (docs bootstrapped !! id).
Proof.
  apply (workout_history_without_dates bootstrapped "u1" None None).
  by left.
Defined.

(** A view added to the bootstrapped workouts design document: the four
    views of the source are gone, and the date range query, whose handler
    takes the missing view for an empty history, returns the empty list. *)
Lemma create_view_replaces_views_witness :
  ∃ st',
    create_view bootstrapped "workouts" "per_day" (VStr count_by_day)
      (VStr "_count")
    = Return (VStr (design_id "workouts"), VStr (rev_token 2), st')
    ∧ get_workouts_by_date_range st' (Datetime 2024 1 1 0 0 0 0 None)
        (Datetime 2024 1 31 0 0 0 0 None) = Return []
    ∧ couch_view st' "workouts" "by_hevy_id" no_opts = Raise ResourceNotFound
    ∧ couch_view st' "workouts" "stats" no_opts = Raise ResourceNotFound.
Proof.
  destruct (create_view bootstrapped "workouts" "per_day" (VStr count_by_day)
              (VStr "_count")) as [[[id rev] st']|e] eqn:Hc;
    [|by vm_compute in Hc].
  destruct (create_view_replaces_views bootstrapped "workouts" "per_day"
              count_by_day "_count") as [_ H].
  destruct (H id rev st' Hc) as (gen & body & -> & -> & Hst & -> & _ & _ & Hq).
  exists st'. split; [vm_compute; reflexivity|].
  split; [|split; by apply Hq].
  unfold get_workouts_by_date_range.
  change (db_view st') with (couch_view st').
  by rewrite Hq.
Defined.

Lemma user_view_queries_raise_witness :
  get_users_by_fitness_goal bootstrapped "strength" = Raise ResourceNotFound
  ∧ get_users_by_injury bootstrapped "knee" (Some 2) = Raise ResourceNotFound.
Proof.
  apply (user_view_queries_raise bootstrapped "strength" "knee" (Some 2)).
  right. exists (Entry 1 [("views", VDict users_views)]).
  split; vm_compute; reflexivity.
Defined.

Lemma update_user_hevy_api_key_sets_witness :
  (docs gym !! "u1" = None →
   update_user_hevy_api_key gym noon "u1" "key-1" = Return (None, gym))
  ∧ (∀ e, docs gym !! "u1" = Some e →
     ∃ body,
       update_user_hevy_api_key gym noon "u1" "key-1"
       = Return (Some (VStr "u1", VStr (rev_token (S (e_gen e)))),
                 Couch (<["u1" := Entry (S (e_gen e)) body]> (docs gym))
                       (leaf_capacity gym))
       ∧ dict_get "hevy_api_key" body = Some (VStr "key-1")
       ∧ dict_get "hevy_api_key_updated_at" body
         = Some (VStr (isoformat (utc_now noon)))
       ∧ ∀ k, k ≠ "hevy_api_key" → k ≠ "hevy_api_key_updated_at" →
              k ≠ "_id" → k ≠ "_rev" →
              dict_get k body = dict_get k (e_body e)).
Proof.
  apply (update_user_hevy_api_key_sets gym noon "u1" "key-1"); [reflexivity|].
  intros e He. vm_compute in He. injection He as <-. reflexivity.
Defined.

Lemma username_exists_after_save_witness :
  ((∀ i e, docs bootstrapped !! i = Some e →
           user_matches "alice" (doc_of i e) = false) →
   username_exists bootstrapped "alice" = Return false)
  ∧ username_exists
      (Couch (<["uuid0" := Entry 1 [("type", VStr "user_profile");
                                    ("username", VStr "alice");
                                    ("joined", VStr "2024-05-01T08:00:00")]]>
                (docs bootstrapped)) 8) "alice"
    = Return true.
Proof.
  apply (username_exists_after_save bootstrapped _ alice "alice"
           (VStr "uuid0") (VStr "1-couch")); [reflexivity..|].
  vm_compute. reflexivity.
Defined.

Lemma get_exercises_concat_witness :
  get_exercises gym (Some "u1") true
  = Return (exercise_list gym "base_exercises"
            ++ (if true && bool_decide ("u1" ≠ EmptyString)
                then exercise_list gym ("custom_exercises_" +:+ "u1")
                else []))%list.
Proof.
  apply (get_exercises_concat gym (Some "u1") true).
  - intros e x He Hx. vm_compute in He. injection He as <-.
    vm_compute in Hx. injection Hx as <-. eauto.
  - intros u [= <-] e x He Hx. vm_compute in He. injection He as <-.
    vm_compute in Hx. injection Hx as <-. eauto.
Defined.

Lemma empty_user_id_exercises_witness :
  ∃ st',
    save_exercises gym noon [VStr "lunge"] (Some EmptyString) = Return st'
    ∧ get_custom_exercises st' EmptyString = Return (VList [VStr "lunge"])
    ∧ get_exercises st' (Some EmptyString) true = get_exercises gym None true.
Proof.
  apply (empty_user_id_exercises gym noon [VStr "lunge"] true). reflexivity.
Defined.

Lemma mock_save_then_get_witness :
  ∃ d',
    VDict (dict_set "_id" (auto_id 0) squat) = VDict d'
    ∧ VStr "1-mock" = VStr "1-mock"
    ∧ dict_get "_id" d' = Some (auto_id 0)
    ∧ mock_get (Mock [(auto_id 0, dict_set "_id" (auto_id 0) squat)] 1)
        (auto_id 0) = Return (Some d')
    ∧ (∀ k, py_key k ≠ py_key (auto_id 0) →
            mock_get (Mock [(auto_id 0, dict_set "_id" (auto_id 0) squat)] 1) k
            = mock_get (Mock [] 0) k)
    ∧ (∀ sel, mock_match sel d' = true →
         ∃ found,
           mock_find (Mock [(auto_id 0, dict_set "_id" (auto_id 0) squat)] 1)
             [("selector", VDict sel)] = Return found
           ∧ d' ∈ found.*2).
Proof.
  apply (mock_save_then_get (Mock [] 0) _ (VDict squat) (auto_id 0)
           (VStr "1-mock") (VDict (dict_set "_id" (auto_id 0) squat))).
  reflexivity.
Defined.

Lemma mock_auto_ids_fresh_witness :
  auto_ids_below (Mock [] 0)
  ∧ ∃ m',
      mock_save (Mock [] 0) (VDict squat)
      = Return (auto_id 0, VStr "1-mock",
                VDict (dict_set "_id" (auto_id 0) squat), m')
      ∧ data_get (auto_id 0) [] = None
      ∧ data m' = ([] ++ [(auto_id 0, dict_set "_id" (auto_id 0) squat)])%list
      ∧ counter m' = 1%nat
      ∧ auto_ids_below m'.
Proof.
  apply (mock_auto_ids_fresh (Mock [] 0) squat); [|reflexivity].
  by intros n [??].
Defined.

(** A caller saved a dict under mock_0 before the mock handed that id out. *)
Lemma mock_auto_id_overwrites_witness :
  ∃ m',
    mock_save (Mock [(auto_id 0, [("_id", auto_id 0)])] 0) (VDict squat)
    = Return (auto_id 0, VStr "1-mock",
              VDict (dict_set "_id" (auto_id 0) squat), m')
    ∧ length (data m') = 1%nat
    ∧ mock_get m' (auto_id 0)
      = Return (Some (dict_set "_id" (auto_id 0) squat)).
Proof.
  apply (mock_auto_id_overwrites (Mock [(auto_id 0, [("_id", auto_id 0)])] 0)
           squat [("_id", auto_id 0)]); reflexivity.
Defined.

Lemma get_user_by_username_aliasing_witness :
  (∃ m',
     get_user_by_username (Mock [(VStr "mock_0", bob)] 1) "bob"
     = Return (Some (dict_set "preferred_workout_days" (VInt 3) bob), m')
     ∧ mock_get m' (VStr "mock_0")
       = Return (Some (dict_set "preferred_workout_days" (VInt 3) bob)))
  ∧ ∃ r, get_user_by_username gym "bob" = Return (r, gym).
Proof.
  apply (get_user_by_username_aliasing (Mock [(VStr "mock_0", bob)] 1) gym
           "bob" (VStr "mock_0") (VInt 3) bob [VInt 5] []); reflexivity.
Defined.

Lemma save_document_new_witness :
  ∃ d',
    _ensure_json_serializable (VDict alice) = VDict d'
    ∧ docs bootstrapped !! fresh_uuid bootstrapped = None
    ∧ save_document bootstrapped (VDict alice)
      = Return (VStr (fresh_uuid bootstrapped), VStr (rev_token 1),
                Couch (<[fresh_uuid bootstrapped := Entry 1 d']>
                         (docs bootstrapped))
                      (leaf_capacity bootstrapped)).
Proof.
  exact (save_document_new bootstrapped alice eq_refl eq_refl).
Defined.

(** Squat, then Back Squat: the lookup finds the second name under the
    first id, at revision 2. *)
Lemma lookup_after_upsert_witness :
  get_exercise_by_hevy_id bootstrapped (VStr "ex1") = Return None
  ∧ ∃ id st',
      save_all save_exercise bootstrapped [squat; back_squat]
      = Return ([VStr id; VStr id], st')
      ∧ get_exercise_by_hevy_id st' (VStr "ex1")
        = Return (Some (VDict (("_id", VStr id)
                               :: ("_rev", VStr (rev_token 2))
                               :: back_squat))).
Proof.
  apply (lookup_after_upsert Exercise bootstrapped (VStr "ex1") squat
           [back_squat]).
  - exists (Entry 1 [("views", VDict exercises_views)]).
    split; vm_compute; reflexivity.
  - apply (bool_decide_unpack
             (map_Forall (λ id e, ¬ indexed "exercise" (VStr "ex1") id e)
                (docs bootstrapped))).
    vm_compute. exact I.
  - repeat constructor.
  - reflexivity.
  - reflexivity.
Defined.

Lemma exercise_readers_exact_witness :
  (∃ res,
     get_all_exercises two_exercises = Return (map Some res)
     ∧ res ≡ₚ stored_of_type "exercise" two_exercises)
  ∧ ∃ res,
      get_exercises_by_muscle_group two_exercises (VStr "legs")
      = Return (map Some res)
      ∧ res ≡ₚ filter (λ doc, collate (member_of "muscle_group" doc)
                                      (VStr "legs") = Eq)
                 (stored_of_type "exercise" two_exercises)
      ∧ ∀ s d, VStr "legs" = VStr s →
               (VDict d ∈ res
                ↔ VDict d ∈ stored_of_type "exercise" two_exercises
                  ∧ dict_get "muscle_group" d = Some (VStr s)).
Proof.
  apply (exercise_readers_exact two_exercises (VStr "legs")); [|reflexivity].
  exists (Entry 1 [("views", VDict exercises_views)]).
  split; vm_compute; reflexivity.
Defined.

Lemma get_workouts_by_exercise_exact_witness :
  ∃ res,
    get_workouts_by_exercise (three_workouts 8) "squat" = Return res
    ∧ get_workout_progression (three_workouts 8) "squat" = Return res
    ∧ res ≡ₚ stored_of_type "workout" (three_workouts 8)
             ≫= exercise_hits "squat"
    ∧ StronglySorted by_start_time res.
Proof.
  apply (get_workouts_by_exercise_exact (three_workouts 8) "squat").
  exists (Entry 1 [("views", VDict workouts_views)]).
  split; vm_compute; reflexivity.
Defined.

(** The bootstrapped database holds JSON bodies only, and keeps doing so. *)
Lemma stored_json_invariant_witness :
  stored_json (_create_design_documents bootstrapped)
  ∧ (∀ doc id rev st',
       save_document bootstrapped doc = Return (id, rev, st') →
       stored_json st')
  ∧ (∀ doc_id b st',
       delete_document bootstrapped doc_id = Return (b, st') →
       stored_json st').
Proof.
  assert (stored_json bootstrapped) as Hst.
  { apply (bool_decide_unpack
             (map_Forall (λ _ e, json_ok (VDict (e_body e)) = true
                                 ∧ dict_get "_id" (e_body e) = None
                                 ∧ dict_get "_rev" (e_body e) = None)
                (docs bootstrapped))).
    vm_compute. exact I. }
  destruct (stored_json_invariant bootstrapped Hst)
    as (_ & H1 & H2 & _ & _ & _ & _ & _ & _ & H3 & _).
  exact (conj H1 (conj H2 H3)).
Defined.


(** The values of three workouts of 30, 40 and 50 minutes. *)
Lemma stats_reduce_values_witness :
  stats_reduce [] (map stat_value [(30, 2); (40, 1); (50, 3)]) false
  = Return (stats_total [(30, 2); (40, 1); (50, 3)]).
Proof.
  apply (stats_reduce_values [] [(30, 2); (40, 1); (50, 3)] false);
    by vm_compute.
Defined.
